(** * Structural and value validation of the bonder configuration

    Shallow embedding of [packages/hop-node/src/config/validation.ts]:
    [validateKeys], [validateConfigFileStructure] and
    [validateConfigValues], over a model of the JavaScript values a
    configuration object is made of. *)

From Stdlib Require Import List String Ascii Bool Arith Lia PrimFloat.
From Stdlib Require Import DecimalString ZArith FloatOps SpecFloat.
Import ListNotations.
Local Open Scope string_scope.
Local Open Scope list_scope.

Set Warnings "-register-all".

(** ** JavaScript values *)

(** A configuration is a tree of JavaScript values.  Numbers are IEEE 754
    doubles, a string is the sequence of its code units.  An object is the list of its own enumerable properties in the
    order [Object.keys] and [for ... in] enumerate them.  Properties
    inherited from a prototype are not part of the model. *)
Inductive value : Type :=
| VUndefined
| VNull
| VBool (b : bool)
| VNum (n : float)
| VStr (s : string)
| VArr (elements : list value)
| VObj (properties : list (string * value)).

(** What a [throw] carries.  [Error] is the class the validators raise
    themselves, with its message; [TypeError] is raised by the runtime
    ([Object.keys] or a property read on [undefined] or [null]);
    [URIError] is raised and caught again inside the URL check. *)
Inductive exn : Type :=
| Error (message : string)
| TypeError
| URIError.

(** A computation either completes with a value or throws. *)
Inductive result (A : Type) : Type :=
| Ok (a : A)
| Throw (e : exn).

Arguments Ok {A} a.
Arguments Throw {A} e.

Definition bind {A B : Type} (c : result A) (k : A -> result B) : result B :=
  match c with
  | Ok a => k a
  | Throw e => Throw e
  end.

Declare Scope js_scope.
Delimit Scope js_scope with js.
Notation "x <- c ;; k" := (bind c (fun x => k))
  (at level 61, c at next level, right associativity) : js_scope.
Notation "c ;; k" := (bind c (fun _ => k))
  (at level 61, right associativity) : js_scope.
Local Open Scope js_scope.

(** [if (cond) { throw e }] *)
Definition throw_if (cond : bool) (e : exn) : result unit :=
  if cond then Throw e else Ok tt.

(** [for (const x of xs) { body x }] *)
Fixpoint for_of {A : Type} (xs : list A) (body : A -> result unit) : result unit :=
  match xs with
  | [] => Ok tt
  | x :: rest => body x ;; for_of rest body
  end.

(** ** Primitive operations on values *)

(** ToBoolean: [undefined], [null], [false], [0], [-0], [NaN] and the empty
    string are falsy, everything else is truthy. *)
Definition truthy (v : value) : bool :=
  match v with
  | VUndefined | VNull => false
  | VBool b => b
  | VNum n => negb (PrimFloat.eqb n zero || PrimFloat.is_nan n)
  | VStr s => negb (s =? "")
  | VArr _ | VObj _ => true
  end.

Definition nullish (v : value) : bool :=
  match v with
  | VUndefined | VNull => true
  | _ => false
  end.

(** [v instanceof Object] *)
Definition instanceof_Object (v : value) : bool :=
  match v with
  | VArr _ | VObj _ => true
  | _ => false
  end.

Inductive type_tag : Type :=
| t_undefined | t_object | t_boolean | t_number | t_string.

(** [typeof v] *)
Definition typeof (v : value) : type_tag :=
  match v with
  | VUndefined => t_undefined
  | VNull | VArr _ | VObj _ => t_object
  | VBool _ => t_boolean
  | VNum _ => t_number
  | VStr _ => t_string
  end.

Definition is_type (t : type_tag) (v : value) : bool :=
  match t, typeof v with
  | t_undefined, t_undefined | t_object, t_object | t_boolean, t_boolean
  | t_number, t_number | t_string, t_string => true
  | _, _ => false
  end.

(** The decimal name of an array index. *)
Definition index_name (i : nat) : string :=
  NilZero.string_of_uint (Nat.to_uint i).

Definition index_names (n : nat) : list string :=
  map index_name (seq 0 n).

Fixpoint code_units (s : string) : list value :=
  match s with
  | EmptyString => []
  | String c rest => VStr (String c EmptyString) :: code_units rest
  end.

(** The own enumerable properties of a value, in enumeration order: the
    properties of an object, the elements of an array and the code units
    of a string under their index names; the other primitives have none. *)
Definition entries (v : value) : list (string * value) :=
  match v with
  | VObj properties => properties
  | VArr elements => combine (index_names (List.length elements)) elements
  | VStr s => let units := code_units s in combine (index_names (List.length units)) units
  | _ => []
  end.

Fixpoint lookup (k : string) (properties : list (string * value)) : option value :=
  match properties with
  | [] => None
  | (k', v) :: rest => if k' =? k then Some v else lookup k rest
  end.

(** The keys [for (const k in v)] visits; nothing for [undefined] and
    [null]. *)
Definition own_keys (v : value) : list string :=
  map fst (entries v).

(** [Object.keys(v)] throws on [undefined] and [null]. *)
Definition Object_keys (v : value) : result (list string) :=
  if nullish v then Throw TypeError else Ok (own_keys v).

(** The value of property [k] of a value that is neither [undefined] nor
    [null]: [undefined] when there is no such property. *)
Definition prop (v : value) (k : string) : value :=
  match lookup k (entries v) with
  | Some x => x
  | None => VUndefined
  end.

(** [v[k]] and [v.k]: a property read throws on [undefined] and [null]. *)
Definition get (v : value) (k : string) : result value :=
  if nullish v then Throw TypeError else Ok (prop v k).

(** [v?.[k]] and [v?.k] *)
Definition get_opt (v : value) (k : string) : value :=
  if nullish v then VUndefined else prop v k.

(** [xs.includes(x)] on an array of strings. *)
Definition includes (xs : list string) (x : string) : bool :=
  existsb (String.eqb x) xs.

(** [xs.join(sep)] *)
Definition join (sep : string) (xs : list string) : string :=
  String.concat sep xs.


(** [if (cond) { body }] *)
Definition when (cond : bool) (body : result unit) : result unit :=
  if cond then body else Ok tt.

(** [try { body } catch (err) { handler err }] *)
Definition try_catch {A : Type} (body : result A) (handler : exn -> result A) : result A :=
  match body with
  | Ok a => Ok a
  | Throw e => handler e
  end.

(** The double quote character of the messages. *)
Definition dq : string := String "034"%char EmptyString.

Definition quoted (s : string) : string := dq ++ s ++ dq.

(** ** What the validators import *)

(** The fields of a parsed [URL] the value pass reads. *)
Record URL : Type := mkURL { protocol : string; host : string }.

(** The declarations [validation.ts] imports from outside the file: the
    members of the [Chain] and [Watchers] enumerations, the lists
    [getAllChains()], [getAllTokens()] and [getEnabledTokens()] return, the
    [URL] constructor of the runtime and
    [getAddress] of ethers ([None] when they throw), the runtime's
    conversion of a number to a string in a template literal, and what the
    runtime finds beyond the own enumerable properties of a value:
    [Runtime_inherited_number v (k :: rest)] is the outcome of
    [typeof v[k]...[kn] === 'number'] for the keys [k :: rest], when [k] is
    not an own enumerable property of [v] and [rest] is not empty, so that
    the read goes on in a method or an object of a prototype, or throws the
    [TypeError] of a read on [undefined]. *)
Record externals : Type := {
  Chain_Ethereum : string;
  Chain_Optimism : string;
  Chain_Arbitrum : string;
  Chain_Gnosis : string;
  Chain_Polygon : string;
  Chain_Nova : string;
  Chain_ZkSync : string;
  Chain_Linea : string;
  Chain_ScrollZk : string;
  Chain_Base : string;
  Watchers_BondTransferRoot : string;
  Watchers_BondWithdrawal : string;
  Watchers_Challenge : string;
  Watchers_CommitTransfers : string;
  Watchers_SettleBondedWithdrawals : string;
  Watchers_ConfirmRoots : string;
  Watchers_L1ToL2Relay : string;
  getAllChains : list string;
  getAllTokens : list string;
  getEnabledTokens : list string;
  URL_parse : string -> option URL;
  checksumAddress : string -> option string;
  Number_toString : float -> string;
  Runtime_inherited_number : value -> list string -> result bool
}.

Section Validation.

Variable E : externals.

(** ToString, as a template literal applies it to an interpolated value. *)
Fixpoint ToString (v : value) : string :=
  match v with
  | VUndefined => "undefined"
  | VNull => "null"
  | VBool true => "true"
  | VBool false => "false"
  | VNum n => Number_toString E n
  | VStr s => s
  | VArr elements =>
      join "," (map (fun x => if nullish x then "" else ToString x) elements)
  | VObj _ => "[object Object]"
  end.

(** Lines 6-14. *)
Definition isValidToken (token : string) : bool :=
  let validTokens := getAllTokens E in
  includes validTokens token.

Definition isValidChain (network : string) : bool :=
  let networks := getAllChains E in
  includes networks network.

(** ** validateKeys *)

Definition unrecognized_key (key : string) (validKeys : list string) : exn :=
  Error ("unrecognized key " ++ quoted key ++ ". Valid keys are: " ++ join "," validKeys).

Definition validateKeys (validKeys keys : list string) : result unit :=
  for_of keys (fun key =>
    throw_if (negb (includes validKeys key)) (unrecognized_key key validKeys)).

(** [validateKeys(validKeys, [key])] for a [key] read from the configuration,
    which need not be a string: [includes] compares with strict equality, so
    only a string can be found in [validKeys]. *)
Definition validateKey_of_value (validKeys : list string) (key : value) : result unit :=
  match key with
  | VStr s => validateKeys validKeys [s]
  | _ => Throw (unrecognized_key (ToString key) validKeys)
  end.

(** ** validateConfigFileStructure *)

Definition validSectionKeys : list string :=
  [ "network"; "chains"; "sync"; "tokens"; "commitTransfers"; "bondWithdrawals";
    "settleBondedWithdrawals"; "watchers"; "db"; "logging"; "keystore";
    "addresses"; "metrics"; "fees"; "routes"; "bonders"; "signer"; "vault";
    "blocklist" ].

Definition validWatcherKeys : list string :=
  [ Watchers_BondTransferRoot E; Watchers_BondWithdrawal E; Watchers_Challenge E;
    Watchers_CommitTransfers E; Watchers_SettleBondedWithdrawals E;
    Watchers_ConfirmRoots E; Watchers_L1ToL2Relay E ].

Definition validChainKeys : list string :=
  [ Chain_Ethereum E; Chain_Optimism E; Chain_Arbitrum E; Chain_Gnosis E;
    Chain_Polygon E; Chain_Nova E; Chain_ZkSync E; Chain_Linea E;
    Chain_ScrollZk E; Chain_Base E ].

Definition validTokenKeys : list string :=
  [ "USDC"; "USDT"; "DAI"; "ETH"; "MATIC"; "WBTC"; "HOP"; "SNX"; "sUSD"; "rETH"; "UNI" ].

(** In the definitions below [config] is an object (both guards of lines
    25-31 passed) and a property is read with [prop] where the control flow
    has already established that the receiver is neither [undefined] nor
    [null]: it is truthy, [Object.keys] returned on it, or a [for ... in]
    loop over it is running. *)

(** Lines 96-108: the [chains] section. *)
Definition checkChains (config : value) : result (list string) :=
  enabledChains <- Object_keys (prop config "chains") ;;
  throw_if (negb (includes enabledChains (Chain_Ethereum E)))
    (Error ("config for chain " ++ quoted (Chain_Ethereum E) ++ " is required")) ;;
  validateKeys validChainKeys enabledChains ;;
  for_of (own_keys (prop config "chains")) (fun key =>
    let chain := prop (prop config "chains") key in
    let validChainConfigKeys := ["rpcUrl"; "maxGasPrice"] in
    chainKeys <- Object_keys chain ;;
    validateKeys validChainConfigKeys chainKeys) ;;
  Ok enabledChains.

(** Lines 110-111: the enabled tokens. *)
Definition checkTokens (config : value) : result (list string) :=
  tokenKeys <- Object_keys (prop config "tokens") ;;
  let enabledTokens :=
    filter (fun token => truthy (prop (prop config "tokens") token)) tokenKeys in
  validateKeys validTokenKeys enabledTokens ;;
  Ok enabledTokens.

(** Lines 113-114. *)
Definition checkWatchers (config : value) : result unit :=
  watcherKeys <- Object_keys (prop config "watchers") ;;
  validateKeys validWatcherKeys watcherKeys.

(** Lines 116-118. *)
Definition checkCredentials (config : value) : result unit :=
  throw_if (truthy (get_opt config "keystore") && truthy (get_opt config "signer"))
    (Error "You cannot have both a keystore and a signer").

(** The shape shared by lines 120-124, 137-147, 149-158, 160-164 and
    166-172: [if (config.name) { validateKeys(validKeys, Object.keys(config.name)) }]. *)
Definition checkSection (config : value) (name : string) (validKeys : list string)
  : result unit :=
  when (truthy (prop config name))
    (keys <- Object_keys (prop config name) ;;
     validateKeys validKeys keys).

(** Lines 126-135. *)
Definition checkLogging (config : value) : result unit :=
  when (truthy (prop config "logging"))
    (let validLoggingKeys := ["level"] in
     loggingKeys <- Object_keys (prop config "logging") ;;
     validateKeys validLoggingKeys loggingKeys ;;
     let level := get_opt (get_opt config "logging") "level" in
     when (truthy level)
       (let validLoggingLevels := ["debug"; "info"; "warn"; "error"] in
        validateKey_of_value validLoggingLevels level)).

(** Lines 174-181. *)
Definition checkRoutes (config : value) (enabledChains : list string) : result unit :=
  when (truthy (prop config "routes"))
    (sourceChains <- Object_keys (prop config "routes") ;;
     validateKeys enabledChains sourceChains ;;
     for_of (own_keys (prop config "routes")) (fun sourceChain =>
       destinationChains <- Object_keys (prop (prop config "routes") sourceChain) ;;
       validateKeys enabledChains destinationChains)).

(** [set.add(x)] on a [Set] kept in insertion order. *)
Definition Set_add (set : list string) (x : string) : list string :=
  if includes set x then set else set ++ [x].

(** Lines 186-191: the destination chains of all routes, in the order the
    [Set] iterates them. *)
Fixpoint collectDestinationChains (routes : value) (sourceChains : list string)
    (destinationChains : list string) : result (list string) :=
  match sourceChains with
  | [] => Ok destinationChains
  | sourceChain :: rest =>
      keys <- Object_keys (prop routes sourceChain) ;;
      collectDestinationChains routes rest (fold_left Set_add keys destinationChains)
  end.

Definition missing_fee_for_chain (chain token : string) : exn :=
  Error ("missing fee for chain " ++ quoted chain ++ " for token " ++ quoted token).

Definition missing_fee_for_token (token : string) : exn :=
  Error ("missing fee for token " ++ quoted token).

(** Lines 183-208. *)
Definition checkFees (config : value) (enabledChains enabledTokens : list string)
  : result unit :=
  when (truthy (prop config "fees"))
    (tokens <- Object_keys (prop config "fees") ;;
     validateKeys enabledTokens tokens ;;
     destinationChains <-
       collectDestinationChains (prop config "routes") (own_keys (prop config "routes")) [] ;;
     for_of (own_keys (prop config "fees")) (fun token =>
       chains <- Object_keys (prop (prop config "fees") token) ;;
       validateKeys enabledChains chains ;;
       for_of destinationChains (fun chain =>
         let found := get_opt (prop (prop config "fees") token) chain in
         throw_if (negb (truthy found)) (missing_fee_for_chain chain token))) ;;
     for_of enabledTokens (fun enabledToken =>
       let found := get_opt (get_opt config "fees") enabledToken in
       throw_if (negb (truthy found)) (missing_fee_for_token enabledToken))).

Definition missing_threshold_for_token (token : string) : exn :=
  Error ("missing minThresholdAmount config for token " ++ quoted token).

Definition missing_threshold_for_source (token sourceChain : string) : exn :=
  Error ("missing minThresholdAmount config for token " ++ quoted token
         ++ " source chain " ++ quoted sourceChain).

Definition missing_threshold_for_route (token sourceChain destinationChain : string) : exn :=
  Error ("missing minThresholdAmount config for token " ++ quoted token
         ++ " source chain " ++ quoted sourceChain
         ++ " destination chain " ++ quoted destinationChain).

(** Lines 218-237: the loop over the enabled tokens. *)
Definition checkThresholds (minThresholdAmount routes : value)
    (enabledChains enabledTokens : list string) : result unit :=
  for_of enabledTokens (fun token =>
    throw_if (negb (truthy (prop minThresholdAmount token)))
      (missing_threshold_for_token token) ;;
    chains <- Object_keys (prop minThresholdAmount token) ;;
    validateKeys enabledChains chains ;;
    for_of (own_keys routes) (fun sourceChain =>
      if sourceChain =? Chain_Ethereum E then Ok tt
      else
        throw_if (negb (truthy (prop (prop minThresholdAmount token) sourceChain)))
          (missing_threshold_for_source token sourceChain) ;;
        for_of (own_keys (prop routes sourceChain)) (fun destinationChain =>
          throw_if
            (negb (truthy (prop (prop (prop minThresholdAmount token) sourceChain)
                             destinationChain)))
            (missing_threshold_for_route token sourceChain destinationChain)))).

(** Lines 210-239. *)
Definition checkCommitTransfers (config : value) (enabledChains enabledTokens : list string)
  : result unit :=
  when (truthy (prop config "commitTransfers"))
    (let validCommitTransfersKeys := ["minThresholdAmount"] in
     commitTransfersKeys <- Object_keys (prop config "commitTransfers") ;;
     validateKeys validCommitTransfersKeys commitTransfersKeys ;;
     let minThresholdAmount := prop (prop config "commitTransfers") "minThresholdAmount" in
     tokens <- Object_keys minThresholdAmount ;;
     when (negb (List.length tokens =? 0)%nat)
       (validateKeys enabledTokens tokens ;;
        checkThresholds minThresholdAmount (prop config "routes")
          enabledChains enabledTokens)).

(** Lines 241-262. *)
Definition checkBonders (config : value) (enabledChains enabledTokens : list string)
  : result unit :=
  when (truthy (prop config "bonders"))
    (let bonders := prop config "bonders" in
     throw_if (negb (instanceof_Object bonders))
       (Error "bonders config should be an object") ;;
     tokens <- Object_keys bonders ;;
     validateKeys enabledTokens tokens ;;
     for_of enabledTokens (fun token =>
       throw_if (negb (instanceof_Object (prop bonders token)))
         (Error ("bonders config for " ++ quoted token ++ " should be an object")) ;;
       sourceChains <- Object_keys (prop bonders token) ;;
       validateKeys enabledChains sourceChains ;;
       for_of (own_keys (prop bonders token)) (fun sourceChain =>
         throw_if (negb (instanceof_Object (prop (prop bonders token) sourceChain)))
           (Error ("bonders config for " ++ quoted (token ++ "." ++ sourceChain)
                   ++ " should be an object")) ;;
         destinationChains <- Object_keys (prop (prop bonders token) sourceChain) ;;
         validateKeys enabledChains destinationChains))).

(** Lines 264-278. *)
Definition checkVault (config : value) : result unit :=
  when (truthy (prop config "vault"))
    (let vaultConfig := prop config "vault" in
     vaultTokens <- Object_keys vaultConfig ;;
     validateKeys validTokenKeys vaultTokens ;;
     for_of (own_keys vaultConfig) (fun tokenSymbol =>
       vaultChains <- Object_keys (prop vaultConfig tokenSymbol) ;;
       validateKeys validChainKeys vaultChains ;;
       for_of (own_keys (prop vaultConfig tokenSymbol)) (fun chain =>
         let chainTokenConfig := prop (prop vaultConfig tokenSymbol) chain in
         let validConfigKeys :=
           ["depositThresholdAmount"; "depositAmount"; "strategy"; "autoWithdraw";
            "autoDeposit"] in
         chainTokenConfigKeys <- Object_keys chainTokenConfig ;;
         validateKeys validConfigKeys chainTokenConfigKeys))).

(** Lines 280-288. *)
Definition checkBlocklist (config : value) : result unit :=
  when (truthy (prop config "blocklist"))
    (let blocklistConfig := prop config "blocklist" in
     throw_if (negb (instanceof_Object blocklistConfig))
       (Error "blocklist config must be an object") ;;
     let validBlocklistKeys := ["path"; "addresses"] in
     keys <- Object_keys blocklistConfig ;;
     validateKeys validBlocklistKeys keys).

(** Lines 120-172: the sections checked against a fixed list of keys. *)
Definition checkPlainSections (config : value) : result unit :=
  checkSection config "db" ["location"] ;;
  checkLogging config ;;
  checkSection config "keystore"
    ["location"; "pass"; "passwordFile"; "parameterStore"; "awsRegion"] ;;
  checkSection config "signer" ["type"; "keyId"; "awsRegion"; "lambdaFunctionName"] ;;
  checkSection config "metrics" ["enabled"; "port"] ;;
  checkSection config "addresses" ["location"].

(** The function of lines 24-289.  It is [async]: [Ok tt] is the promise
    fulfilled, [Throw e] the promise rejected with [e].  An omitted argument
    is [VUndefined]. *)
Definition validateConfigFileStructure (config : value) : result unit :=
  throw_if (negb (truthy config)) (Error "config is required") ;;
  throw_if (negb (instanceof_Object config)) (Error "config must be a JSON object") ;;
  sectionKeys <- Object_keys config ;;
  validateKeys validSectionKeys sectionKeys ;;
  enabledChains <- checkChains config ;;
  enabledTokens <- checkTokens config ;;
  checkWatchers config ;;
  checkCredentials config ;;
  checkPlainSections config ;;
  checkRoutes config enabledChains ;;
  checkFees config enabledChains enabledTokens ;;
  checkCommitTransfers config enabledChains enabledTokens ;;
  checkBonders config enabledChains enabledTokens ;;
  checkVault config ;;
  checkBlocklist config.

(** ** validateConfigValues *)

(** [new URL(s)] *)
Definition new_URL (s : string) : result URL :=
  match URL_parse E s with
  | Some parsed => Ok parsed
  | None => Throw TypeError
  end.

Definition invalid_rpc_url (rpcUrl : string) : exn :=
  Error ("rpc url " ++ quoted rpcUrl ++ " is invalid").

(** Lines 312-319. *)
Definition checkRpcUrl (rpcUrl : string) : result unit :=
  try_catch
    (parsed <- new_URL rpcUrl ;;
     throw_if (negb (truthy (VStr (protocol parsed)))
               || negb (truthy (VStr (host parsed)))
               || negb (includes ["http:"; "https:"] (protocol parsed)))
       URIError)
    (fun err => Throw (invalid_rpc_url rpcUrl)).

(** [x <= 0] on a value that is a number. *)
Definition non_positive (v : value) : bool :=
  match v with
  | VNum n => PrimFloat.leb n zero
  | _ => false
  end.

(** Lines 320-327 and 328-335: an optional number greater than zero. *)
Definition checkPositive (name chainSlug : string) (v : value) : result unit :=
  when (negb (nullish v))
    (throw_if (negb (is_type t_number v))
       (Error (name ++ " for chain " ++ quoted chainSlug ++ " must be a number")) ;;
     throw_if (non_positive v)
       (Error (name ++ " for chain " ++ quoted chainSlug ++ " must be greater than 0"))).

(** Lines 301-335: the body of the loop over [config.networks]. *)
Definition checkNetwork (networks : value) (chainSlug : string) : result unit :=
  let chain := prop networks chainSlug in
  throw_if (negb (truthy chain))
    (Error ("RPC config for chain " ++ quoted (ToString chain) ++ " is required")) ;;
  let rpcUrl := prop chain "rpcUrl" in
  let maxGasPrice := prop chain "maxGasPrice" in
  let waitConfirmations := prop chain "waitConfirmations" in
  throw_if (negb (truthy rpcUrl))
    (Error ("RPC url for chain " ++ quoted chainSlug ++ " is required")) ;;
  match rpcUrl with
  | VStr url =>
      checkRpcUrl url ;;
      checkPositive "waitConfirmations" chainSlug waitConfirmations ;;
      checkPositive "maxGasPrice" chainSlug maxGasPrice
  | _ => Throw (Error ("RPC url for chain " ++ quoted chainSlug ++ " must be a string"))
  end.

(** [typeof v[k] === 'number'] for a [k] that is not an own enumerable
    property of [v]: of what such a read finds on a value of the model (the
    [length] of a string or of an array, a method or an object of a
    prototype, or nothing) only the [length] is a number. *)
Definition inherited_is_number (v : value) (k : string) : bool :=
  match v with
  | VStr _ | VArr _ => k =? "length"
  | _ => false
  end.

(** [typeof v[k1]...[kn] === 'number'], read by read: a read on [undefined]
    or [null] throws; an own enumerable property is found in the value; any
    other key sends the read to the prototypes, where the runtime answers
    for the reads that follow. *)
Fixpoint typeof_number_at (v : value) (path : list string) : result bool :=
  match path with
  | [] => Ok (is_type t_number v)
  | k :: rest =>
      if nullish v then Throw TypeError
      else
        match lookup k (entries v), rest with
        | Some x, _ => typeof_number_at x rest
        | None, [] => Ok (inherited_is_number v k)
        | None, _ :: _ => Runtime_inherited_number E v path
        end
  end.

(** Lines 340-356. *)
Definition checkThresholdValues (config : value) (enabledTokens : list string)
  : result unit :=
  when (truthy (prop config "commitTransfers"))
    (let minThresholdAmount := prop (prop config "commitTransfers") "minThresholdAmount" in
     keys <- Object_keys minThresholdAmount ;;
     when (negb (List.length keys =? 0)%nat)
       (for_of enabledTokens (fun token =>
          for_of (own_keys (prop config "routes")) (fun sourceChain =>
            if sourceChain =? Chain_Ethereum E then Ok tt
            else
              for_of (own_keys (prop (prop config "routes") sourceChain))
                (fun destinationChain =>
                   isNumber <-
                     typeof_number_at minThresholdAmount
                       [token; sourceChain; destinationChain] ;;
                   throw_if (negb isNumber)
                     (Error ("minThresholdAmount config for token " ++ quoted token
                             ++ " source chain " ++ quoted sourceChain
                             ++ " destination chain " ++ quoted destinationChain
                             ++ " must be a number"))))))).

(** Lines 358-375. *)
Definition checkBonderAddresses (config : value) (enabledTokens : list string)
  : result unit :=
  when (truthy (prop config "bonders"))
    (let bonders := prop config "bonders" in
     for_of enabledTokens (fun token =>
       for_of (own_keys (prop bonders token)) (fun sourceChain =>
         for_of (own_keys (prop (prop bonders token) sourceChain)) (fun destinationChain =>
           let bonderAddress := prop (prop (prop bonders token) sourceChain) destinationChain in
           match bonderAddress with
           | VStr address =>
               match checksumAddress E address with
               | Some _ => Ok tt
               | None =>
                   Throw (Error ("config bonder address " ++ quoted address ++ " is invalid"))
               end
           | _ => Throw (Error "config bonder address should be a string")
           end)))).

(** [validStrategies.has(v)] for [new Set(['yearn', 'aave'])]. *)
Definition validStrategies_has (v : value) : bool :=
  match v with
  | VStr s => includes ["yearn"; "aave"] s
  | _ => false
  end.

(** Lines 381-400: the check of one token/chain entry of [vault]. *)
Definition checkVaultEntry (chainTokenConfig : value) : result unit :=
  autoDeposit <- get chainTokenConfig "autoDeposit" ;;
  throw_if (negb (is_type t_boolean autoDeposit)) (Error "autoDeposit should be boolean") ;;
  when (truthy autoDeposit)
    (throw_if (negb (is_type t_number (prop chainTokenConfig "depositThresholdAmount")))
       (Error "depositThresholdAmount should be a number") ;;
     throw_if (negb (is_type t_number (prop chainTokenConfig "depositAmount")))
       (Error "depositAmount should be a number")) ;;
  throw_if (negb (is_type t_boolean (prop chainTokenConfig "autoWithdraw")))
    (Error "autoWithdraw should be boolean") ;;
  throw_if (negb (validStrategies_has (prop chainTokenConfig "strategy")))
    (Error "strategy is invalid. Valid options are: yearn, aave").

(** Lines 377-403. *)
Definition checkVaultValues (config : value) : result unit :=
  when (truthy (prop config "vault"))
    (let vaultConfig := prop config "vault" in
     for_of (own_keys vaultConfig) (fun tokenSymbol =>
       for_of (own_keys (prop vaultConfig tokenSymbol)) (fun chain =>
         checkVaultEntry (prop (prop vaultConfig tokenSymbol) chain)))).

(** Lines 405-409. *)
Definition checkBlocklistValues (config : value) : result unit :=
  when (truthy (prop config "blocklist"))
    (throw_if (negb (is_type t_string (prop (prop config "blocklist") "path")))
       (Error "blocklist.path must be a string")).

(** The function of lines 291-410. *)
Definition validateConfigValues (config : value) : result unit :=
  throw_if (negb (truthy config)) (Error "config is required") ;;
  throw_if (negb (instanceof_Object config)) (Error "config must be a JSON object") ;;
  for_of (own_keys (prop config "networks")) (checkNetwork (prop config "networks")) ;;
  let enabledTokens := getEnabledTokens E in
  checkThresholdValues config enabledTokens ;;
  checkBonderAddresses config enabledTokens ;;
  checkVaultValues config ;;
  checkBlocklistValues config.

End Validation.

Arguments validSectionKeys : simpl never.
Arguments validTokenKeys : simpl never.

(** ** An environment to run the validators in *)

Module Example.

(** A number as a template literal prints it, for the numbers the examples
    use: [NaN], the infinities, the zeros and the integers; of a fraction
    only the integer part is printed. *)
Definition print_number (n : float) : string :=
  match FloatOps.Prim2SF n with
  | SpecFloat.S754_zero _ => "0"
  | SpecFloat.S754_infinity false => "Infinity"
  | SpecFloat.S754_infinity true => "-Infinity"
  | SpecFloat.S754_nan => "NaN"
  | SpecFloat.S754_finite sign m e =>
      let magnitude := Z.shiftl (Zpos m) e in
      (if sign then "-" else "") ++ NilZero.string_of_uint (N.to_uint (Z.to_N magnitude))
  end.

Fixpoint split_at (stop : ascii -> bool) (s : string) : string * string :=
  match s with
  | EmptyString => (EmptyString, EmptyString)
  | String c rest =>
      if stop c then (EmptyString, s)
      else let (before, after) := split_at stop rest in (String c before, after)
  end.

(** A reader of URLs of the form [scheme://authority] followed by a path,
    query or fragment; anything else is refused. *)
Definition read_url (s : string) : option URL :=
  let (scheme, rest) := split_at (Ascii.eqb ":") s in
  match scheme, rest with
  | String _ _, String ":" (String "/" (String "/" after)) =>
      let (authority, _) :=
        split_at (fun c => Ascii.eqb c "/" || Ascii.eqb c "?" || Ascii.eqb c "#") after in
      match authority with
      | EmptyString => None
      | _ => Some (mkURL (scheme ++ ":") authority)
      end
  | _, _ => None
  end.

(** Accepts the strings that have the length of an address and its prefix;
    the checksum itself is not computed. *)
Definition accept_address (s : string) : option string :=
  if (String.length s =? 42)%nat && String.prefix "0x" s then Some s else None.

(** The reads that leave the own properties of a value, one level deep: the
    [length] of a method of [Object.prototype] is a number and its other
    properties are not, the [length] of a string or an array has no number
    among its properties; any other key is taken to give [undefined], on
    which the next read throws. *)
Definition inherited_number (v : value) (path : list string) : result bool :=
  match path with
  | [k; k'] =>
      if includes ["constructor"; "hasOwnProperty"; "isPrototypeOf";
                   "propertyIsEnumerable"; "toLocaleString"; "toString"; "valueOf"] k
      then Ok (k' =? "length")
      else if inherited_is_number v k then Ok false
      else Throw TypeError
  | _ => Throw TypeError
  end.

(** The enumerations as the bonder declares them, with USDC enabled. *)
Definition env : externals := {|
  Chain_Ethereum := "ethereum";
  Chain_Optimism := "optimism";
  Chain_Arbitrum := "arbitrum";
  Chain_Gnosis := "gnosis";
  Chain_Polygon := "polygon";
  Chain_Nova := "nova";
  Chain_ZkSync := "zksync";
  Chain_Linea := "linea";
  Chain_ScrollZk := "scrollzk";
  Chain_Base := "base";
  Watchers_BondTransferRoot := "bondTransferRoot";
  Watchers_BondWithdrawal := "bondWithdrawal";
  Watchers_Challenge := "challenge";
  Watchers_CommitTransfers := "commitTransfers";
  Watchers_SettleBondedWithdrawals := "settleBondedWithdrawals";
  Watchers_ConfirmRoots := "confirmRoots";
  Watchers_L1ToL2Relay := "L1ToL2Relay";
  getAllChains := ["ethereum"; "optimism"; "arbitrum"; "gnosis"; "polygon"; "nova";
                   "zksync"; "linea"; "scrollzk"; "base"];
  getAllTokens := ["USDC"; "USDT"; "DAI"; "ETH"; "MATIC"; "WBTC"; "HOP"; "SNX"; "sUSD";
                   "rETH"; "UNI"];
  getEnabledTokens := ["USDC"];
  URL_parse := read_url;
  checksumAddress := accept_address;
  Number_toString := print_number;
  Runtime_inherited_number := inherited_number
|}.

(** A configuration with the chains Ethereum and Optimism, USDC enabled and
    one watcher, the other sections being given. *)
Definition config_with (sections : list (string * value)) : value :=
  VObj ([ ("chains", VObj [ ("ethereum", VObj [("rpcUrl", VStr "https://host")]);
                            ("optimism", VObj [("rpcUrl", VStr "https://host")]) ]);
          ("tokens", VObj [ ("USDC", VBool true) ]);
          ("watchers", VObj [ ("bondWithdrawal", VBool true) ]) ]
        ++ sections).

Definition route_to_optimism : value :=
  VObj [ ("ethereum", VObj [ ("optimism", VBool true) ]) ].

(** The configuration of the specification's scenario: the route from
    Ethereum to Optimism and the fee of USDC towards Optimism. *)
Definition scenario : value :=
  config_with [ ("routes", route_to_optimism);
                ("fees", VObj [ ("USDC", VObj [ ("optimism", VNum 1%float) ]) ]) ].

Definition scenario_without_fee : value :=
  config_with [ ("routes", route_to_optimism);
                ("fees", VObj [ ("USDC", VObj [ ]) ]) ].

(** The fee is there and is zero. *)
Definition scenario_with_zero_fee : value :=
  config_with [ ("routes", route_to_optimism);
                ("fees", VObj [ ("USDC", VObj [ ("optimism", VNum 0%float) ]) ]) ].

(** The fees of USDC are there and are [null]. *)
Definition scenario_with_null_fees : value :=
  config_with [ ("routes", route_to_optimism);
                ("fees", VObj [ ("USDC", VNull) ]) ].

Definition scenario_with_both_credentials : value :=
  config_with [ ("keystore", VObj [ ("location", VStr "/keystore") ]);
                ("signer", VObj [ ("type", VStr "kms") ]) ].

Definition scenario_without_ethereum : value :=
  VObj [ ("chains", VObj [ ("optimism", VObj [("rpcUrl", VStr "https://host")]) ]);
         ("tokens", VObj [ ("USDC", VBool true) ]);
         ("watchers", VObj [ ]) ].

Definition scenario_without_watchers : value :=
  VObj [ ("chains", VObj [ ("ethereum", VObj [("rpcUrl", VStr "https://host")]) ]);
         ("tokens", VObj [ ("USDC", VBool true) ]) ].

(** Routes in both directions, with the threshold of the route that leaves
    Optimism and none for the route that leaves Ethereum. *)
Definition both_routes : value :=
  VObj [ ("ethereum", VObj [ ("optimism", VBool true) ]);
         ("optimism", VObj [ ("ethereum", VBool true) ]) ].

Definition thresholds (amount : value) : value :=
  VObj [ ("minThresholdAmount",
          VObj [ ("USDC", VObj [ ("optimism", VObj [ ("ethereum", amount) ]) ]) ]) ].

Definition scenario_with_thresholds (amount : value) : value :=
  config_with [ ("routes", both_routes);
                ("commitTransfers", thresholds amount) ].

(** A resolved configuration, as the value pass receives it, with the given
    RPC URL for Optimism and the given [vault] section. *)
Definition resolved (rpcUrl : string) (vault : value) : value :=
  VObj [ ("networks",
          VObj [ ("ethereum", VObj [ ("rpcUrl", VStr "https://host") ]);
                 ("optimism", VObj [ ("rpcUrl", VStr rpcUrl);
                                     ("maxGasPrice", VNum 5%float) ]) ]);
         ("routes", route_to_optimism);
         ("vault", vault) ].

Definition vault_of (parameters : list (string * value)) : value :=
  VObj [ ("USDC", VObj [ ("optimism", VObj parameters) ]) ].

Definition vault_parameters : list (string * value) :=
  [ ("autoDeposit", VBool true);
    ("depositThresholdAmount", VNum 100%float);
    ("depositAmount", VNum 50%float);
    ("autoWithdraw", VBool false);
    ("strategy", VStr "yearn") ].

(** The specification's scenario: [autoDeposit] is true and [depositAmount]
    is missing. *)
Definition vault_parameters_without_amount : list (string * value) :=
  [ ("autoDeposit", VBool true);
    ("depositThresholdAmount", VNum 100%float);
    ("autoWithdraw", VBool false);
    ("strategy", VStr "yearn") ].

End Example.

(** ** Notions the statements are written with *)

(** The keys of [chains] (line 96) and the keys of [tokens] with a truthy
    value (line 110). *)
Definition enabledChainsOf (config : value) : list string :=
  own_keys (prop config "chains").

Definition enabledTokensOf (config : value) : list string :=
  filter (fun token => truthy (prop (prop config "tokens") token))
    (own_keys (prop config "tokens")).

(** [d] is the destination chain of a route declared in [routes]. *)
Definition destination_of_route (routes : value) (d : string) : Prop :=
  exists s, In s (own_keys routes) /\ In d (own_keys (prop routes s)).

Definition is_object (v : value) : bool :=
  match v with
  | VObj _ => true
  | _ => false
  end.

(** [key in v] for an own property. *)
Definition has_key (v : value) (key : string) : bool :=
  includes (own_keys v) key.

(** [delete v[k]] *)
Definition delete (k : string) (v : value) : value :=
  match v with
  | VObj properties => VObj (filter (fun p => negb (fst p =? k)) properties)
  | _ => v
  end.

(** The configuration in which the value found under [path] is replaced by
    its image by [f], every property staying at its place. *)
Fixpoint updateIn (path : list string) (f : value -> value) (v : value) : value :=
  match path with
  | [] => f v
  | k :: rest =>
      match v with
      | VObj properties =>
          VObj (map (fun p => if fst p =? k then (fst p, updateIn rest f (snd p)) else p)
                  properties)
      | _ => v
      end
  end.

(** [v.k1.k2...kn = x] *)
Definition setIn (path : list string) (x : value) (v : value) : value :=
  updateIn path (fun _ => x) v.

(** [delete v.k1.k2...kn[k]] *)
Definition removeIn (path : list string) (k : string) (v : value) : value :=
  updateIn path (delete k) v.

(** [after] differs from [before] at most in the value of the property
    [k]. *)
Definition same_except (k : string) (before after : value) : Prop :=
  own_keys after = own_keys before
  /\ truthy after = truthy before
  /\ instanceof_Object after = instanceof_Object before
  /\ nullish after = nullish before
  /\ forall k', k' <> k -> prop after k' = prop before k'.

(** The sections read by the blocks that run before the fee block. *)
Definition sections_before_fees : list string :=
  [ "chains"; "tokens"; "watchers"; "keystore"; "signer"; "db"; "logging";
    "metrics"; "addresses"; "routes" ].

Definition subset (keys allowed : list string) : bool :=
  forallb (includes allowed) keys.

Section AllowLists.

Variable E : externals.

(** The keys of section [name], when the section is there, are among
    [allowed]. *)
Definition section_keys_allowed (config : value) (name : string) (allowed : list string)
  : bool :=
  negb (truthy (prop config name)) || subset (own_keys (prop config name)) allowed.

(** Every key of one level below section [name] satisfies [inner]. *)
Definition nested (v : value) (keys : list string) (inner : value -> bool) : bool :=
  forallb (fun k => inner (prop v k)) keys.

(** Every section and nested key belongs to its allow-list, following the
    list of section 4.2 of the specification: the sections of the
    configuration, the chains and the keys of each chain, the enabled
    tokens, the watchers, the sections with a fixed list of keys, the
    chains of the routes, the tokens and chains of the fees, the thresholds
    and the bonders, and the tokens, chains and parameters of the vault. *)
Definition allKeysAllowed (config : value) : bool :=
  let enabledChains := enabledChainsOf config in
  let enabledTokens := enabledTokensOf config in
  let minThresholdAmount := prop (prop config "commitTransfers") "minThresholdAmount" in
  subset (own_keys config) validSectionKeys
  && subset enabledChains (validChainKeys E)
  && nested (prop config "chains") enabledChains
       (fun chain => subset (own_keys chain) ["rpcUrl"; "maxGasPrice"])
  && subset enabledTokens validTokenKeys
  && subset (own_keys (prop config "watchers")) (validWatcherKeys E)
  && section_keys_allowed config "db" ["location"]
  && section_keys_allowed config "logging" ["level"]
  && section_keys_allowed config "keystore"
       ["location"; "pass"; "passwordFile"; "parameterStore"; "awsRegion"]
  && section_keys_allowed config "signer" ["type"; "keyId"; "awsRegion"; "lambdaFunctionName"]
  && section_keys_allowed config "metrics" ["enabled"; "port"]
  && section_keys_allowed config "addresses" ["location"]
  && section_keys_allowed config "blocklist" ["path"; "addresses"]
  && section_keys_allowed config "routes" enabledChains
  && nested (prop config "routes") (own_keys (prop config "routes"))
       (fun destinations => subset (own_keys destinations) enabledChains)
  && section_keys_allowed config "fees" enabledTokens
  && nested (prop config "fees") (own_keys (prop config "fees"))
       (fun fee => subset (own_keys fee) enabledChains)
  && section_keys_allowed config "commitTransfers" ["minThresholdAmount"]
  && subset (own_keys minThresholdAmount) enabledTokens
  && nested minThresholdAmount enabledTokens
       (fun bySource => subset (own_keys bySource) enabledChains)
  && section_keys_allowed config "bonders" enabledTokens
  && nested (prop config "bonders") enabledTokens
       (fun bySource =>
          subset (own_keys bySource) enabledChains
          && nested bySource (own_keys bySource)
               (fun byDestination => subset (own_keys byDestination) enabledChains))
  && section_keys_allowed config "vault" validTokenKeys
  && nested (prop config "vault") (own_keys (prop config "vault"))
       (fun byChain =>
          subset (own_keys byChain) (validChainKeys E)
          && nested byChain (own_keys byChain)
               (fun parameters =>
                  subset (own_keys parameters)
                    ["depositThresholdAmount"; "depositAmount"; "strategy"; "autoWithdraw";
                     "autoDeposit"])).

End AllowLists.

Example scenario_accepted :
  validateConfigFileStructure Example.env Example.scenario = Ok tt.
Proof. vm_compute. reflexivity. Qed.

Example scenario_without_fee_rejected :
  validateConfigFileStructure Example.env Example.scenario_without_fee
  = Throw (missing_fee_for_chain "optimism" "USDC").
Proof. vm_compute. reflexivity. Qed.

Example falsy_values :
  map truthy [VUndefined; VNull; VBool false; VNum 0%float; VNum (-0)%float; VNum nan;
              VStr ""]
  = [false; false; false; false; false; false; false].
Proof. reflexivity. Qed.

Example truthy_values :
  map truthy [VBool true; VNum 1%float; VStr "0"; VArr []; VObj []]
  = [true; true; true; true; true].
Proof. reflexivity. Qed.

Example keys_of_values :
  map Object_keys [VNull; VNum 5%float; VStr "ab"; VArr [VNull; VNull];
                   VObj [("rpcUrl", VNull)]]
  = [Throw TypeError; Ok []; Ok ["0"; "1"]; Ok ["0"; "1"]; Ok ["rpcUrl"]].
Proof. reflexivity. Qed.

Example level_that_is_not_a_string :
  validateConfigFileStructure Example.env
    (Example.config_with [ ("logging", VObj [ ("level", VNum 5%float) ]) ])
  = Throw (Error ("unrecognized key " ++ quoted "5"
                  ++ ". Valid keys are: debug,info,warn,error")).
Proof. vm_compute. reflexivity. Qed.

Example empty_configuration_rejected :
  validateConfigFileStructure Example.env (VObj []) = Throw TypeError.
Proof. reflexivity. Qed.

Example url_with_port :
  Example.read_url "https://host:8545/rpc" = Some (mkURL "https:" "host:8545").
Proof. reflexivity. Qed.

(** ** Reasoning about computations that may throw *)

Lemma result_unit_cases (r : result unit) : r = Ok tt \/ exists e, r = Throw e.
Proof. destruct r as [[]|e]; [left | right; exists e]; reflexivity. Qed.

Lemma not_Ok_Throw (r : result unit) : r <> Ok tt -> exists e, r = Throw e.
Proof. destruct (result_unit_cases r) as [->|H]; [congruence | auto]. Qed.

Lemma bind_Ok {A B : Type} (c : result A) (k : A -> result B) (b : B) :
  bind c k = Ok b <-> exists a, c = Ok a /\ k a = Ok b.
Proof.
  destruct c as [a|e]; simpl; split.
  - intros H. exists a. auto.
  - intros (a' & Ha & Hk). injection Ha as ->. exact Hk.
  - discriminate.
  - intros (a' & Ha & _). discriminate.
Qed.

Lemma bind_unit_Ok {B : Type} (c : result unit) (k : unit -> result B) (b : B) :
  bind c k = Ok b <-> c = Ok tt /\ k tt = Ok b.
Proof.
  rewrite bind_Ok. split.
  - intros ([] & Hc & Hk). auto.
  - intros (Hc & Hk). exists tt. auto.
Qed.

Lemma throw_if_Ok (cond : bool) (e : exn) : throw_if cond e = Ok tt <-> cond = false.
Proof. destruct cond; simpl; split; congruence. Qed.

Lemma when_Ok (cond : bool) (body : result unit) :
  when cond body = Ok tt <-> (cond = true -> body = Ok tt).
Proof. destruct cond; simpl; split; auto; discriminate. Qed.

Lemma for_of_Ok {A : Type} (xs : list A) (body : A -> result unit) :
  for_of xs body = Ok tt <-> forall x, In x xs -> body x = Ok tt.
Proof.
  induction xs as [|x xs IH]; simpl.
  - split; [intros _ y [] | reflexivity].
  - rewrite bind_unit_Ok, IH. split.
    + intros (Hx & Hxs) y [<-|Hy]; auto.
    + intros H. split; [apply H | intros y Hy; apply H]; auto.
Qed.

(** A loop whose body is changed at one element only, and throws there,
    throws the same exception if it completed before the change. *)
Lemma for_of_change_one (xs : list string) (x : string)
    (body body' : string -> result unit) (e : exn) :
  In x xs ->
  for_of xs body = Ok tt ->
  (forall y, In y xs -> y <> x -> body' y = body y) ->
  body' x = Throw e ->
  for_of xs body' = Throw e.
Proof.
  induction xs as [|y xs IH]; simpl; [intros [] |].
  intros Hin Hok Hsame Hx. apply bind_unit_Ok in Hok as (Hy & Hxs).
  destruct (string_dec y x) as [->|Hne].
  - rewrite Hx. reflexivity.
  - rewrite (Hsame y), Hy by auto. simpl.
    apply IH; auto. destruct Hin; [contradiction | assumption].
Qed.

Lemma for_of_ext {A : Type} (xs : list A) (body body' : A -> result unit) :
  (forall x, In x xs -> body' x = body x) -> for_of xs body' = for_of xs body.
Proof.
  induction xs as [|x xs IH]; simpl; intros H; [reflexivity |].
  rewrite (H x), IH by auto. reflexivity.
Qed.

(** The first element on which the body throws decides the loop. *)
Lemma for_of_first_throw {A : Type} (pre post : list A) (x : A)
    (body : A -> result unit) (e : exn) :
  (forall y, In y pre -> body y = Ok tt) ->
  body x = Throw e ->
  for_of (pre ++ x :: post) body = Throw e.
Proof.
  induction pre as [|y pre IH]; simpl; intros Hpre Hx.
  - rewrite Hx. reflexivity.
  - rewrite (Hpre y) by auto. simpl. apply IH; auto.
Qed.

Lemma includes_In (xs : list string) (x : string) : includes xs x = true <-> In x xs.
Proof.
  unfold includes. rewrite existsb_exists. split.
  - intros (y & Hy & Heq). apply String.eqb_eq in Heq. subst. assumption.
  - intros H. exists x. split; [assumption | apply String.eqb_refl].
Qed.

Lemma includes_false (xs : list string) (x : string) : includes xs x = false <-> ~ In x xs.
Proof.
  rewrite <- includes_In. destruct (includes xs x); split; congruence.
Qed.

Lemma Object_keys_Ok (v : value) (keys : list string) :
  Object_keys v = Ok keys <-> nullish v = false /\ keys = own_keys v.
Proof.
  unfold Object_keys. destruct (nullish v); split.
  - discriminate.
  - intros (H & _). discriminate.
  - intros H. injection H as <-. auto.
  - intros (_ & ->). reflexivity.
Qed.

Lemma truthy_not_nullish (v : value) : truthy v = true -> nullish v = false.
Proof. destruct v; simpl; congruence. Qed.

Lemma falsy_own_keys (v : value) : truthy v = false -> own_keys v = [].
Proof.
  destruct v as [| | b | n | s | xs | ps]; simpl; try reflexivity; try discriminate.
  destruct s; [reflexivity | discriminate].
Qed.

Lemma get_not_nullish (v : value) (k : string) : nullish v = false -> get v k = Ok (prop v k).
Proof. unfold get. intros ->. reflexivity. Qed.

Lemma get_opt_not_nullish (v : value) (k : string) :
  nullish v = false -> get_opt v k = prop v k.
Proof. unfold get_opt. intros ->. reflexivity. Qed.

Lemma validateKeys_Ok (validKeys keys : list string) :
  validateKeys validKeys keys = Ok tt <-> forall k, In k keys -> In k validKeys.
Proof.
  unfold validateKeys. rewrite for_of_Ok. split; intros H k Hk.
  - apply includes_In. specialize (H k Hk). apply throw_if_Ok in H.
    destruct (includes validKeys k); [reflexivity | discriminate].
  - apply throw_if_Ok. specialize (H k Hk). apply includes_In in H.
    rewrite H. reflexivity.
Qed.

Lemma subset_In (keys allowed : list string) :
  subset keys allowed = true <-> forall k, In k keys -> In k allowed.
Proof.
  unfold subset. rewrite forallb_forall. split; intros H k Hk.
  - apply includes_In. auto.
  - apply includes_In. auto.
Qed.

Lemma validateKeys_subset (validKeys keys : list string) :
  validateKeys validKeys keys = Ok tt <-> subset keys validKeys = true.
Proof. rewrite validateKeys_Ok, subset_In. reflexivity. Qed.

Lemma keys_checked (v : value) (allowed : list string) :
  (keys <- Object_keys v ;; validateKeys allowed keys) = Ok tt <->
  nullish v = false /\ subset (own_keys v) allowed = true.
Proof.
  rewrite bind_Ok. split.
  - intros (keys & Hkeys & Hvalid). apply Object_keys_Ok in Hkeys as (Hv & ->).
    apply validateKeys_subset in Hvalid. auto.
  - intros (Hv & Hsub). exists (own_keys v). split.
    + apply Object_keys_Ok. auto.
    + apply validateKeys_subset. exact Hsub.
Qed.

Lemma nested_In (v : value) (keys : list string) (inner : value -> bool) :
  nested v keys inner = true <-> forall k, In k keys -> inner (prop v k) = true.
Proof. unfold nested. apply forallb_forall. Qed.

(** ** What each block of the structural pass has checked when it returns *)

Section Blocks.

Variable E : externals.

Lemma checkChains_Ok (config : value) (enabledChains : list string) :
  checkChains E config = Ok enabledChains ->
  enabledChains = enabledChainsOf config
  /\ nullish (prop config "chains") = false
  /\ In (Chain_Ethereum E) enabledChains
  /\ subset enabledChains (validChainKeys E) = true
  /\ nested (prop config "chains") enabledChains
       (fun chain => subset (own_keys chain) ["rpcUrl"; "maxGasPrice"]) = true.
Proof.
  unfold checkChains. intros H.
  apply bind_Ok in H as (keys & Hkeys & H).
  apply Object_keys_Ok in Hkeys as (Hnull & ->).
  apply bind_unit_Ok in H as (Heth & H).
  apply bind_unit_Ok in H as (Hvalid & H).
  apply bind_unit_Ok in H as (Hloop & H).
  injection H as <-.
  apply throw_if_Ok, negb_false_iff, includes_In in Heth.
  apply validateKeys_subset in Hvalid.
  repeat split; auto.
  apply nested_In. intros k Hk.
  rewrite for_of_Ok in Hloop. specialize (Hloop k Hk). cbv zeta in Hloop.
  apply keys_checked in Hloop as (_ & Hsub). exact Hsub.
Qed.

Lemma checkTokens_Ok (config : value) (enabledTokens : list string) :
  checkTokens config = Ok enabledTokens ->
  enabledTokens = enabledTokensOf config
  /\ nullish (prop config "tokens") = false
  /\ subset enabledTokens validTokenKeys = true.
Proof.
  unfold checkTokens. intros H.
  apply bind_Ok in H as (keys & Hkeys & H).
  apply Object_keys_Ok in Hkeys as (Hnull & ->).
  cbv zeta in H.
  apply bind_unit_Ok in H as (Hvalid & H).
  injection H as <-.
  apply validateKeys_subset in Hvalid. auto.
Qed.

Lemma checkWatchers_Ok (config : value) :
  checkWatchers E config = Ok tt ->
  nullish (prop config "watchers") = false
  /\ subset (own_keys (prop config "watchers")) (validWatcherKeys E) = true.
Proof. unfold checkWatchers. intros H. apply keys_checked in H. exact H. Qed.

Lemma checkSection_Ok (config : value) (name : string) (validKeys : list string) :
  checkSection config name validKeys = Ok tt ->
  section_keys_allowed config name validKeys = true.
Proof.
  unfold checkSection, section_keys_allowed. rewrite when_Ok. intros H.
  destruct (truthy (prop config name)); [| reflexivity].
  apply keys_checked in H as (_ & ->); reflexivity.
Qed.

Lemma checkLogging_Ok (config : value) :
  checkLogging E config = Ok tt -> section_keys_allowed config "logging" ["level"] = true.
Proof.
  unfold checkLogging, section_keys_allowed. rewrite when_Ok. intros H.
  destruct (truthy (prop config "logging")); [| reflexivity].
  specialize (H eq_refl). cbv zeta in H.
  apply bind_Ok in H as (keys & Hkeys & H).
  apply Object_keys_Ok in Hkeys as (_ & ->).
  apply bind_unit_Ok in H as (Hvalid & _).
  apply validateKeys_subset in Hvalid. rewrite Hvalid. reflexivity.
Qed.

Lemma checkPlainSections_Ok (config : value) :
  checkPlainSections E config = Ok tt ->
  section_keys_allowed config "db" ["location"] = true
  /\ section_keys_allowed config "logging" ["level"] = true
  /\ section_keys_allowed config "keystore"
       ["location"; "pass"; "passwordFile"; "parameterStore"; "awsRegion"] = true
  /\ section_keys_allowed config "signer"
       ["type"; "keyId"; "awsRegion"; "lambdaFunctionName"] = true
  /\ section_keys_allowed config "metrics" ["enabled"; "port"] = true
  /\ section_keys_allowed config "addresses" ["location"] = true.
Proof.
  unfold checkPlainSections. intros H.
  apply bind_unit_Ok in H as (Hdb & H).
  apply bind_unit_Ok in H as (Hlogging & H).
  apply bind_unit_Ok in H as (Hkeystore & H).
  apply bind_unit_Ok in H as (Hsigner & H).
  apply bind_unit_Ok in H as (Hmetrics & Haddresses).
  repeat split; auto using checkSection_Ok, checkLogging_Ok.
Qed.

Lemma checkRoutes_Ok (config : value) (enabledChains : list string) :
  checkRoutes config enabledChains = Ok tt ->
  section_keys_allowed config "routes" enabledChains = true
  /\ nested (prop config "routes") (own_keys (prop config "routes"))
       (fun destinations => subset (own_keys destinations) enabledChains) = true
  /\ (forall s, In s (own_keys (prop config "routes")) ->
        nullish (prop (prop config "routes") s) = false).
Proof.
  unfold checkRoutes, section_keys_allowed. rewrite when_Ok. intros H.
  destruct (truthy (prop config "routes")) eqn:Hroutes.
  - specialize (H eq_refl).
    apply bind_Ok in H as (keys & Hkeys & H).
    apply Object_keys_Ok in Hkeys as (_ & ->).
    apply bind_unit_Ok in H as (Hvalid & Hloop).
    apply validateKeys_subset in Hvalid. rewrite Hvalid.
    rewrite for_of_Ok in Hloop.
    split; [reflexivity |]. split.
    + apply nested_In. intros s Hs. apply (keys_checked _ _), Hloop, Hs.
    + intros s Hs. apply (keys_checked _ enabledChains), Hloop, Hs.
  - apply falsy_own_keys in Hroutes. rewrite Hroutes. simpl.
    repeat split; auto. intros s [].
Qed.

End Blocks.

(** ** The fee and threshold matrices *)

Lemma Set_add_In (set : list string) (x d : string) :
  In d (Set_add set x) <-> In d set \/ d = x.
Proof.
  unfold Set_add. destruct (includes set x) eqn:Hx.
  - apply includes_In in Hx. split; [auto | intros [H| ->]; assumption].
  - rewrite in_app_iff. simpl. split.
    + intros [H|[<-|[]]]; auto.
    + intros [H| ->]; auto.
Qed.

Lemma fold_Set_add_In (keys set : list string) (d : string) :
  In d (fold_left Set_add keys set) <-> In d set \/ In d keys.
Proof.
  revert set. induction keys as [|k keys IH]; intros set; simpl.
  - split; [auto | intros [H|[]]; exact H].
  - rewrite IH, Set_add_In. split.
    + intros [[H| ->]|H]; auto.
    + intros [H|[<-|H]]; auto.
Qed.

Lemma collectDestinationChains_In (routes : value) (sourceChains set ds : list string) :
  collectDestinationChains routes sourceChains set = Ok ds ->
  forall d, In d ds <->
    In d set \/ exists s, In s sourceChains /\ In d (own_keys (prop routes s)).
Proof.
  revert set. induction sourceChains as [|s rest IH]; intros set H d; simpl in H.
  - injection H as <-. split; [auto | intros [H|(s & [] & _)]; exact H].
  - apply bind_Ok in H as (keys & Hkeys & H).
    apply Object_keys_Ok in Hkeys as (_ & ->).
    rewrite (IH _ H), fold_Set_add_In. split.
    + intros [[Hd|Hd]|(s' & Hs' & Hd)]; auto.
      * right. exists s. simpl. auto.
      * right. exists s'. simpl. auto.
    + intros [Hd|(s' & [<-|Hs'] & Hd)]; auto.
      right. exists s'. auto.
Qed.

Lemma collectDestinationChains_routes (routes : value) (ds : list string) :
  collectDestinationChains routes (own_keys routes) [] = Ok ds ->
  forall d, In d ds <-> destination_of_route routes d.
Proof.
  intros H d. rewrite (collectDestinationChains_In _ _ _ _ H).
  unfold destination_of_route. split; [intros [[]|Hd]; exact Hd | auto].
Qed.

Lemma truthy_prop_not_nullish (v : value) (k : string) :
  truthy (prop v k) = true -> nullish v = false.
Proof. destruct v; simpl; try reflexivity; discriminate. Qed.

Section Matrices.

Variable E : externals.

(** What [checkFees] has established when it returns. *)
Lemma checkFees_Ok (config : value) (enabledChains enabledTokens : list string) :
  checkFees config enabledChains enabledTokens = Ok tt ->
  truthy (prop config "fees") = true ->
  let fees := prop config "fees" in
  subset (own_keys fees) enabledTokens = true
  /\ nested fees (own_keys fees) (fun fee => subset (own_keys fee) enabledChains) = true
  /\ (forall t, In t (own_keys fees) -> nullish (prop fees t) = false)
  /\ (exists ds, collectDestinationChains (prop config "routes")
                   (own_keys (prop config "routes")) [] = Ok ds)
  /\ (forall t d, In t (own_keys fees) -> destination_of_route (prop config "routes") d ->
        truthy (prop (prop fees t) d) = true)
  /\ (forall t, In t enabledTokens -> truthy (prop fees t) = true).
Proof.
  unfold checkFees. intros H Hfees. rewrite Hfees in H. simpl in H.
  apply bind_Ok in H as (keys & Hkeys & H).
  apply Object_keys_Ok in Hkeys as (Hnull & ->).
  apply bind_unit_Ok in H as (Hvalid & H).
  apply bind_Ok in H as (ds & Hds & H).
  apply bind_unit_Ok in H as (Hchains & Htokens).
  apply validateKeys_subset in Hvalid.
  rewrite for_of_Ok in Hchains. rewrite for_of_Ok in Htokens.
  assert (Hentry : forall t, In t (own_keys (prop config "fees")) ->
            nullish (prop (prop config "fees") t) = false
            /\ subset (own_keys (prop (prop config "fees") t)) enabledChains = true
            /\ forall d, In d ds -> truthy (prop (prop (prop config "fees") t) d) = true).
  { intros t Ht. specialize (Hchains t Ht).
    apply bind_Ok in Hchains as (chains & Hk & Hc).
    apply Object_keys_Ok in Hk as (Hn & ->).
    apply bind_unit_Ok in Hc as (Hv & Hloop).
    apply validateKeys_subset in Hv. repeat split; auto.
    intros d Hd. rewrite for_of_Ok in Hloop. specialize (Hloop d Hd). cbv zeta in Hloop.
    apply throw_if_Ok, negb_false_iff in Hloop.
    rewrite get_opt_not_nullish in Hloop by exact Hn. exact Hloop. }
  cbv zeta. repeat split; auto.
  - apply nested_In. intros t Ht. apply Hentry, Ht.
  - intros t Ht. apply Hentry, Ht.
  - exists ds. exact Hds.
  - intros t d Ht Hd. apply Hentry; [exact Ht |].
    apply (collectDestinationChains_routes _ _ Hds). exact Hd.
  - intros t Ht. specialize (Htokens t Ht). cbv zeta in Htokens.
    apply throw_if_Ok, negb_false_iff in Htokens.
    rewrite (get_opt_not_nullish config) in Htokens
      by (apply truthy_prop_not_nullish with (k := "fees"); exact Hfees).
    rewrite get_opt_not_nullish in Htokens by exact Hnull. exact Htokens.
Qed.

(** [checkThresholds] returns exactly when every enabled token has a
    truthy threshold object whose keys are enabled chains and, for every
    source chain of a route other than Ethereum, a truthy object with a
    truthy entry for each destination chain of that source. *)
Lemma checkThresholds_Ok (minThresholdAmount routes : value)
    (enabledChains enabledTokens : list string) :
  checkThresholds E minThresholdAmount routes enabledChains enabledTokens = Ok tt <->
  forall t, In t enabledTokens ->
    truthy (prop minThresholdAmount t) = true
    /\ subset (own_keys (prop minThresholdAmount t)) enabledChains = true
    /\ forall s, In s (own_keys routes) -> s <> Chain_Ethereum E ->
         truthy (prop (prop minThresholdAmount t) s) = true
         /\ forall d, In d (own_keys (prop routes s)) ->
              truthy (prop (prop (prop minThresholdAmount t) s) d) = true.
Proof.
  unfold checkThresholds. rewrite for_of_Ok. split.
  - intros H t Ht. specialize (H t Ht).
    apply bind_unit_Ok in H as (Htok & H).
    apply throw_if_Ok, negb_false_iff in Htok.
    apply bind_Ok in H as (chains & Hk & H). apply Object_keys_Ok in Hk as (_ & ->).
    apply bind_unit_Ok in H as (Hv & Hloop). apply validateKeys_subset in Hv.
    split; [exact Htok |]. split; [exact Hv |]. intros s Hs Hne.
    rewrite for_of_Ok in Hloop. specialize (Hloop s Hs).
    apply String.eqb_neq in Hne. rewrite Hne in Hloop.
    apply bind_unit_Ok in Hloop as (Hsrc & Hdst).
    apply throw_if_Ok, negb_false_iff in Hsrc. split; [exact Hsrc |].
    intros d Hd. rewrite for_of_Ok in Hdst. specialize (Hdst d Hd).
    apply throw_if_Ok, negb_false_iff in Hdst. exact Hdst.
  - intros H t Ht. destruct (H t Ht) as (Htok & Hsub & Hroutes).
    apply bind_unit_Ok. split; [apply throw_if_Ok, negb_false_iff, Htok |].
    apply bind_Ok. exists (own_keys (prop minThresholdAmount t)). split.
    + apply Object_keys_Ok. split; [apply truthy_not_nullish, Htok | reflexivity].
    + apply bind_unit_Ok. split; [apply validateKeys_subset, Hsub |].
      apply for_of_Ok. intros s Hs.
      destruct (String.eqb_spec s (Chain_Ethereum E)) as [_|Hne]; [reflexivity |].
      destruct (Hroutes s Hs Hne) as (Hsrc & Hdst).
      apply bind_unit_Ok. split.
      * apply throw_if_Ok, negb_false_iff, Hsrc.
      * apply for_of_Ok. intros d Hd. apply throw_if_Ok, negb_false_iff, Hdst, Hd.
Qed.

End Matrices.

(** ** The structural pass as the sequence of its blocks *)

Section Structure.

Variable E : externals.

(** The pass returns exactly when each block returns, the later blocks
    being given the keys of [chains] and the enabled tokens. *)
Lemma validateConfigFileStructure_blocks (config : value) :
  validateConfigFileStructure E config = Ok tt <->
  truthy config = true
  /\ instanceof_Object config = true
  /\ validateKeys validSectionKeys (own_keys config) = Ok tt
  /\ checkChains E config = Ok (enabledChainsOf config)
  /\ checkTokens config = Ok (enabledTokensOf config)
  /\ checkWatchers E config = Ok tt
  /\ checkCredentials config = Ok tt
  /\ checkPlainSections E config = Ok tt
  /\ checkRoutes config (enabledChainsOf config) = Ok tt
  /\ checkFees config (enabledChainsOf config) (enabledTokensOf config) = Ok tt
  /\ checkCommitTransfers E config (enabledChainsOf config) (enabledTokensOf config) = Ok tt
  /\ checkBonders config (enabledChainsOf config) (enabledTokensOf config) = Ok tt
  /\ checkVault E config = Ok tt
  /\ checkBlocklist config = Ok tt.
Proof.
  unfold validateConfigFileStructure. split.
  - intros H.
    apply bind_unit_Ok in H as (Htruthy & H). apply throw_if_Ok, negb_false_iff in Htruthy.
    apply bind_unit_Ok in H as (Hobject & H). apply throw_if_Ok, negb_false_iff in Hobject.
    apply bind_Ok in H as (keys & Hkeys & H). apply Object_keys_Ok in Hkeys as (_ & ->).
    apply bind_unit_Ok in H as (Hsections & H).
    apply bind_Ok in H as (enabledChains & Hchains & H).
    apply bind_Ok in H as (enabledTokens & Htokens & H).
    pose proof (checkChains_Ok E _ _ Hchains) as (-> & _).
    pose proof (checkTokens_Ok _ _ Htokens) as (-> & _).
    apply bind_unit_Ok in H as (Hwatchers & H).
    apply bind_unit_Ok in H as (Hcredentials & H).
    apply bind_unit_Ok in H as (Hplain & H).
    apply bind_unit_Ok in H as (Hroutes & H).
    apply bind_unit_Ok in H as (Hfees & H).
    apply bind_unit_Ok in H as (Hcommit & H).
    apply bind_unit_Ok in H as (Hbonders & H).
    apply bind_unit_Ok in H as (Hvault & Hblocklist).
    repeat split; assumption.
  - intros (Htruthy & Hobject & Hsections & Hchains & Htokens & Hwatchers & Hcredentials
            & Hplain & Hroutes & Hfees & Hcommit & Hbonders & Hvault & Hblocklist).
    rewrite Htruthy, Hobject. simpl.
    unfold Object_keys. rewrite (truthy_not_nullish _ Htruthy). simpl.
    rewrite Hsections, Hchains, Htokens. simpl.
    rewrite Hwatchers, Hcredentials, Hplain, Hroutes. simpl.
    rewrite Hfees, Hcommit, Hbonders, Hvault. simpl. exact Hblocklist.
Qed.

(** The pass throws what the fee block throws when the blocks before it
    return. *)
Lemma throws_in_checkFees (config : value) (e : exn) :
  truthy config = true ->
  instanceof_Object config = true ->
  validateKeys validSectionKeys (own_keys config) = Ok tt ->
  checkChains E config = Ok (enabledChainsOf config) ->
  checkTokens config = Ok (enabledTokensOf config) ->
  checkWatchers E config = Ok tt ->
  checkCredentials config = Ok tt ->
  checkPlainSections E config = Ok tt ->
  checkRoutes config (enabledChainsOf config) = Ok tt ->
  checkFees config (enabledChainsOf config) (enabledTokensOf config) = Throw e ->
  validateConfigFileStructure E config = Throw e.
Proof.
  intros Htruthy Hobject Hsections Hchains Htokens Hwatchers Hcredentials Hplain Hroutes Hfees.
  unfold validateConfigFileStructure.
  rewrite Htruthy, Hobject. simpl.
  unfold Object_keys. rewrite (truthy_not_nullish _ Htruthy). simpl.
  rewrite Hsections, Hchains, Htokens. simpl.
  rewrite Hwatchers, Hcredentials, Hplain, Hroutes. simpl.
  rewrite Hfees. reflexivity.
Qed.

(** Likewise for the threshold block. *)
Lemma throws_in_checkCommitTransfers (config : value) (e : exn) :
  truthy config = true ->
  instanceof_Object config = true ->
  validateKeys validSectionKeys (own_keys config) = Ok tt ->
  checkChains E config = Ok (enabledChainsOf config) ->
  checkTokens config = Ok (enabledTokensOf config) ->
  checkWatchers E config = Ok tt ->
  checkCredentials config = Ok tt ->
  checkPlainSections E config = Ok tt ->
  checkRoutes config (enabledChainsOf config) = Ok tt ->
  checkFees config (enabledChainsOf config) (enabledTokensOf config) = Ok tt ->
  checkCommitTransfers E config (enabledChainsOf config) (enabledTokensOf config) = Throw e ->
  validateConfigFileStructure E config = Throw e.
Proof.
  intros Htruthy Hobject Hsections Hchains Htokens Hwatchers Hcredentials Hplain Hroutes
         Hfees Hcommit.
  unfold validateConfigFileStructure.
  rewrite Htruthy, Hobject. simpl.
  unfold Object_keys. rewrite (truthy_not_nullish _ Htruthy). simpl.
  rewrite Hsections, Hchains, Htokens. simpl.
  rewrite Hwatchers, Hcredentials, Hplain, Hroutes. simpl.
  rewrite Hfees. simpl. rewrite Hcommit. reflexivity.
Qed.

End Structure.

(** ** validateKeys *)

(** C8: [validateKeys] returns if and only if every key found is in the
    list of allowed keys, and otherwise it throws at the first key of the
    found list that is not allowed, with a message that names this key and
    the whole list of allowed keys. *)
Theorem validateKeys_first_unrecognized (validKeys keys : list string) :
  (validateKeys validKeys keys = Ok tt <-> forall k, In k keys -> In k validKeys)
  /\ forall pre key post,
       keys = pre ++ key :: post ->
       (forall k, In k pre -> In k validKeys) ->
       ~ In key validKeys ->
       validateKeys validKeys keys
       = Throw (Error ("unrecognized key " ++ quoted key ++ ". Valid keys are: "
                       ++ join "," validKeys)).
Proof.
  split; [apply validateKeys_Ok |].
  intros pre key post -> Hpre Hkey. unfold validateKeys.
  apply for_of_first_throw.
  - intros k Hk. apply throw_if_Ok, negb_false_iff, includes_In, Hpre, Hk.
  - apply includes_false in Hkey. rewrite Hkey. reflexivity.
Qed.

Lemma validateKeys_first_unrecognized_witness :
  validateKeys ["rpcUrl"; "maxGasPrice"] ["rpcUrl"; "url"; "gas"]
  = Throw (Error ("unrecognized key " ++ quoted "url"
                  ++ ". Valid keys are: rpcUrl,maxGasPrice")).
Proof.
  apply (proj2 (validateKeys_first_unrecognized ["rpcUrl"; "maxGasPrice"]
                  ["rpcUrl"; "url"; "gas"]) ["rpcUrl"] "url" ["gas"]).
  - reflexivity.
  - intros k [<-|[]]. simpl. auto.
  - simpl. intros [H|[H|[]]]; discriminate H.
Defined.

(** ** Required sections *)

Section Required.

Variable E : externals.

Lemma absent_key_undefined (v : value) (k : string) :
  has_key v k = false -> prop v k = VUndefined.
Proof.
  unfold has_key, own_keys, prop. intros H. apply includes_false in H.
  induction (entries v) as [|[k' x] ps IH]; simpl in *; [reflexivity |].
  destruct (String.eqb_spec k' k) as [->|Hne]; [tauto |].
  apply IH. tauto.
Qed.

Lemma unreadable_section_throws (config : value) :
  nullish (prop config "chains") = true
  \/ nullish (prop config "tokens") = true
  \/ nullish (prop config "watchers") = true ->
  validateConfigFileStructure E config <> Ok tt.
Proof.
  intros H Hok. apply validateConfigFileStructure_blocks in Hok
    as (_ & _ & _ & Hchains & Htokens & Hwatchers & _).
  apply checkChains_Ok in Hchains as (_ & Hc & _).
  apply checkTokens_Ok in Htokens as (_ & Ht & _).
  apply checkWatchers_Ok in Hwatchers as (Hw & _).
  destruct H as [H|[H|H]]; congruence.
Qed.

(** C10: a configuration without a [chains], a [tokens] or a [watchers]
    section is never accepted: the structural pass throws on it, whatever
    its other sections are. *)
Theorem chains_tokens_watchers_required (config : value) :
  has_key config "chains" = false
  \/ has_key config "tokens" = false
  \/ has_key config "watchers" = false ->
  exists e, validateConfigFileStructure E config = Throw e.
Proof.
  intros H. apply not_Ok_Throw, unreadable_section_throws.
  destruct H as [H|[H|H]]; apply absent_key_undefined in H; rewrite H; simpl; auto.
Qed.

(** C5: the structural pass throws on every configuration whose [chains]
    section has no key for the base chain, and the chains of every accepted
    configuration include it; when the pass reaches the check, the error is
    the one that asks for the base chain. *)
Theorem base_chain_required (config : value) :
  (~ In (Chain_Ethereum E) (own_keys (prop config "chains")) ->
   exists e, validateConfigFileStructure E config = Throw e)
  /\ (validateConfigFileStructure E config = Ok tt ->
      In (Chain_Ethereum E) (own_keys (prop config "chains")))
  /\ (instanceof_Object config = true ->
      validateKeys validSectionKeys (own_keys config) = Ok tt ->
      nullish (prop config "chains") = false ->
      ~ In (Chain_Ethereum E) (own_keys (prop config "chains")) ->
      validateConfigFileStructure E config
      = Throw (Error ("config for chain " ++ quoted (Chain_Ethereum E) ++ " is required"))).
Proof.
  assert (Hok : validateConfigFileStructure E config = Ok tt ->
                In (Chain_Ethereum E) (own_keys (prop config "chains"))).
  { intros H. apply validateConfigFileStructure_blocks in H as (_ & _ & _ & Hchains & _).
    apply checkChains_Ok in Hchains as (_ & _ & Heth & _). exact Heth. }
  split; [| split; [exact Hok |]].
  - intros Hnot. apply not_Ok_Throw. intros H. apply Hnot, Hok, H.
  - intros Hobject Hsections Hchains Hnot.
    unfold validateConfigFileStructure.
    assert (Htruthy : truthy config = true) by (destruct config; simpl in *; congruence).
    rewrite Htruthy, Hobject. simpl.
    unfold Object_keys at 1. rewrite (truthy_not_nullish _ Htruthy). simpl.
    rewrite Hsections. simpl. unfold checkChains, Object_keys. rewrite Hchains. simpl.
    apply includes_false in Hnot. rewrite Hnot. reflexivity.
Qed.

(** C4: the structural pass throws on every configuration that has both a
    [keystore] and a [signer] section (each a truthy value, as the guard of
    line 116 reads them). *)
Theorem keystore_and_signer_exclusive (config : value) :
  truthy (prop config "keystore") = true ->
  truthy (prop config "signer") = true ->
  exists e, validateConfigFileStructure E config = Throw e.
Proof.
  intros Hkeystore Hsigner. apply not_Ok_Throw. intros H.
  apply validateConfigFileStructure_blocks in H
    as (Htruthy & _ & _ & _ & _ & _ & Hcredentials & _).
  unfold checkCredentials in Hcredentials. apply throw_if_Ok in Hcredentials.
  rewrite !get_opt_not_nullish in Hcredentials by (apply truthy_not_nullish, Htruthy).
  rewrite Hkeystore, Hsigner in Hcredentials. discriminate.
Qed.

End Required.

Lemma chains_tokens_watchers_required_witness :
  exists e, validateConfigFileStructure Example.env Example.scenario_without_watchers = Throw e.
Proof.
  apply (chains_tokens_watchers_required Example.env Example.scenario_without_watchers).
  right. right. reflexivity.
Defined.

Lemma base_chain_required_witness :
  validateConfigFileStructure Example.env Example.scenario_without_ethereum
  = Throw (Error ("config for chain " ++ quoted "ethereum" ++ " is required")).
Proof.
  apply (proj2 (proj2 (base_chain_required Example.env Example.scenario_without_ethereum))).
  - reflexivity.
  - reflexivity.
  - reflexivity.
  - simpl. intros [H|[]]. discriminate H.
Defined.

Lemma keystore_and_signer_exclusive_witness :
  exists e,
    validateConfigFileStructure Example.env Example.scenario_with_both_credentials = Throw e.
Proof.
  apply (keystore_and_signer_exclusive Example.env Example.scenario_with_both_credentials);
    reflexivity.
Defined.

(** ** Editing a configuration *)

Lemma lookup_map_update (k k' : string) (g : value -> value) (ps : list (string * value)) :
  lookup k' (map (fun p => if fst p =? k then (fst p, g (snd p)) else p) ps)
  = if k' =? k then option_map g (lookup k' ps) else lookup k' ps.
Proof.
  induction ps as [|[k0 x] ps IH]; simpl.
  - destruct (k' =? k); reflexivity.
  - destruct (String.eqb_spec k0 k) as [->|Hk0]; simpl.
    + destruct (String.eqb_spec k k') as [<-|Hne].
      * rewrite String.eqb_refl. reflexivity.
      * rewrite IH. reflexivity.
    + destruct (String.eqb_spec k0 k') as [<-|Hne].
      * apply String.eqb_neq in Hk0. rewrite Hk0. reflexivity.
      * exact IH.
Qed.

Lemma keys_map_update (k : string) (g : value -> value) (ps : list (string * value)) :
  map fst (map (fun p => if fst p =? k then (fst p, g (snd p)) else p) ps) = map fst ps.
Proof.
  induction ps as [|[k0 x] ps IH]; simpl; [reflexivity |].
  rewrite IH. destruct (k0 =? k); reflexivity.
Qed.

Lemma updateIn_same_except (k : string) (rest : list string) (f : value -> value)
    (v : value) :
  same_except k v (updateIn (k :: rest) f v).
Proof.
  destruct v as [| | b | n | s | xs | ps]; simpl; try (repeat split; reflexivity).
  unfold same_except, own_keys, prop. simpl. rewrite keys_map_update.
  repeat split. intros k' Hne. rewrite lookup_map_update.
  apply String.eqb_neq in Hne. rewrite Hne. reflexivity.
Qed.

Lemma has_key_lookup (v : value) (k : string) :
  has_key v k = true -> exists x, lookup k (entries v) = Some x.
Proof.
  unfold has_key, own_keys. rewrite includes_In.
  induction (entries v) as [|[k' x] ps IH]; simpl; [intros [] |].
  intros [->|H].
  - rewrite String.eqb_refl. eauto.
  - destruct (k' =? k); eauto.
Qed.

Lemma truthy_has_key (v : value) (k : string) :
  truthy (prop v k) = true -> has_key v k = true.
Proof.
  intros H. destruct (has_key v k) eqn:Hk; [reflexivity |].
  apply absent_key_undefined in Hk. rewrite Hk in H. discriminate.
Qed.

Lemma is_object_has_key (v : value) (k : string) :
  is_object (prop v k) = true -> has_key v k = true.
Proof.
  intros H. destruct (has_key v k) eqn:Hk; [reflexivity |].
  apply absent_key_undefined in Hk. rewrite Hk in H. discriminate.
Qed.

Lemma has_key_In (v : value) (k : string) : has_key v k = true <-> In k (own_keys v).
Proof. apply includes_In. Qed.

(** The property on the path is the one that is edited. *)
Lemma updateIn_prop (k : string) (rest : list string) (f : value -> value) (v : value) :
  is_object v = true ->
  has_key v k = true ->
  prop (updateIn (k :: rest) f v) k = updateIn rest f (prop v k).
Proof.
  destruct v as [| | b | n | s | xs | ps]; simpl; try discriminate.
  intros _ Hk. apply has_key_lookup in Hk as (x & Hx). simpl in Hx.
  unfold prop. simpl. rewrite lookup_map_update, String.eqb_refl, Hx. reflexivity.
Qed.

Lemma updateIn_is_object (path : list string) (f : value -> value) (v : value) :
  path <> [] -> is_object (updateIn path f v) = is_object v.
Proof. destruct path; [congruence |]. intros _. destruct v; reflexivity. Qed.

Lemma is_object_truthy (v : value) : is_object v = true -> truthy v = true.
Proof. destruct v; simpl; congruence. Qed.

Lemma delete_is_object (k : string) (v : value) : is_object (delete k v) = is_object v.
Proof. destruct v; reflexivity. Qed.

Lemma delete_keys (k : string) (v : value) (c : string) :
  In c (own_keys (delete k v)) -> In c (own_keys v).
Proof.
  destruct v as [| | b | n | s | xs | ps]; simpl; auto.
  unfold own_keys. simpl. rewrite !in_map_iff.
  intros (p & Hp & Hin). apply filter_In in Hin as (Hin & _). eauto.
Qed.

Lemma delete_prop_other (k : string) (v : value) (c : string) :
  c <> k -> prop (delete k v) c = prop v c.
Proof.
  intros Hne. destruct v as [| | b | n | s | xs | ps]; simpl; auto.
  unfold prop. simpl. induction ps as [|[k' x] ps IH]; simpl; [reflexivity |].
  destruct (String.eqb_spec k' k) as [->|Hk']; simpl.
  - apply not_eq_sym, String.eqb_neq in Hne. rewrite Hne. exact IH.
  - destruct (k' =? c); [reflexivity | exact IH].
Qed.

Lemma delete_prop (k : string) (v : value) :
  is_object v = true -> prop (delete k v) k = VUndefined.
Proof.
  destruct v as [| | b | n | s | xs | ps]; simpl; try discriminate. intros _.
  unfold prop. simpl. induction ps as [|[k' x] ps IH]; simpl; [reflexivity |].
  destruct (String.eqb_spec k' k) as [->|Hk']; simpl; [exact IH |].
  apply String.eqb_neq in Hk'. rewrite Hk'. exact IH.
Qed.

(** ** Blocks that do not read the edited section *)

Section Unchanged.

Variable E : externals.
Variables (k : string) (before after : value).
Hypothesis Hsame : same_except k before after.

Ltac other_section Hk :=
  let H := fresh in intros H; apply Hk; rewrite <- H; simpl; tauto.

Lemma prop_unchanged (name : string) : name <> k -> prop after name = prop before name.
Proof. destruct Hsame as (_ & _ & _ & _ & H). apply H. Qed.

Lemma get_opt_unchanged (name : string) :
  name <> k -> get_opt after name = get_opt before name.
Proof.
  intros Hne. unfold get_opt. rewrite prop_unchanged by exact Hne.
  destruct Hsame as (_ & _ & _ & -> & _). reflexivity.
Qed.

Lemma checkSection_unchanged (name : string) (validKeys : list string) :
  name <> k -> checkSection after name validKeys = checkSection before name validKeys.
Proof. intros Hne. unfold checkSection. rewrite prop_unchanged by exact Hne. reflexivity. Qed.

Lemma checkFees_unchanged (enabledChains enabledTokens : list string) :
  "fees" <> k -> "routes" <> k ->
  checkFees after enabledChains enabledTokens = checkFees before enabledChains enabledTokens.
Proof.
  intros Hfees Hroutes. unfold checkFees.
  rewrite !(prop_unchanged "fees"), !(prop_unchanged "routes") by assumption.
  rewrite (get_opt_unchanged "fees") by assumption. reflexivity.
Qed.

(** The blocks that run before the fee block, on a configuration edited in
    a section they do not read. *)
Lemma blocks_before_fees_unchanged :
  ~ In k sections_before_fees ->
  enabledChainsOf after = enabledChainsOf before
  /\ enabledTokensOf after = enabledTokensOf before
  /\ checkChains E after = checkChains E before
  /\ checkTokens after = checkTokens before
  /\ checkWatchers E after = checkWatchers E before
  /\ checkCredentials after = checkCredentials before
  /\ checkPlainSections E after = checkPlainSections E before
  /\ forall enabledChains,
       checkRoutes after enabledChains = checkRoutes before enabledChains.
Proof.
  intros Hk.
  assert (Hchains : prop after "chains" = prop before "chains")
    by (apply prop_unchanged; other_section Hk).
  assert (Htokens : prop after "tokens" = prop before "tokens")
    by (apply prop_unchanged; other_section Hk).
  assert (Hwatchers : prop after "watchers" = prop before "watchers")
    by (apply prop_unchanged; other_section Hk).
  assert (Hlogging : prop after "logging" = prop before "logging")
    by (apply prop_unchanged; other_section Hk).
  assert (Hroutes : prop after "routes" = prop before "routes")
    by (apply prop_unchanged; other_section Hk).
  repeat split.
  - unfold enabledChainsOf. rewrite Hchains. reflexivity.
  - unfold enabledTokensOf. rewrite Htokens. reflexivity.
  - unfold checkChains. rewrite Hchains. reflexivity.
  - unfold checkTokens. rewrite Htokens. reflexivity.
  - unfold checkWatchers. rewrite Hwatchers. reflexivity.
  - unfold checkCredentials.
    rewrite (get_opt_unchanged "keystore"), (get_opt_unchanged "signer")
      by (other_section Hk).
    reflexivity.
  - unfold checkPlainSections, checkLogging.
    rewrite !checkSection_unchanged by (other_section Hk).
    rewrite Hlogging, (get_opt_unchanged "logging") by (other_section Hk).
    reflexivity.
  - intros enabledChains. unfold checkRoutes. rewrite Hroutes. reflexivity.
Qed.

End Unchanged.

(** ** A fee entry that is not there *)

(** The fee block of a configuration that passed it, once the fees are
    edited so that the entry of token [t] for the destination chain [d] is
    falsy and nothing else is added, throws the error of that entry. *)
Lemma checkFees_entry_missing (before after : value)
    (enabledChains enabledTokens : list string) (t d : string) :
  checkFees before enabledChains enabledTokens = Ok tt ->
  truthy (prop before "fees") = true ->
  truthy (prop after "fees") = true ->
  prop after "routes" = prop before "routes" ->
  same_except t (prop before "fees") (prop after "fees") ->
  nullish (prop (prop after "fees") t) = false ->
  (forall c, In c (own_keys (prop (prop after "fees") t)) ->
             In c (own_keys (prop (prop before "fees") t))) ->
  (forall c, c <> d ->
             prop (prop (prop after "fees") t) c = prop (prop (prop before "fees") t) c) ->
  truthy (prop (prop (prop after "fees") t) d) = false ->
  In t (own_keys (prop before "fees")) ->
  destination_of_route (prop before "routes") d ->
  checkFees after enabledChains enabledTokens = Throw (missing_fee_for_chain d t).
Proof.
  intros Hok Hfees Hfees' Hroutes (Hkeys & _ & _ & _ & Hothers) Hentry Hsub Hsame Hfalsy Ht Hd.
  unfold checkFees in *. rewrite Hfees in Hok. rewrite Hfees'. simpl in *.
  apply bind_Ok in Hok as (keys & Hk & Hok). apply Object_keys_Ok in Hk as (Hnull & ->).
  apply bind_unit_Ok in Hok as (Hvalid & Hok).
  apply bind_Ok in Hok as (ds & Hds & Hok).
  apply bind_unit_Ok in Hok as (Hloop & _).
  unfold Object_keys at 1. rewrite (truthy_not_nullish _ Hfees'). simpl.
  rewrite Hkeys, Hvalid, Hroutes, Hds. simpl.
  erewrite for_of_change_one; [reflexivity | exact Ht | exact Hloop | |].
  - intros y _ Hy. rewrite (Hothers y Hy). reflexivity.
  - rewrite for_of_Ok in Hloop. specialize (Hloop t Ht).
    apply bind_Ok in Hloop as (chains & Hk & Hloop).
    apply Object_keys_Ok in Hk as (Hnullt & ->).
    apply bind_unit_Ok in Hloop as (Hchains & Hinner).
    unfold Object_keys. rewrite Hentry. simpl.
    replace (validateKeys enabledChains (own_keys (prop (prop after "fees") t)))
      with (Ok tt).
    2: { symmetry. apply validateKeys_Ok. intros c Hc.
         apply (proj1 (validateKeys_Ok _ _) Hchains), Hsub, Hc. }
    simpl. apply for_of_change_one with (x := d) (2 := Hinner).
    + apply (collectDestinationChains_routes _ _ Hds), Hd.
    + intros c _ Hc. rewrite !get_opt_not_nullish by assumption.
      rewrite (Hsame c Hc). reflexivity.
    + rewrite get_opt_not_nullish by assumption. rewrite Hfalsy. reflexivity.
Qed.

Section Fees.

Variable E : externals.

(** The structural pass, on a configuration that it accepted and whose
    fees alone were then edited, throws what the fee block throws. *)
Lemma fees_edited (before after : value) (e : exn) :
  validateConfigFileStructure E before = Ok tt ->
  same_except "fees" before after ->
  checkFees after (enabledChainsOf before) (enabledTokensOf before) = Throw e ->
  validateConfigFileStructure E after = Throw e.
Proof.
  intros Hok Hsame Hthrow.
  apply validateConfigFileStructure_blocks in Hok
    as (Htruthy & Hobject & Hsections & Hchains & Htokens & Hwatchers & Hcredentials
        & Hplain & Hroutes & _).
  destruct (blocks_before_fees_unchanged E "fees" before after Hsame)
    as (HeC & HeT & Hc & Ht & Hw & Hcr & Hp & Hr).
  { unfold sections_before_fees. simpl.
    intros H. repeat (destruct H as [H|H]; [discriminate H |]). exact H. }
  destruct Hsame as (Hkeys & Htr & Hin & _).
  apply throws_in_checkFees; rewrite ?HeC, ?HeT, ?Hc, ?Ht, ?Hw, ?Hcr, ?Hp, ?Hr, ?Hkeys;
    congruence.
Qed.

(** C1: when the [fees] section is there, the structural pass accepts only
    if every enabled token has an entry in [fees] and every token of [fees]
    has an entry for every destination chain of the routes; and once
    one of these entries, of token [t] for destination chain [d], is removed
    from a configuration that was accepted, the pass throws the error that
    names the chain [d] and the token [t]. *)
Theorem fee_entries_required (config : value) :
  validateConfigFileStructure E config = Ok tt ->
  truthy (prop config "fees") = true ->
  (forall t, In t (enabledTokensOf config) -> has_key (prop config "fees") t = true)
  /\ (forall t d,
        In t (own_keys (prop config "fees")) ->
        destination_of_route (prop config "routes") d ->
        has_key (prop (prop config "fees") t) d = true)
  /\ (forall t d,
        is_object config = true ->
        is_object (prop config "fees") = true ->
        is_object (prop (prop config "fees") t) = true ->
        destination_of_route (prop config "routes") d ->
        validateConfigFileStructure E (removeIn ["fees"; t] d config)
        = Throw (Error ("missing fee for chain " ++ quoted d
                        ++ " for token " ++ quoted t))).
Proof.
  intros Hok Hfees.
  pose proof (proj1 (validateConfigFileStructure_blocks E config) Hok)
    as (_ & _ & _ & _ & _ & _ & _ & _ & _ & Hblock & _).
  pose proof (checkFees_Ok _ _ _ Hblock Hfees) as (_ & _ & _ & _ & Hentries & Htokens).
  split; [| split].
  - intros t Ht. apply truthy_has_key, Htokens, Ht.
  - intros t d Ht Hd. apply truthy_has_key, Hentries; assumption.
  - intros t d Hconfig Hobject Hentry Hd. unfold removeIn.
    assert (Hkey : has_key config "fees" = true) by (apply is_object_has_key, Hobject).
    assert (Ht : has_key (prop config "fees") t = true) by (apply is_object_has_key, Hentry).
    assert (Hafter : prop (updateIn ["fees"; t] (delete d) config) "fees"
                     = updateIn [t] (delete d) (prop config "fees"))
      by (apply updateIn_prop; assumption).
    assert (Hafter_t : prop (prop (updateIn ["fees"; t] (delete d) config) "fees") t
                       = delete d (prop (prop config "fees") t))
      by (rewrite Hafter; apply (updateIn_prop t [] (delete d)); assumption).
    pose proof (updateIn_same_except "fees" [t] (delete d) config) as Hsame.
    apply (fees_edited config _ _ Hok Hsame).
    apply checkFees_entry_missing with (before := config); try assumption.
    + rewrite Hafter. apply is_object_truthy.
      rewrite updateIn_is_object by discriminate. exact Hobject.
    + destruct Hsame as (_ & _ & _ & _ & H). apply H. discriminate.
    + rewrite Hafter. apply updateIn_same_except.
    + rewrite Hafter_t. apply truthy_not_nullish, is_object_truthy.
      rewrite delete_is_object. exact Hentry.
    + intros c. rewrite Hafter_t. apply delete_keys.
    + intros c Hc. rewrite Hafter_t. apply delete_prop_other, Hc.
    + rewrite Hafter_t, delete_prop by exact Hentry. reflexivity.
    + apply has_key_In, Ht.
Qed.

End Fees.

Lemma fee_entries_required_witness :
  validateConfigFileStructure Example.env (removeIn ["fees"; "USDC"] "optimism" Example.scenario)
  = Throw (Error ("missing fee for chain " ++ quoted "optimism"
                  ++ " for token " ++ quoted "USDC")).
Proof.
  apply (proj2 (proj2 (fee_entries_required Example.env Example.scenario
                         ltac:(vm_compute; reflexivity) ltac:(reflexivity)))).
  - reflexivity.
  - reflexivity.
  - reflexivity.
  - exists "ethereum". simpl. auto.
Defined.

(** ** Thresholds *)

Section Thresholds.

Variable E : externals.

Lemma length_zero_nil (keys : list string) :
  (List.length keys =? 0)%nat = true <-> keys = [].
Proof. destruct keys; simpl; split; congruence. Qed.

Lemma checkCommitTransfers_Ok (config : value) (enabledChains enabledTokens : list string) :
  checkCommitTransfers E config enabledChains enabledTokens = Ok tt ->
  truthy (prop config "commitTransfers") = true ->
  let minThresholdAmount := prop (prop config "commitTransfers") "minThresholdAmount" in
  subset (own_keys (prop config "commitTransfers")) ["minThresholdAmount"] = true
  /\ nullish minThresholdAmount = false
  /\ (own_keys minThresholdAmount <> [] ->
      subset (own_keys minThresholdAmount) enabledTokens = true
      /\ checkThresholds E minThresholdAmount (prop config "routes")
           enabledChains enabledTokens = Ok tt).
Proof.
  unfold checkCommitTransfers. intros H Hcommit. rewrite Hcommit in H. simpl in H.
  apply bind_Ok in H as (keys & Hkeys & H). apply Object_keys_Ok in Hkeys as (_ & ->).
  apply bind_unit_Ok in H as (Hvalid & H). apply validateKeys_subset in Hvalid.
  apply bind_Ok in H as (tokens & Htokens & H).
  apply Object_keys_Ok in Htokens as (Hnull & ->).
  cbv zeta. split; [exact Hvalid |]. split; [exact Hnull |].
  intros Hne. rewrite when_Ok in H.
  destruct (List.length _ =? 0)%nat eqn:Hlen.
  - apply length_zero_nil in Hlen. contradiction.
  - specialize (H eq_refl). apply bind_unit_Ok in H as (Hsub & H).
    apply validateKeys_subset in Hsub. auto.
Qed.

(** C2: when [commitTransfers.minThresholdAmount] has keys, the structural
    pass accepts only if, for every enabled token and every route whose
    source chain is not Ethereum, the threshold of the token for the source
    and destination chains of the route is there; it throws when one of
    them is absent or falsy; and the loop that checks the thresholds returns
    as soon as the entries of the routes with another source chain than
    Ethereum are there, whatever there is for the routes that leave
    Ethereum. *)
Theorem threshold_entries_required :
  (forall config t s d,
     validateConfigFileStructure E config = Ok tt ->
     truthy (prop config "commitTransfers") = true ->
     own_keys (prop (prop config "commitTransfers") "minThresholdAmount") <> [] ->
     In t (enabledTokensOf config) ->
     In s (own_keys (prop config "routes")) ->
     s <> Chain_Ethereum E ->
     In d (own_keys (prop (prop config "routes") s)) ->
     has_key
       (prop (prop (prop (prop config "commitTransfers") "minThresholdAmount") t) s) d = true)
  /\ (forall config t s d,
        truthy (prop config "commitTransfers") = true ->
        own_keys (prop (prop config "commitTransfers") "minThresholdAmount") <> [] ->
        In t (enabledTokensOf config) ->
        In s (own_keys (prop config "routes")) ->
        s <> Chain_Ethereum E ->
        In d (own_keys (prop (prop config "routes") s)) ->
        truthy
          (prop (prop (prop (prop (prop config "commitTransfers") "minThresholdAmount") t) s) d)
        = false ->
        exists e, validateConfigFileStructure E config = Throw e)
  /\ (forall minThresholdAmount routes enabledChains enabledTokens,
        (forall t, In t enabledTokens ->
           truthy (prop minThresholdAmount t) = true
           /\ subset (own_keys (prop minThresholdAmount t)) enabledChains = true
           /\ forall s, In s (own_keys routes) -> s <> Chain_Ethereum E ->
                truthy (prop (prop minThresholdAmount t) s) = true
                /\ forall d, In d (own_keys (prop routes s)) ->
                     truthy (prop (prop (prop minThresholdAmount t) s) d) = true) ->
        checkThresholds E minThresholdAmount routes enabledChains enabledTokens = Ok tt).
Proof.
  assert (Hentry : forall config t s d,
     validateConfigFileStructure E config = Ok tt ->
     truthy (prop config "commitTransfers") = true ->
     own_keys (prop (prop config "commitTransfers") "minThresholdAmount") <> [] ->
     In t (enabledTokensOf config) ->
     In s (own_keys (prop config "routes")) ->
     s <> Chain_Ethereum E ->
     In d (own_keys (prop (prop config "routes") s)) ->
     truthy
       (prop (prop (prop (prop (prop config "commitTransfers") "minThresholdAmount") t) s) d)
     = true).
  { intros config t s d Hok Hcommit Hkeys Ht Hs Hne Hd.
    apply validateConfigFileStructure_blocks in Hok
      as (_ & _ & _ & _ & _ & _ & _ & _ & _ & _ & Hblock & _).
    destruct (checkCommitTransfers_Ok _ _ _ Hblock Hcommit) as (_ & _ & Hloop).
    destruct (Hloop Hkeys) as (_ & Hthresholds).
    rewrite checkThresholds_Ok in Hthresholds.
    destruct (Hthresholds t Ht) as (_ & _ & Hsources).
    destruct (Hsources s Hs Hne) as (_ & Hdestinations).
    apply Hdestinations, Hd. }
  split; [| split].
  - intros config t s d Hok Hcommit Hkeys Ht Hs Hne Hd.
    apply truthy_has_key. apply Hentry; assumption.
  - intros config t s d Hcommit Hkeys Ht Hs Hne Hd Hfalsy.
    apply not_Ok_Throw. intros Hok.
    rewrite (Hentry config t s d) in Hfalsy by assumption. discriminate.
  - intros minThresholdAmount routes enabledChains enabledTokens H.
    apply checkThresholds_Ok, H.
Qed.

End Thresholds.

(** The route from Ethereum to Optimism has no threshold in this accepted
    configuration; the route from Optimism to Ethereum has one. *)
Example thresholds_of_base_routes_exempt :
  validateConfigFileStructure Example.env
    (Example.scenario_with_thresholds (VNum 1%float)) = Ok tt
  /\ prop (prop (prop (Example.scenario_with_thresholds (VNum 1%float)) "commitTransfers")
             "minThresholdAmount") "USDC"
     = VObj [ ("optimism", VObj [ ("ethereum", VNum 1%float) ]) ].
Proof. split; vm_compute; reflexivity. Qed.

Lemma threshold_entries_required_witness :
  has_key
    (prop (prop (prop (prop (Example.scenario_with_thresholds (VNum 1%float))
                         "commitTransfers") "minThresholdAmount") "USDC") "optimism")
    "ethereum" = true.
Proof.
  apply (proj1 (threshold_entries_required Example.env)
           (Example.scenario_with_thresholds (VNum 1%float)) "USDC" "optimism" "ethereum").
  - vm_compute. reflexivity.
  - reflexivity.
  - discriminate.
  - simpl. auto.
  - simpl. auto.
  - discriminate.
  - simpl. auto.
Defined.

(** ** Allow-lists *)

Lemma falsy_prop (v : value) (k : string) : truthy v = false -> prop v k = VUndefined.
Proof.
  intros H. apply absent_key_undefined. unfold has_key.
  rewrite (falsy_own_keys _ H). reflexivity.
Qed.

Lemma no_keys_prop (v : value) (k : string) : own_keys v = [] -> prop v k = VUndefined.
Proof. intros H. apply absent_key_undefined. unfold has_key. rewrite H. reflexivity. Qed.

Section Allowed.

Variable E : externals.

Lemma checkFees_allowed (config : value) (enabledChains enabledTokens : list string) :
  checkFees config enabledChains enabledTokens = Ok tt ->
  section_keys_allowed config "fees" enabledTokens = true
  /\ nested (prop config "fees") (own_keys (prop config "fees"))
       (fun fee => subset (own_keys fee) enabledChains) = true.
Proof.
  intros H. unfold section_keys_allowed.
  destruct (truthy (prop config "fees")) eqn:Hfees.
  - destruct (checkFees_Ok _ _ _ H Hfees) as (Htokens & Hchains & _).
    cbv zeta in Htokens. rewrite Htokens. auto.
  - rewrite (falsy_own_keys _ Hfees). auto.
Qed.

Lemma checkCommitTransfers_allowed (config : value)
    (enabledChains enabledTokens : list string) :
  checkCommitTransfers E config enabledChains enabledTokens = Ok tt ->
  let minThresholdAmount := prop (prop config "commitTransfers") "minThresholdAmount" in
  section_keys_allowed config "commitTransfers" ["minThresholdAmount"] = true
  /\ subset (own_keys minThresholdAmount) enabledTokens = true
  /\ nested minThresholdAmount enabledTokens
       (fun bySource => subset (own_keys bySource) enabledChains) = true.
Proof.
  intros H. unfold section_keys_allowed. cbv zeta.
  destruct (truthy (prop config "commitTransfers")) eqn:Hcommit.
  - destruct (checkCommitTransfers_Ok _ _ _ _ H Hcommit) as (Hkeys & _ & Hloop).
    rewrite Hkeys. split; [reflexivity |].
    destruct (own_keys (prop (prop config "commitTransfers") "minThresholdAmount"))
      as [|token tokens] eqn:Htokens.
    + split; [reflexivity |]. apply nested_In. intros t _.
      rewrite (no_keys_prop _ t Htokens). reflexivity.
    + destruct Hloop as (Hsub & Hthresholds); [discriminate |].
      split; [exact Hsub |]. apply nested_In. intros t Ht.
      rewrite checkThresholds_Ok in Hthresholds. apply (Hthresholds t Ht).
  - rewrite (falsy_prop _ "minThresholdAmount" Hcommit). simpl.
    repeat split. apply nested_In. intros t _. reflexivity.
Qed.

Lemma checkBonders_allowed (config : value) (enabledChains enabledTokens : list string) :
  checkBonders config enabledChains enabledTokens = Ok tt ->
  section_keys_allowed config "bonders" enabledTokens = true
  /\ nested (prop config "bonders") enabledTokens
       (fun bySource =>
          subset (own_keys bySource) enabledChains
          && nested bySource (own_keys bySource)
               (fun byDestination => subset (own_keys byDestination) enabledChains)) = true.
Proof.
  unfold checkBonders, section_keys_allowed. rewrite when_Ok. intros H.
  destruct (truthy (prop config "bonders")) eqn:Hbonders.
  - specialize (H eq_refl). cbv zeta in H.
    apply bind_unit_Ok in H as (_ & H).
    apply bind_Ok in H as (tokens & Htokens & H).
    apply Object_keys_Ok in Htokens as (_ & ->).
    apply bind_unit_Ok in H as (Hvalid & Hloop). apply validateKeys_subset in Hvalid.
    rewrite Hvalid. split; [reflexivity |].
    apply nested_In. intros t Ht. rewrite for_of_Ok in Hloop. specialize (Hloop t Ht).
    apply bind_unit_Ok in Hloop as (_ & Hloop).
    apply bind_Ok in Hloop as (sources & Hsources & Hloop).
    apply Object_keys_Ok in Hsources as (_ & ->).
    apply bind_unit_Ok in Hloop as (Hsub & Hinner). apply validateKeys_subset in Hsub.
    rewrite Hsub. simpl. apply nested_In. intros s Hs.
    rewrite for_of_Ok in Hinner. specialize (Hinner s Hs).
    apply bind_unit_Ok in Hinner as (_ & Hinner).
    apply keys_checked in Hinner as (_ & Hdst). exact Hdst.
  - split; [reflexivity |]. apply nested_In. intros t _.
    rewrite (falsy_prop _ t Hbonders). reflexivity.
Qed.

Lemma checkVault_allowed (config : value) :
  checkVault E config = Ok tt ->
  section_keys_allowed config "vault" validTokenKeys = true
  /\ nested (prop config "vault") (own_keys (prop config "vault"))
       (fun byChain =>
          subset (own_keys byChain) (validChainKeys E)
          && nested byChain (own_keys byChain)
               (fun parameters =>
                  subset (own_keys parameters)
                    ["depositThresholdAmount"; "depositAmount"; "strategy"; "autoWithdraw";
                     "autoDeposit"])) = true.
Proof.
  unfold checkVault, section_keys_allowed. rewrite when_Ok. intros H.
  destruct (truthy (prop config "vault")) eqn:Hvault.
  - specialize (H eq_refl). cbv zeta in H.
    apply bind_Ok in H as (tokens & Htokens & H).
    apply Object_keys_Ok in Htokens as (_ & ->).
    apply bind_unit_Ok in H as (Hvalid & Hloop). apply validateKeys_subset in Hvalid.
    rewrite Hvalid. split; [reflexivity |].
    apply nested_In. intros t Ht. rewrite for_of_Ok in Hloop. specialize (Hloop t Ht).
    apply bind_Ok in Hloop as (chains & Hchains & Hloop).
    apply Object_keys_Ok in Hchains as (_ & ->).
    apply bind_unit_Ok in Hloop as (Hsub & Hinner). apply validateKeys_subset in Hsub.
    rewrite Hsub. simpl. apply nested_In. intros c Hc.
    rewrite for_of_Ok in Hinner. specialize (Hinner c Hc). cbv zeta in Hinner.
    apply keys_checked in Hinner as (_ & Hparameters). exact Hparameters.
  - rewrite (falsy_own_keys _ Hvault). auto.
Qed.

Lemma checkBlocklist_allowed (config : value) :
  checkBlocklist config = Ok tt ->
  section_keys_allowed config "blocklist" ["path"; "addresses"] = true.
Proof.
  unfold checkBlocklist, section_keys_allowed. rewrite when_Ok. intros H.
  destruct (truthy (prop config "blocklist")); [| reflexivity].
  specialize (H eq_refl). cbv zeta in H.
  apply bind_unit_Ok in H as (_ & H).
  apply keys_checked in H as (_ & ->). reflexivity.
Qed.

(** C3, as the code has it: the structural pass accepts a configuration
    only if every section and nested key belongs to its allow-list; the
    membership is necessary and, the pass having other checks, not
    sufficient. *)
Theorem accepted_keys_allowed (config : value) :
  validateConfigFileStructure E config = Ok tt ->
  allKeysAllowed E config = true.
Proof.
  intros H. apply validateConfigFileStructure_blocks in H
    as (_ & _ & Hsections & Hchains & Htokens & Hwatchers & _
        & Hplain & Hroutes & Hfees & Hcommit & Hbonders & Hvault & Hblocklist).
  apply validateKeys_subset in Hsections.
  apply checkChains_Ok in Hchains as (_ & _ & _ & HeC & Hchain).
  apply checkTokens_Ok in Htokens as (_ & _ & HeT).
  apply checkWatchers_Ok in Hwatchers as (_ & Hwatchers).
  apply checkPlainSections_Ok in Hplain
    as (Hdb & Hlogging & Hkeystore & Hsigner & Hmetrics & Haddresses).
  apply checkRoutes_Ok in Hroutes as (Hsources & Hdestinations & _).
  apply checkFees_allowed in Hfees as (Hfee_tokens & Hfee_chains).
  apply checkCommitTransfers_allowed in Hcommit as (Hcommit & Hthr_tokens & Hthr_chains).
  apply checkBonders_allowed in Hbonders as (Hbonder_tokens & Hbonder_chains).
  apply checkVault_allowed in Hvault as (Hvault_tokens & Hvault_chains).
  apply checkBlocklist_allowed in Hblocklist.
  unfold allKeysAllowed. cbv zeta.
  rewrite Hsections, HeC, Hchain, HeT, Hwatchers, Hdb, Hlogging, Hkeystore, Hsigner,
    Hmetrics, Haddresses, Hblocklist, Hsources, Hdestinations, Hfee_tokens, Hfee_chains,
    Hcommit, Hthr_tokens, Hthr_chains, Hbonder_tokens, Hbonder_chains, Hvault_tokens,
    Hvault_chains.
  reflexivity.
Qed.

End Allowed.

Lemma accepted_keys_allowed_witness : allKeysAllowed Example.env Example.scenario = true.
Proof.
  apply (accepted_keys_allowed Example.env Example.scenario). vm_compute. reflexivity.
Defined.

(** Membership in the allow-lists does not make the pass accept: every key
    of this configuration belongs to its allow-list and the structural pass
    rejects it, for the fee of USDC towards Optimism that it lacks. *)
Lemma allowed_keys_not_sufficient :
  allKeysAllowed Example.env Example.scenario_without_fee = true
  /\ validateConfigFileStructure Example.env Example.scenario_without_fee
     = Throw (Error ("missing fee for chain " ++ quoted "optimism"
                     ++ " for token " ++ quoted "USDC"))
  /\ ~ (validateConfigFileStructure Example.env Example.scenario_without_fee = Ok tt
        <-> allKeysAllowed Example.env Example.scenario_without_fee = true).
Proof.
  assert (Hallowed : allKeysAllowed Example.env Example.scenario_without_fee = true)
    by (vm_compute; reflexivity).
  assert (Hthrows : validateConfigFileStructure Example.env Example.scenario_without_fee
                    = Throw (Error ("missing fee for chain " ++ quoted "optimism"
                                    ++ " for token " ++ quoted "USDC")))
    by (vm_compute; reflexivity).
  split; [exact Hallowed |]. split; [exact Hthrows |].
  intros [_ H]. specialize (H Hallowed). rewrite Hthrows in H. discriminate.
Qed.

(** ** A falsy entry under a key that is there *)

Section Falsy.

Variable E : externals.

(** The threshold loop of a configuration that passed it, once the
    threshold of token [t] for the route from [s] to [d] alone is replaced
    by a falsy value, throws the error of that route. *)
Lemma checkThresholds_entry_missing (before after routes : value)
    (enabledChains enabledTokens : list string) (t s d : string) :
  checkThresholds E before routes enabledChains enabledTokens = Ok tt ->
  same_except t before after ->
  truthy (prop after t) = true ->
  same_except s (prop before t) (prop after t) ->
  truthy (prop (prop after t) s) = true ->
  same_except d (prop (prop before t) s) (prop (prop after t) s) ->
  truthy (prop (prop (prop after t) s) d) = false ->
  In t enabledTokens ->
  In s (own_keys routes) ->
  s <> Chain_Ethereum E ->
  In d (own_keys (prop routes s)) ->
  checkThresholds E after routes enabledChains enabledTokens
  = Throw (missing_threshold_for_route t s d).
Proof.
  intros Hok (_ & _ & _ & _ & Htokens) Htruthy_t (Hkeys_t & _ & _ & _ & Hsources)
         Htruthy_s (_ & _ & _ & _ & Hdestinations) Hfalsy Ht Hs Hne Hd.
  unfold checkThresholds in *.
  apply for_of_change_one with (x := t) (2 := Hok); [exact Ht | |].
  - intros y _ Hy. rewrite (Htokens y Hy). reflexivity.
  - rewrite for_of_Ok in Hok. specialize (Hok t Ht).
    apply bind_unit_Ok in Hok as (_ & Hok).
    apply bind_Ok in Hok as (chains & Hchains & Hok).
    apply Object_keys_Ok in Hchains as (_ & ->).
    apply bind_unit_Ok in Hok as (Hvalid & Hloop).
    rewrite Htruthy_t. simpl.
    unfold Object_keys. rewrite (truthy_not_nullish _ Htruthy_t). simpl.
    rewrite Hkeys_t, Hvalid. simpl.
    apply for_of_change_one with (x := s) (2 := Hloop); [exact Hs | |].
    + intros y _ Hy. rewrite (Hsources y Hy). reflexivity.
    + rewrite for_of_Ok in Hloop. specialize (Hloop s Hs).
      apply String.eqb_neq in Hne. rewrite Hne in *.
      apply bind_unit_Ok in Hloop as (_ & Hinner).
      rewrite Htruthy_s. simpl.
      apply for_of_change_one with (x := d) (2 := Hinner); [exact Hd | |].
      * intros y _ Hy. rewrite (Hdestinations y Hy). reflexivity.
      * rewrite Hfalsy. reflexivity.
Qed.

(** The structural pass, on a configuration that it accepted and whose
    [commitTransfers] alone was then edited, throws what the threshold
    block throws. *)
Lemma commitTransfers_edited (before after : value) (e : exn) :
  validateConfigFileStructure E before = Ok tt ->
  same_except "commitTransfers" before after ->
  checkCommitTransfers E after (enabledChainsOf before) (enabledTokensOf before) = Throw e ->
  validateConfigFileStructure E after = Throw e.
Proof.
  intros Hok Hsame Hthrow.
  apply validateConfigFileStructure_blocks in Hok
    as (Htruthy & Hobject & Hsections & Hchains & Htokens & Hwatchers & Hcredentials
        & Hplain & Hroutes & Hfees & _).
  destruct (blocks_before_fees_unchanged E "commitTransfers" before after Hsame)
    as (HeC & HeT & Hc & Ht & Hw & Hcr & Hp & Hr).
  { unfold sections_before_fees. simpl.
    intros H. repeat (destruct H as [H|H]; [discriminate H |]). exact H. }
  pose proof (checkFees_unchanged "commitTransfers" before after Hsame
                (enabledChainsOf before) (enabledTokensOf before)) as Hf.
  destruct Hsame as (Hkeys & Htr & Hin & _).
  apply throws_in_checkCommitTransfers;
    rewrite ?HeC, ?HeT, ?Hc, ?Ht, ?Hw, ?Hcr, ?Hp, ?Hr, ?Hkeys, ?Hf;
    try congruence; discriminate.
Qed.

End Falsy.

Section FalsyEntries.

Variable E : externals.

Opaque updateIn.

Lemma falsy_fee (config : value) (t d : string) (v : value) :
  validateConfigFileStructure E config = Ok tt ->
  is_object config = true ->
  is_object (prop config "fees") = true ->
  is_object (prop (prop config "fees") t) = true ->
  destination_of_route (prop config "routes") d ->
  truthy v = false ->
  has_key (prop (prop (setIn ["fees"; t; d] v config) "fees") t) d = true
  /\ prop (prop (prop (setIn ["fees"; t; d] v config) "fees") t) d = v
  /\ validateConfigFileStructure E (setIn ["fees"; t; d] v config)
     = Throw (missing_fee_for_chain d t).
Proof.
  intros Hok Hconfig Hobject Hentry Hd Hfalsy. unfold setIn.
  set (f := fun _ : value => v).
  assert (Hfees : truthy (prop config "fees") = true) by (apply is_object_truthy, Hobject).
  pose proof (proj1 (validateConfigFileStructure_blocks E config) Hok)
    as (_ & _ & _ & _ & _ & _ & _ & _ & _ & Hblock & _).
  pose proof (checkFees_Ok _ _ _ Hblock Hfees) as (_ & _ & _ & _ & Hentries & _).
  assert (Hkey : has_key config "fees" = true) by (apply is_object_has_key, Hobject).
  assert (Ht : has_key (prop config "fees") t = true) by (apply is_object_has_key, Hentry).
  assert (Hdkey : has_key (prop (prop config "fees") t) d = true).
  { apply truthy_has_key, Hentries; [apply has_key_In, Ht | exact Hd]. }
  assert (Hafter : prop (updateIn ["fees"; t; d] f config) "fees"
                   = updateIn [t; d] f (prop config "fees"))
    by (apply updateIn_prop; assumption).
  assert (Hafter_t : prop (prop (updateIn ["fees"; t; d] f config) "fees") t
                     = updateIn [d] f (prop (prop config "fees") t))
    by (rewrite Hafter; apply updateIn_prop; assumption).
  assert (Hafter_d : prop (prop (prop (updateIn ["fees"; t; d] f config) "fees") t) d = v)
    by (rewrite Hafter_t; apply (updateIn_prop d [] f); assumption).
  pose proof (updateIn_same_except d [] f (prop (prop config "fees") t))
    as (Hkeys_t & _ & _ & _ & Hothers).
  split; [| split; [exact Hafter_d |]].
  - rewrite Hafter_t. unfold has_key in *. rewrite Hkeys_t. exact Hdkey.
  - pose proof (updateIn_same_except "fees" [t; d] f config) as Hsame.
    apply (fees_edited E config _ _ Hok Hsame).
    apply checkFees_entry_missing with (before := config); try assumption.
    + rewrite Hafter. apply is_object_truthy.
      rewrite updateIn_is_object by discriminate. exact Hobject.
    + destruct Hsame as (_ & _ & _ & _ & H). apply H. discriminate.
    + rewrite Hafter. apply updateIn_same_except.
    + rewrite Hafter_t. apply truthy_not_nullish, is_object_truthy.
      rewrite updateIn_is_object by discriminate. exact Hentry.
    + intros c. rewrite Hafter_t, Hkeys_t. auto.
    + intros c Hc. rewrite Hafter_t. apply Hothers, Hc.
    + rewrite Hafter_d. exact Hfalsy.
    + apply has_key_In, Ht.
Qed.

Lemma falsy_threshold (config : value) (t s d : string) (v : value) :
  let path := ["commitTransfers"; "minThresholdAmount"; t; s; d] in
  let thresholds c := prop (prop c "commitTransfers") "minThresholdAmount" in
  validateConfigFileStructure E config = Ok tt ->
  is_object config = true ->
  is_object (prop config "commitTransfers") = true ->
  is_object (thresholds config) = true ->
  is_object (prop (thresholds config) t) = true ->
  is_object (prop (prop (thresholds config) t) s) = true ->
  In t (enabledTokensOf config) ->
  In s (own_keys (prop config "routes")) ->
  s <> Chain_Ethereum E ->
  In d (own_keys (prop (prop config "routes") s)) ->
  truthy v = false ->
  has_key (prop (prop (thresholds (setIn path v config)) t) s) d = true
  /\ prop (prop (prop (thresholds (setIn path v config)) t) s) d = v
  /\ validateConfigFileStructure E (setIn path v config)
     = Throw (missing_threshold_for_route t s d).
Proof.
  intros path thresholds Hok Hconfig Hcommit Hmin Hmin_t Hmin_s Ht Hs Hne Hd Hfalsy.
  subst path thresholds. cbv beta. unfold setIn. set (f := fun _ : value => v).
  pose proof (proj1 (validateConfigFileStructure_blocks E config) Hok)
    as (_ & _ & _ & _ & _ & _ & _ & _ & _ & _ & Hblock & _).
  assert (Htokens : own_keys (prop (prop config "commitTransfers") "minThresholdAmount")
                    <> []).
  { apply is_object_has_key, has_key_In in Hmin_t. intros H. rewrite H in Hmin_t.
    exact Hmin_t. }
  destruct (checkCommitTransfers_Ok E _ _ _ Hblock (is_object_truthy _ Hcommit))
    as (Hkeys & _ & Hloop).
  destruct (Hloop Htokens) as (Hsub & Hthresholds).
  pose proof (proj1 (checkThresholds_Ok E _ _ _ _) Hthresholds t Ht) as (_ & _ & Hsources).
  destruct (Hsources s Hs Hne) as (_ & Hdestinations).
  assert (Hdkey : has_key (prop (prop (prop (prop config "commitTransfers")
                                         "minThresholdAmount") t) s) d = true)
    by (apply truthy_has_key, Hdestinations, Hd).
  assert (H1 : prop (updateIn ["commitTransfers"; "minThresholdAmount"; t; s; d] f config)
                 "commitTransfers"
               = updateIn ["minThresholdAmount"; t; s; d] f (prop config "commitTransfers"))
    by (apply updateIn_prop; [assumption | apply is_object_has_key, Hcommit]).
  rewrite H1.
  assert (H2 : prop (updateIn ["minThresholdAmount"; t; s; d] f (prop config "commitTransfers"))
                 "minThresholdAmount"
               = updateIn [t; s; d] f
                   (prop (prop config "commitTransfers") "minThresholdAmount"))
    by (apply updateIn_prop; [assumption | apply is_object_has_key, Hmin]).
  rewrite H2.
  assert (H3 : prop (updateIn [t; s; d] f
                       (prop (prop config "commitTransfers") "minThresholdAmount")) t
               = updateIn [s; d] f
                   (prop (prop (prop config "commitTransfers") "minThresholdAmount") t))
    by (apply updateIn_prop; [assumption | apply is_object_has_key, Hmin_t]).
  rewrite H3.
  assert (H4 : prop (updateIn [s; d] f
                       (prop (prop (prop config "commitTransfers") "minThresholdAmount") t)) s
               = updateIn [d] f
                   (prop (prop (prop (prop config "commitTransfers")
                                  "minThresholdAmount") t) s))
    by (apply updateIn_prop; [assumption | apply is_object_has_key, Hmin_s]).
  rewrite H4.
  assert (H5 : prop (updateIn [d] f
                       (prop (prop (prop (prop config "commitTransfers")
                                      "minThresholdAmount") t) s)) d = v)
    by (apply (updateIn_prop d [] f); assumption).
  pose proof (updateIn_same_except d [] f
                (prop (prop (prop (prop config "commitTransfers")
                               "minThresholdAmount") t) s)) as Hsame_d.
  split; [| split; [exact H5 |]].
  - unfold has_key in *. destruct Hsame_d as (-> & _). exact Hdkey.
  - pose proof (updateIn_same_except "commitTransfers" ["minThresholdAmount"; t; s; d] f
                  config) as Hsame.
    apply (commitTransfers_edited E config _ _ Hok Hsame).
    unfold checkCommitTransfers. rewrite H1.
    pose proof (updateIn_same_except "minThresholdAmount" [t; s; d] f
                  (prop config "commitTransfers")) as (Hk1 & Htr1 & _).
    rewrite Htr1, (is_object_truthy _ Hcommit). simpl.
    unfold Object_keys at 1.
    rewrite (truthy_not_nullish _ (eq_trans Htr1 (is_object_truthy _ Hcommit))). simpl.
    rewrite Hk1. rewrite (proj2 (validateKeys_subset _ _) Hkeys). simpl.
    rewrite H2.
    pose proof (updateIn_same_except t [s; d] f
                  (prop (prop config "commitTransfers") "minThresholdAmount"))
      as Hsame_t.
    unfold Object_keys.
    destruct Hsame_t as (Hk2 & Htr2 & Hin2 & Hnull2 & Hothers2).
    rewrite Hnull2, (truthy_not_nullish _ (is_object_truthy _ Hmin)). simpl.
    rewrite Hk2.
    destruct (own_keys (prop (prop config "commitTransfers") "minThresholdAmount"))
      as [|token tokens] eqn:Hown; [contradiction |].
    simpl. rewrite (proj2 (validateKeys_subset _ _) Hsub). simpl.
    destruct Hsame as (_ & _ & _ & _ & Hroutes).
    rewrite (Hroutes "routes") by discriminate.
    apply checkThresholds_entry_missing
      with (before := prop (prop config "commitTransfers") "minThresholdAmount");
      try assumption.
    + apply updateIn_same_except.
    + rewrite H3. apply is_object_truthy.
      rewrite updateIn_is_object by discriminate. exact Hmin_t.
    + rewrite H3. apply updateIn_same_except.
    + rewrite H3, H4. apply is_object_truthy.
      rewrite updateIn_is_object by discriminate. exact Hmin_s.
    + rewrite H3, H4. exact Hsame_d.
    + rewrite H3, H4, H5. exact Hfalsy.
Qed.

Transparent updateIn.

End FalsyEntries.

(** C9, as the code has it: the existence checks test truthiness.  In an
    accepted configuration, once the fee of a token for a destination chain
    of the routes, or the threshold of an enabled token for a route that
    does not leave Ethereum, is replaced by a falsy value, the key staying
    there, the pass throws the missing-entry error of that entry; and the
    pass throws on every configuration in which the fees of an enabled token
    are falsy. *)
Theorem falsy_entry_counts_as_missing (E : externals) :
  (forall config t d v,
     validateConfigFileStructure E config = Ok tt ->
     is_object config = true ->
     is_object (prop config "fees") = true ->
     is_object (prop (prop config "fees") t) = true ->
     destination_of_route (prop config "routes") d ->
     truthy v = false ->
     has_key (prop (prop (setIn ["fees"; t; d] v config) "fees") t) d = true
     /\ validateConfigFileStructure E (setIn ["fees"; t; d] v config)
        = Throw (Error ("missing fee for chain " ++ quoted d
                        ++ " for token " ++ quoted t)))
  /\ (forall config t s d v,
        validateConfigFileStructure E config = Ok tt ->
        is_object config = true ->
        is_object (prop config "commitTransfers") = true ->
        is_object (prop (prop config "commitTransfers") "minThresholdAmount") = true ->
        is_object (prop (prop (prop config "commitTransfers") "minThresholdAmount") t)
        = true ->
        is_object
          (prop (prop (prop (prop config "commitTransfers") "minThresholdAmount") t) s)
        = true ->
        In t (enabledTokensOf config) ->
        In s (own_keys (prop config "routes")) ->
        s <> Chain_Ethereum E ->
        In d (own_keys (prop (prop config "routes") s)) ->
        truthy v = false ->
        has_key
          (prop (prop (prop (prop
             (setIn ["commitTransfers"; "minThresholdAmount"; t; s; d] v config)
             "commitTransfers") "minThresholdAmount") t) s) d = true
        /\ validateConfigFileStructure E
             (setIn ["commitTransfers"; "minThresholdAmount"; t; s; d] v config)
           = Throw (Error ("missing minThresholdAmount config for token " ++ quoted t
                           ++ " source chain " ++ quoted s
                           ++ " destination chain " ++ quoted d)))
  /\ (forall config t,
        truthy (prop config "fees") = true ->
        In t (enabledTokensOf config) ->
        truthy (prop (prop config "fees") t) = false ->
        exists e, validateConfigFileStructure E config = Throw e).
Proof.
  split; [| split].
  - intros config t d v Hok Hconfig Hfees Hentry Hd Hfalsy.
    destruct (falsy_fee E config t d v Hok Hconfig Hfees Hentry Hd Hfalsy) as (Hkey & _ & H).
    split; [exact Hkey | exact H].
  - intros config t s d v Hok Hconfig Hcommit Hmin Hmin_t Hmin_s Ht Hs Hne Hd Hfalsy.
    destruct (falsy_threshold E config t s d v Hok Hconfig Hcommit Hmin Hmin_t Hmin_s
                Ht Hs Hne Hd Hfalsy) as (Hkey & _ & H).
    split; [exact Hkey | exact H].
  - intros config t Hfees Ht Hfalsy. apply not_Ok_Throw. intros Hok.
    apply validateConfigFileStructure_blocks in Hok
      as (_ & _ & _ & _ & _ & _ & _ & _ & _ & Hblock & _).
    destruct (checkFees_Ok _ _ _ Hblock Hfees) as (_ & _ & _ & _ & _ & Htokens).
    rewrite (Htokens t Ht) in Hfalsy. discriminate.
Qed.

Lemma falsy_entry_counts_as_missing_witness :
  validateConfigFileStructure Example.env Example.scenario_with_zero_fee
  = Throw (Error ("missing fee for chain " ++ quoted "optimism"
                  ++ " for token " ++ quoted "USDC"))
  /\ validateConfigFileStructure Example.env
       (Example.scenario_with_thresholds (VStr ""))
     = Throw (Error ("missing minThresholdAmount config for token " ++ quoted "USDC"
                     ++ " source chain " ++ quoted "optimism"
                     ++ " destination chain " ++ quoted "ethereum")).
Proof.
  split.
  - apply (proj1 (falsy_entry_counts_as_missing Example.env)
             Example.scenario "USDC" "optimism" (VNum 0%float)).
    + vm_compute. reflexivity.
    + reflexivity.
    + reflexivity.
    + reflexivity.
    + exists "ethereum". simpl. auto.
    + reflexivity.
  - apply (proj1 (proj2 (falsy_entry_counts_as_missing Example.env))
             (Example.scenario_with_thresholds (VNum 1%float))
             "USDC" "optimism" "ethereum" (VStr "")).
    + vm_compute. reflexivity.
    + reflexivity.
    + reflexivity.
    + reflexivity.
    + reflexivity.
    + reflexivity.
    + simpl. auto.
    + simpl. auto.
    + discriminate.
    + simpl. auto.
    + reflexivity.
Defined.

(** A falsy value under the key of an enabled token in [fees] is not always
    reported as a missing fee: here the key [USDC] of [fees] is there with
    the value [null], and the pass throws the [TypeError] of [Object.keys]
    (line 193), not the error of line 205. *)
Lemma null_fees_throw_TypeError :
  has_key (prop Example.scenario_with_null_fees "fees") "USDC" = true
  /\ prop (prop Example.scenario_with_null_fees "fees") "USDC" = VNull
  /\ In "USDC" (enabledTokensOf Example.scenario_with_null_fees)
  /\ validateConfigFileStructure Example.env Example.scenario_with_null_fees
     = Throw TypeError
  /\ validateConfigFileStructure Example.env Example.scenario_with_null_fees
     <> Throw (missing_fee_for_token "USDC").
Proof.
  assert (H : validateConfigFileStructure Example.env Example.scenario_with_null_fees
              = Throw TypeError) by (vm_compute; reflexivity).
  split; [reflexivity |]. split; [reflexivity |]. split; [simpl; auto |].
  split; [exact H |]. rewrite H. discriminate.
Qed.

(** ** The value pass *)

Section Values.

Variable E : externals.

Lemma string_truthy (s : string) : truthy (VStr s) = true <-> s <> "".
Proof.
  simpl. destruct (String.eqb_spec s ""); simpl; split; congruence.
Qed.

Lemma http_or_https (p : string) :
  includes ["http:"; "https:"] p = true <-> p = "http:" \/ p = "https:".
Proof.
  rewrite includes_In. simpl. split.
  - intros [H|[H|[]]]; auto.
  - intros [H|H]; auto.
Qed.

(** The URL check returns exactly on the strings that parse as a URL with
    a host and the scheme http or https, and throws the invalid-URL error on
    all others. *)
Lemma checkRpcUrl_cases (url : string) :
  (checkRpcUrl E url = Ok tt
   /\ exists parsed, URL_parse E url = Some parsed
        /\ host parsed <> ""
        /\ (protocol parsed = "http:" \/ protocol parsed = "https:"))
  \/ (checkRpcUrl E url = Throw (invalid_rpc_url url)
      /\ forall parsed, URL_parse E url = Some parsed ->
           host parsed = "" \/ (protocol parsed <> "http:" /\ protocol parsed <> "https:")).
Proof.
  unfold checkRpcUrl, new_URL. destruct (URL_parse E url) as [parsed|]; cbn [bind try_catch].
  - destruct (includes ["http:"; "https:"] (protocol parsed)) eqn:Hscheme.
    + apply http_or_https in Hscheme.
      assert (Hprotocol : truthy (VStr (protocol parsed)) = true).
      { destruct Hscheme as [-> | ->]; reflexivity. }
      rewrite Hprotocol.
      destruct (truthy (VStr (host parsed))) eqn:Hhost; cbn [negb orb throw_if try_catch].
      * left. split; [reflexivity |]. exists parsed. apply string_truthy in Hhost. auto.
      * right. split; [reflexivity |]. intros p Hp. injection Hp as <-. left.
        destruct (String.eqb_spec (host parsed) "") as [H|H]; [exact H |].
        apply string_truthy in H. congruence.
    + right. rewrite !orb_true_r. cbn [throw_if try_catch]. split; [reflexivity |].
      intros p Hp. injection Hp as <-. right.
      split; intros H; rewrite H in Hscheme; discriminate.
  - right. split; [reflexivity |]. discriminate.
Qed.

(** What the body of the loop over the networks has checked. *)
Lemma checkNetwork_Ok (networks : value) (chainSlug : string) :
  checkNetwork E networks chainSlug = Ok tt ->
  exists url,
    prop (prop networks chainSlug) "rpcUrl" = VStr url
    /\ url <> ""
    /\ checkRpcUrl E url = Ok tt.
Proof.
  unfold checkNetwork. cbv zeta. intros H.
  apply bind_unit_Ok in H as (_ & H).
  apply bind_unit_Ok in H as (Hrpc & H).
  apply throw_if_Ok, negb_false_iff in Hrpc.
  destruct (prop (prop networks chainSlug) "rpcUrl") as [| | b | n | url | xs | ps];
    try discriminate.
  exists url. split; [reflexivity |]. split; [apply string_truthy, Hrpc |].
  apply bind_unit_Ok in H as (H & _). exact H.
Qed.

(** The value pass as the sequence of its blocks. *)
Lemma validateConfigValues_blocks (config : value) :
  validateConfigValues E config = Ok tt <->
  truthy config = true
  /\ instanceof_Object config = true
  /\ for_of (own_keys (prop config "networks")) (checkNetwork E (prop config "networks"))
     = Ok tt
  /\ checkThresholdValues E config (getEnabledTokens E) = Ok tt
  /\ checkBonderAddresses E config (getEnabledTokens E) = Ok tt
  /\ checkVaultValues config = Ok tt
  /\ checkBlocklistValues config = Ok tt.
Proof.
  unfold validateConfigValues. cbv zeta.
  rewrite !bind_unit_Ok, !throw_if_Ok, !negb_false_iff. tauto.
Qed.

(** The URL check on the two sample URLs, and the error of the pass at the
    first chain whose URL check fails. *)
Lemma sample_urls_checked
    (Hftp : forall parsed, URL_parse E "ftp://host" = Some parsed -> protocol parsed = "ftp:")
    (Hhttps : URL_parse E "https://host" = Some (mkURL "https:" "host")) :
  (forall config chainSlug,
     validateConfigValues E config = Ok tt ->
     In chainSlug (own_keys (prop config "networks")) ->
     exists url parsed,
       prop (prop (prop config "networks") chainSlug) "rpcUrl" = VStr url
       /\ url <> ""
       /\ URL_parse E url = Some parsed
       /\ host parsed <> ""
       /\ (protocol parsed = "http:" \/ protocol parsed = "https:"))
  /\ (forall url,
        checkRpcUrl E url = Ok tt
        \/ checkRpcUrl E url = Throw (Error ("rpc url " ++ quoted url ++ " is invalid")))
  /\ (forall config before chainSlug after url,
        instanceof_Object config = true ->
        own_keys (prop config "networks") = before ++ chainSlug :: after ->
        (forall slug, In slug before -> checkNetwork E (prop config "networks") slug = Ok tt) ->
        prop (prop (prop config "networks") chainSlug) "rpcUrl" = VStr url ->
        url <> "" ->
        checkRpcUrl E url <> Ok tt ->
        validateConfigValues E config
        = Throw (Error ("rpc url " ++ quoted url ++ " is invalid")))
  /\ (forall config chainSlug,
        In chainSlug (own_keys (prop config "networks")) ->
        prop (prop (prop config "networks") chainSlug) "rpcUrl" = VStr "ftp://host" ->
        exists e, validateConfigValues E config = Throw e)
  /\ checkRpcUrl E "ftp://host"
     = Throw (Error ("rpc url " ++ quoted "ftp://host" ++ " is invalid"))
  /\ checkRpcUrl E "https://host" = Ok tt.
Proof.
  assert (Hnecessary : forall config chainSlug,
     validateConfigValues E config = Ok tt ->
     In chainSlug (own_keys (prop config "networks")) ->
     exists url parsed,
       prop (prop (prop config "networks") chainSlug) "rpcUrl" = VStr url
       /\ url <> ""
       /\ URL_parse E url = Some parsed
       /\ host parsed <> ""
       /\ (protocol parsed = "http:" \/ protocol parsed = "https:")).
  { intros config chainSlug Hok Hslug.
    apply validateConfigValues_blocks in Hok as (_ & _ & Hnetworks & _).
    rewrite for_of_Ok in Hnetworks.
    destruct (checkNetwork_Ok _ _ (Hnetworks chainSlug Hslug)) as (url & Hurl & Hne & Hcheck).
    destruct (checkRpcUrl_cases url) as [(_ & parsed & Hparsed & Hhost & Hscheme)|(H & _)].
    - exists url, parsed. auto.
    - rewrite H in Hcheck. discriminate. }
  assert (Hftp_invalid : checkRpcUrl E "ftp://host" = Throw (invalid_rpc_url "ftp://host")).
  { destruct (checkRpcUrl_cases "ftp://host")
      as [(_ & parsed & Hparsed & _ & Hscheme)|(H & _)]; [| exact H].
    rewrite (Hftp parsed Hparsed) in Hscheme. destruct Hscheme; discriminate. }
  split; [exact Hnecessary |]. split; [| split; [| split; [| split]]].
  - intros url. destruct (checkRpcUrl_cases url) as [(H & _)|(H & _)]; auto.
  - intros config before chainSlug after url Hobject Hkeys Hbefore Hurl Hne Hcheck.
    assert (Htruthy : truthy config = true) by (destruct config; simpl in *; congruence).
    unfold validateConfigValues. rewrite Htruthy, Hobject, Hkeys. simpl.
    rewrite (for_of_first_throw before after chainSlug _ (invalid_rpc_url url) Hbefore);
      [reflexivity |].
    unfold checkNetwork. cbv zeta. rewrite Hurl.
    assert (Hchain : truthy (prop (prop config "networks") chainSlug) = true).
    { destruct (truthy (prop (prop config "networks") chainSlug)) eqn:Hchain;
        [reflexivity |].
      rewrite (falsy_prop _ "rpcUrl" Hchain) in Hurl. discriminate. }
    rewrite Hchain. simpl. apply string_truthy in Hne. simpl in Hne. rewrite Hne. simpl.
    destruct (checkRpcUrl_cases url) as [(H & _)|(H & _)]; [contradiction |].
    rewrite H. reflexivity.
  - intros config chainSlug Hslug Hurl. apply not_Ok_Throw. intros Hok.
    destruct (Hnecessary config chainSlug Hok Hslug)
      as (url & parsed & Hurl' & _ & Hparsed & _ & Hscheme).
    rewrite Hurl in Hurl'. injection Hurl' as <-.
    rewrite (Hftp parsed Hparsed) in Hscheme. destruct Hscheme; discriminate.
  - exact Hftp_invalid.
  - destruct (checkRpcUrl_cases "https://host") as [(H & _)|(_ & H)]; [exact H |].
    destruct (H _ Hhttps) as [Hhost|(_ & Hscheme)]; [discriminate Hhost |].
    contradiction Hscheme. reflexivity.
Qed.

(** C6: the value pass accepts only if every chain of [networks] has a
    non-empty string [rpcUrl] that parses as a URL with a host and the
    scheme http or https.  The URL check returns on exactly the strings that
    parse so, and throws the invalid-URL error on every other string, which
    is what the pass throws when the chain is the first to fail; a chain
    with such a URL, and numbers that pass, passes the whole check of the
    chain.  A URL whose scheme is neither http nor https makes the pass
    throw; with a URL parser that reads [ftp://host] and [https://host] as
    such, this holds of [ftp://host], and the URL check returns on
    [https://host]. *)
Theorem rpc_url_checked
    (Hftp : forall parsed, URL_parse E "ftp://host" = Some parsed -> protocol parsed = "ftp:")
    (Hhttps : URL_parse E "https://host" = Some (mkURL "https:" "host")) :
  (forall url,
     checkRpcUrl E url = Ok tt <->
     exists parsed,
       URL_parse E url = Some parsed
       /\ host parsed <> ""
       /\ (protocol parsed = "http:" \/ protocol parsed = "https:"))
  /\ (forall networks chainSlug url parsed,
        prop (prop networks chainSlug) "rpcUrl" = VStr url ->
        url <> "" ->
        URL_parse E url = Some parsed ->
        host parsed <> "" ->
        protocol parsed = "http:" \/ protocol parsed = "https:" ->
        checkPositive "waitConfirmations" chainSlug
          (prop (prop networks chainSlug) "waitConfirmations") = Ok tt ->
        checkPositive "maxGasPrice" chainSlug
          (prop (prop networks chainSlug) "maxGasPrice") = Ok tt ->
        checkNetwork E networks chainSlug = Ok tt)
  /\ (forall config chainSlug url,
        In chainSlug (own_keys (prop config "networks")) ->
        prop (prop (prop config "networks") chainSlug) "rpcUrl" = VStr url ->
        (forall parsed, URL_parse E url = Some parsed ->
                        protocol parsed <> "http:" /\ protocol parsed <> "https:") ->
        exists e, validateConfigValues E config = Throw e)
  /\ (forall config chainSlug,
        validateConfigValues E config = Ok tt ->
        In chainSlug (own_keys (prop config "networks")) ->
        exists url parsed,
          prop (prop (prop config "networks") chainSlug) "rpcUrl" = VStr url
          /\ url <> ""
          /\ URL_parse E url = Some parsed
          /\ host parsed <> ""
          /\ (protocol parsed = "http:" \/ protocol parsed = "https:"))
  /\ (forall url,
        checkRpcUrl E url = Ok tt
        \/ checkRpcUrl E url = Throw (Error ("rpc url " ++ quoted url ++ " is invalid")))
  /\ (forall config before chainSlug after url,
        instanceof_Object config = true ->
        own_keys (prop config "networks") = before ++ chainSlug :: after ->
        (forall slug, In slug before -> checkNetwork E (prop config "networks") slug = Ok tt) ->
        prop (prop (prop config "networks") chainSlug) "rpcUrl" = VStr url ->
        url <> "" ->
        checkRpcUrl E url <> Ok tt ->
        validateConfigValues E config
        = Throw (Error ("rpc url " ++ quoted url ++ " is invalid")))
  /\ (forall config chainSlug,
        In chainSlug (own_keys (prop config "networks")) ->
        prop (prop (prop config "networks") chainSlug) "rpcUrl" = VStr "ftp://host" ->
        exists e, validateConfigValues E config = Throw e)
  /\ checkRpcUrl E "ftp://host"
     = Throw (Error ("rpc url " ++ quoted "ftp://host" ++ " is invalid"))
  /\ checkRpcUrl E "https://host" = Ok tt.
Proof.
  assert (Hiff : forall url,
     checkRpcUrl E url = Ok tt <->
     exists parsed,
       URL_parse E url = Some parsed
       /\ host parsed <> ""
       /\ (protocol parsed = "http:" \/ protocol parsed = "https:")).
  { intros url. split.
    - intros H. destruct (checkRpcUrl_cases url) as [(_ & Hparsed)|(Hthrow & _)];
        [exact Hparsed |].
      rewrite Hthrow in H. discriminate.
    - intros (parsed & Hparsed & Hhost & Hscheme).
      destruct (checkRpcUrl_cases url) as [(H & _)|(_ & Hbad)]; [exact H |].
      destruct (Hbad parsed Hparsed) as [Hempty|(Hhttp & Hsecure)]; [contradiction |].
      destruct Hscheme; contradiction. }
  destruct (sample_urls_checked Hftp Hhttps)
    as (Hnecessary & Hcases & Hfirst & Hftp_pass & Hftp_check & Hhttps_check).
  split; [exact Hiff |]. split; [| split].
  - intros networks chainSlug url parsed Hurl Hne Hparsed Hhost Hscheme Hwait Hgas.
    unfold checkNetwork. cbv zeta. rewrite Hurl.
    assert (Hchain : truthy (prop networks chainSlug) = true).
    { destruct (truthy (prop networks chainSlug)) eqn:Hchain; [reflexivity |].
      rewrite (falsy_prop _ "rpcUrl" Hchain) in Hurl. discriminate. }
    rewrite Hchain. cbn [negb throw_if bind].
    rewrite (proj2 (string_truthy url) Hne). cbn [negb throw_if bind].
    rewrite (proj2 (Hiff url)) by (exists parsed; auto). cbn [bind].
    rewrite Hwait. cbn [bind]. exact Hgas.
  - intros config chainSlug url Hslug Hurl Hscheme. apply not_Ok_Throw. intros Hok.
    destruct (Hnecessary config chainSlug Hok Hslug)
      as (url' & parsed & Hurl' & _ & Hparsed & _ & Hgood).
    rewrite Hurl in Hurl'. injection Hurl' as <-.
    destruct (Hscheme parsed Hparsed) as (Hhttp & Hsecure).
    destruct Hgood; contradiction.
  - repeat (split; [assumption |]). assumption.
Qed.

End Values.

Lemma rpc_url_checked_witness :
  checkRpcUrl Example.env "ftp://host"
  = Throw (Error ("rpc url " ++ quoted "ftp://host" ++ " is invalid"))
  /\ checkRpcUrl Example.env "https://host" = Ok tt
  /\ checkRpcUrl Example.env "http://localhost:8545" = Ok tt.
Proof.
  assert (Hftp : forall parsed,
            URL_parse Example.env "ftp://host" = Some parsed -> protocol parsed = "ftp:").
  { intros parsed H. vm_compute in H. injection H as <-. reflexivity. }
  pose proof (rpc_url_checked Example.env Hftp eq_refl)
    as (Hiff & _ & _ & _ & _ & _ & _ & Hftp_check & Hhttps_check).
  split; [exact Hftp_check |]. split; [exact Hhttps_check |].
  apply Hiff. exists (mkURL "http:" "localhost:8545").
  split; [reflexivity |]. split; [discriminate | left; reflexivity].
Defined.

Example ftp_url_rejected :
  validateConfigValues Example.env
    (Example.resolved "ftp://host" (Example.vault_of Example.vault_parameters))
  = Throw (Error ("rpc url " ++ quoted "ftp://host" ++ " is invalid")).
Proof. vm_compute. reflexivity. Qed.

Example https_url_accepted :
  validateConfigValues Example.env
    (Example.resolved "https://host" (Example.vault_of Example.vault_parameters))
  = Ok tt.
Proof. vm_compute. reflexivity. Qed.

(** ** The vault *)


Lemma is_number (v : value) : is_type t_number v = true <-> exists n, v = VNum n.
Proof.
  destruct v; simpl; split; try discriminate; eauto; intros (n' & H); discriminate.
Qed.






(** The scenario of the specification, run through the whole value pass. *)
Example deposit_amount_missing :
  validateConfigValues Example.env
    (Example.resolved "https://host"
       (Example.vault_of Example.vault_parameters_without_amount))
  = Throw (Error "depositAmount should be a number").
Proof. vm_compute. reflexivity. Qed.

(** * Further properties of the two passes *)

(** ** The pass on two configurations that its blocks cannot tell apart *)

Section Congruence.

Variable E : externals.
Variables (before after : value).

(** The structural pass has the same outcome on two configurations with the
    same keys on which every block has the same outcome. *)
Lemma pass_congruence :
  truthy after = truthy before ->
  instanceof_Object after = instanceof_Object before ->
  own_keys after = own_keys before ->
  checkChains E after = checkChains E before ->
  checkTokens after = checkTokens before ->
  checkWatchers E after = checkWatchers E before ->
  checkCredentials after = checkCredentials before ->
  checkPlainSections E after = checkPlainSections E before ->
  (forall eC, checkRoutes after eC = checkRoutes before eC) ->
  (forall eC eT, checkFees after eC eT = checkFees before eC eT) ->
  (forall eC eT, checkCommitTransfers E after eC eT = checkCommitTransfers E before eC eT) ->
  (forall eC eT, checkBonders after eC eT = checkBonders before eC eT) ->
  checkVault E after = checkVault E before ->
  checkBlocklist after = checkBlocklist before ->
  validateConfigFileStructure E after = validateConfigFileStructure E before.
Proof.
  intros Htruthy Hobject Hkeys Hchains Htokens Hwatchers Hcredentials Hplain Hroutes Hfees
         Hcommit Hbonders Hvault Hblocklist.
  unfold validateConfigFileStructure.
  rewrite Htruthy, Hobject, Hchains, Htokens, Hwatchers, Hcredentials, Hplain, Hvault,
    Hblocklist.
  destruct (throw_if (negb (truthy before)) _) as [[]|e] eqn:Hguard; [| reflexivity].
  apply throw_if_Ok, negb_false_iff in Hguard. cbn [bind].
  destruct (throw_if (negb (instanceof_Object before)) _) as [[]|e]; [| reflexivity].
  cbn [bind]. unfold Object_keys.
  rewrite (truthy_not_nullish _ Hguard).
  rewrite (truthy_not_nullish after) by congruence. cbn [bind]. rewrite Hkeys.
  destruct (validateKeys validSectionKeys (own_keys before)) as [[]|e]; [| reflexivity].
  cbn [bind].
  destruct (checkChains E before) as [eC|e]; [| reflexivity]. cbn [bind].
  destruct (checkTokens before) as [eT|e]; [| reflexivity]. cbn [bind].
  rewrite Hroutes, Hfees, Hcommit, Hbonders. reflexivity.
Qed.

Variable k : string.
Hypothesis Hsame : same_except k before after.

Lemma checkChains_unchanged : "chains" <> k -> checkChains E after = checkChains E before.
Proof.
  intros Hk. unfold checkChains. rewrite !(prop_unchanged k before after Hsame "chains" Hk).
  reflexivity.
Qed.

Lemma checkTokens_unchanged : "tokens" <> k -> checkTokens after = checkTokens before.
Proof.
  intros Hk. unfold checkTokens. rewrite !(prop_unchanged k before after Hsame "tokens" Hk).
  reflexivity.
Qed.

Lemma checkWatchers_unchanged :
  "watchers" <> k -> checkWatchers E after = checkWatchers E before.
Proof.
  intros Hk. unfold checkWatchers.
  rewrite !(prop_unchanged k before after Hsame "watchers" Hk). reflexivity.
Qed.

Lemma checkCredentials_unchanged :
  "keystore" <> k -> "signer" <> k -> checkCredentials after = checkCredentials before.
Proof.
  intros Hkeystore Hsigner. unfold checkCredentials.
  rewrite (get_opt_unchanged k before after Hsame "keystore" Hkeystore).
  rewrite (get_opt_unchanged k before after Hsame "signer" Hsigner). reflexivity.
Qed.

Lemma checkPlainSections_unchanged :
  "db" <> k -> "logging" <> k -> "keystore" <> k -> "signer" <> k -> "metrics" <> k ->
  "addresses" <> k ->
  checkPlainSections E after = checkPlainSections E before.
Proof.
  intros Hdb Hlogging Hkeystore Hsigner Hmetrics Haddresses.
  unfold checkPlainSections, checkLogging.
  rewrite !(checkSection_unchanged k before after Hsame) by assumption.
  rewrite !(prop_unchanged k before after Hsame "logging" Hlogging).
  rewrite (get_opt_unchanged k before after Hsame "logging" Hlogging). reflexivity.
Qed.

Lemma checkRoutes_unchanged (eC : list string) :
  "routes" <> k -> checkRoutes after eC = checkRoutes before eC.
Proof.
  intros Hk. unfold checkRoutes. rewrite !(prop_unchanged k before after Hsame "routes" Hk).
  reflexivity.
Qed.

Lemma checkCommitTransfers_unchanged (eC eT : list string) :
  "commitTransfers" <> k -> "routes" <> k ->
  checkCommitTransfers E after eC eT = checkCommitTransfers E before eC eT.
Proof.
  intros Hcommit Hroutes. unfold checkCommitTransfers.
  rewrite !(prop_unchanged k before after Hsame "commitTransfers" Hcommit).
  rewrite !(prop_unchanged k before after Hsame "routes" Hroutes). reflexivity.
Qed.

Lemma checkBonders_unchanged (eC eT : list string) :
  "bonders" <> k -> checkBonders after eC eT = checkBonders before eC eT.
Proof.
  intros Hk. unfold checkBonders. rewrite !(prop_unchanged k before after Hsame "bonders" Hk).
  reflexivity.
Qed.

Lemma checkVault_unchanged : "vault" <> k -> checkVault E after = checkVault E before.
Proof.
  intros Hk. unfold checkVault. rewrite !(prop_unchanged k before after Hsame "vault" Hk).
  reflexivity.
Qed.

Lemma checkBlocklist_unchanged :
  "blocklist" <> k -> checkBlocklist after = checkBlocklist before.
Proof.
  intros Hk. unfold checkBlocklist.
  rewrite !(prop_unchanged k before after Hsame "blocklist" Hk). reflexivity.
Qed.

End Congruence.

(** ** What the structural pass does not read *)

Section NotRead.

Variable E : externals.

(** X1: the structural pass never reads what is under the sections
    [network], [sync], [bondWithdrawals] and [settleBondedWithdrawals]: two
    configurations that differ only in the value of one of them have the
    same outcome, the same error included. *)
Theorem uninspected_sections_ignored (k : string) (before after : value) :
  In k ["network"; "sync"; "bondWithdrawals"; "settleBondedWithdrawals"] ->
  same_except k before after ->
  validateConfigFileStructure E after = validateConfigFileStructure E before.
Proof.
  intros Hk Hsame.
  assert (Hother : forall name,
            In name (sections_before_fees
                     ++ ["fees"; "commitTransfers"; "bonders"; "vault"; "blocklist"]) ->
            name <> k).
  { intros name Hname ->. simpl in Hk, Hname.
    repeat (destruct Hk as [Hk|Hk];
            [subst k; repeat (destruct Hname as [Hname|Hname]; [discriminate Hname |]);
             exact Hname |]).
    exact Hk. }
  pose proof Hsame as (Hkeys & Htruthy & Hobject & _).
  apply pass_congruence; try assumption; intros;
    first [ apply (checkChains_unchanged E before after k Hsame)
          | apply (checkTokens_unchanged before after k Hsame)
          | apply (checkWatchers_unchanged E before after k Hsame)
          | apply (checkCredentials_unchanged before after k Hsame)
          | apply (checkPlainSections_unchanged E before after k Hsame)
          | apply (checkRoutes_unchanged before after k Hsame)
          | apply (checkFees_unchanged k before after Hsame)
          | apply (checkCommitTransfers_unchanged E before after k Hsame)
          | apply (checkBonders_unchanged before after k Hsame)
          | apply (checkVault_unchanged E before after k Hsame)
          | apply (checkBlocklist_unchanged before after k Hsame) ];
    apply Hother; simpl; tauto.
Qed.

(** X2: a token of the [tokens] section is read for the truthiness of its
    toggle only: replacing the toggle by a value that is truthy when it is,
    and falsy when it is, leaves the outcome of the structural pass as it
    was. *)
Theorem token_toggle_read_for_truthiness (config : value) (t : string) (v : value) :
  is_object config = true ->
  is_object (prop config "tokens") = true ->
  has_key (prop config "tokens") t = true ->
  truthy v = truthy (prop (prop config "tokens") t) ->
  validateConfigFileStructure E (setIn ["tokens"; t] v config)
  = validateConfigFileStructure E config.
Proof.
  intros Hconfig Htokens Ht Hv. unfold setIn. set (f := fun _ : value => v).
  pose proof (updateIn_same_except "tokens" [t] f config) as Hsame.
  assert (Hafter : prop (updateIn ["tokens"; t] f config) "tokens"
                   = updateIn [t] f (prop config "tokens"))
    by (apply updateIn_prop; [exact Hconfig | apply is_object_has_key, Htokens]).
  pose proof (updateIn_same_except t [] f (prop config "tokens"))
    as (Hkeys_t & _ & _ & Hnull_t & Hothers).
  pose proof Hsame as (Hkeys & Htruthy & Hobject & _).
  apply pass_congruence; try assumption; intros;
    try first [ apply (checkChains_unchanged E _ _ "tokens" Hsame)
              | apply (checkWatchers_unchanged E _ _ "tokens" Hsame)
              | apply (checkCredentials_unchanged _ _ "tokens" Hsame)
              | apply (checkPlainSections_unchanged E _ _ "tokens" Hsame)
              | apply (checkRoutes_unchanged _ _ "tokens" Hsame)
              | apply (checkFees_unchanged "tokens" _ _ Hsame)
              | apply (checkCommitTransfers_unchanged E _ _ "tokens" Hsame)
              | apply (checkBonders_unchanged _ _ "tokens" Hsame)
              | apply (checkVault_unchanged E _ _ "tokens" Hsame)
              | apply (checkBlocklist_unchanged _ _ "tokens" Hsame) ];
    try discriminate.
  unfold checkTokens, Object_keys. rewrite Hafter, Hnull_t, Hkeys_t.
  destruct (nullish (prop config "tokens")); [reflexivity |]. cbn [bind].
  replace (filter (fun token => truthy (prop (updateIn [t] f (prop config "tokens")) token))
             (own_keys (prop config "tokens")))
    with (filter (fun token => truthy (prop (prop config "tokens") token))
            (own_keys (prop config "tokens"))); [reflexivity |].
  apply filter_ext. intros x. destruct (string_dec x t) as [->|Hne].
  - rewrite (updateIn_prop t [] f) by assumption. simpl. subst f. cbv beta.
    symmetry. exact Hv.
  - rewrite (Hothers x Hne). reflexivity.
Qed.

End NotRead.

Lemma uninspected_sections_ignored_witness :
  validateConfigFileStructure Example.env
    (setIn ["sync"] (VObj [ ("anything", VNull) ])
       (Example.config_with [ ("sync", VBool true) ]))
  = validateConfigFileStructure Example.env (Example.config_with [ ("sync", VBool true) ]).
Proof.
  apply (uninspected_sections_ignored Example.env "sync").
  - simpl. auto.
  - apply updateIn_same_except.
Defined.

Lemma token_toggle_read_for_truthiness_witness :
  validateConfigFileStructure Example.env (setIn ["tokens"; "USDC"] (VNum 1%float)
                                             Example.scenario)
  = validateConfigFileStructure Example.env Example.scenario.
Proof.
  apply (token_toggle_read_for_truthiness Example.env Example.scenario "USDC" (VNum 1%float));
    reflexivity.
Defined.

(** ** Routes are read for their keys *)

Section RouteKeys.

Variable E : externals.
Variables (routes routes' : value).
Hypothesis Hkeys : own_keys routes' = own_keys routes.
Hypothesis Hnull : nullish routes' = nullish routes.
Hypothesis Htruthy : truthy routes' = truthy routes.
Hypothesis Hinner_keys : forall s, own_keys (prop routes' s) = own_keys (prop routes s).
Hypothesis Hinner_null : forall s, nullish (prop routes' s) = nullish (prop routes s).

Lemma Object_keys_same_shape (s : string) :
  Object_keys (prop routes' s) = Object_keys (prop routes s).
Proof. unfold Object_keys. rewrite Hinner_keys, Hinner_null. reflexivity. Qed.

Lemma collectDestinationChains_same_shape (sourceChains set : list string) :
  collectDestinationChains routes' sourceChains set
  = collectDestinationChains routes sourceChains set.
Proof.
  revert set. induction sourceChains as [|s rest IH]; intros set; simpl; [reflexivity |].
  rewrite Object_keys_same_shape. destruct (Object_keys (prop routes s)); simpl; auto.
Qed.

Lemma checkThresholds_same_shape (minThresholdAmount : value) (eC eT : list string) :
  checkThresholds E minThresholdAmount routes' eC eT
  = checkThresholds E minThresholdAmount routes eC eT.
Proof.
  unfold checkThresholds. apply for_of_ext. intros t _. rewrite Hkeys.
  destruct (throw_if _ _); [| reflexivity]. cbn [bind].
  destruct (Object_keys _); [| reflexivity]. cbn [bind].
  destruct (validateKeys _ _); [| reflexivity]. cbn [bind].
  apply for_of_ext. intros s _. rewrite Hinner_keys. reflexivity.
Qed.

Variables (before after : value).
Hypothesis Hsame : same_except "routes" before after.
Hypothesis Hbefore : prop before "routes" = routes.
Hypothesis Hafter : prop after "routes" = routes'.

Lemma checkRoutes_same_shape (eC : list string) :
  checkRoutes after eC = checkRoutes before eC.
Proof.
  unfold checkRoutes. rewrite Hbefore, Hafter, Htruthy.
  unfold Object_keys at 1 3. rewrite Hnull, Hkeys.
  destruct (truthy routes); [| reflexivity]. cbn [when].
  destruct (nullish routes); [reflexivity |]. cbn [bind].
  destruct (validateKeys eC (own_keys routes)); [| reflexivity]. cbn [bind].
  apply for_of_ext. intros s _. rewrite Object_keys_same_shape. reflexivity.
Qed.

Lemma checkFees_same_shape (eC eT : list string) :
  checkFees after eC eT = checkFees before eC eT.
Proof.
  unfold checkFees.
  rewrite !(prop_unchanged "routes" before after Hsame "fees") by discriminate.
  rewrite (get_opt_unchanged "routes" before after Hsame "fees") by discriminate.
  rewrite Hbefore, Hafter, Hkeys.
  destruct (truthy (prop before "fees")); [| reflexivity]. cbn [when].
  destruct (Object_keys (prop before "fees")) as [tokens|e]; [| reflexivity]. cbn [bind].
  destruct (validateKeys eT tokens); [| reflexivity]. cbn [bind].
  rewrite collectDestinationChains_same_shape. reflexivity.
Qed.

Lemma checkCommitTransfers_same_shape (eC eT : list string) :
  checkCommitTransfers E after eC eT = checkCommitTransfers E before eC eT.
Proof.
  unfold checkCommitTransfers.
  rewrite !(prop_unchanged "routes" before after Hsame "commitTransfers") by discriminate.
  rewrite Hbefore, Hafter.
  destruct (truthy (prop before "commitTransfers")); [| reflexivity]. cbn [when].
  cbv zeta.
  destruct (Object_keys (prop before "commitTransfers")); [| reflexivity]. cbn [bind].
  destruct (validateKeys _ _); [| reflexivity]. cbn [bind].
  destruct (Object_keys _); [| reflexivity]. cbn [bind].
  destruct (negb _); [| reflexivity]. cbn [when].
  destruct (validateKeys _ _); [| reflexivity]. cbn [bind].
  apply checkThresholds_same_shape.
Qed.

End RouteKeys.

(** X3: the value under a route ([routes[source][destination]]) is never
    read by the structural pass, which only enumerates the keys of [routes]:
    replacing that value by any other leaves the outcome of the pass as it
    was. *)
Theorem route_values_ignored (E : externals) (config : value) (s d : string) (v : value) :
  is_object config = true ->
  is_object (prop config "routes") = true ->
  is_object (prop (prop config "routes") s) = true ->
  has_key (prop (prop config "routes") s) d = true ->
  validateConfigFileStructure E (setIn ["routes"; s; d] v config)
  = validateConfigFileStructure E config.
Proof.
  intros Hconfig Hroutes Hsource Hd. unfold setIn. set (f := fun _ : value => v).
  pose proof (updateIn_same_except "routes" [s; d] f config) as Hsame.
  assert (Hafter : prop (updateIn ["routes"; s; d] f config) "routes"
                   = updateIn [s; d] f (prop config "routes"))
    by (apply updateIn_prop; [exact Hconfig | apply is_object_has_key, Hroutes]).
  pose proof (updateIn_same_except s [d] f (prop config "routes"))
    as (Hkeys_r & Htruthy_r & _ & Hnull_r & Hothers).
  assert (Hsource' : prop (updateIn [s; d] f (prop config "routes")) s
                     = updateIn [d] f (prop (prop config "routes") s))
    by (apply updateIn_prop; [exact Hroutes | apply is_object_has_key, Hsource]).
  pose proof (updateIn_same_except d [] f (prop (prop config "routes") s))
    as (Hkeys_s & _ & _ & Hnull_s & _).
  assert (Hinner_keys : forall x,
            own_keys (prop (updateIn [s; d] f (prop config "routes")) x)
            = own_keys (prop (prop config "routes") x)).
  { intros x. destruct (string_dec x s) as [->|Hne].
    - rewrite Hsource'. exact Hkeys_s.
    - rewrite (Hothers x Hne). reflexivity. }
  assert (Hinner_null : forall x,
            nullish (prop (updateIn [s; d] f (prop config "routes")) x)
            = nullish (prop (prop config "routes") x)).
  { intros x. destruct (string_dec x s) as [->|Hne].
    - rewrite Hsource'. exact Hnull_s.
    - rewrite (Hothers x Hne). reflexivity. }
  pose proof Hsame as (Hkeys & Htruthy & Hobject & _).
  apply pass_congruence; try assumption; intros;
    try first [ apply (checkChains_unchanged E _ _ "routes" Hsame)
              | apply (checkTokens_unchanged _ _ "routes" Hsame)
              | apply (checkWatchers_unchanged E _ _ "routes" Hsame)
              | apply (checkCredentials_unchanged _ _ "routes" Hsame)
              | apply (checkPlainSections_unchanged E _ _ "routes" Hsame)
              | apply (checkBonders_unchanged _ _ "routes" Hsame)
              | apply (checkVault_unchanged E _ _ "routes" Hsame)
              | apply (checkBlocklist_unchanged _ _ "routes" Hsame) ];
    try discriminate.
  - apply (checkRoutes_same_shape (prop config "routes")
             (updateIn [s; d] f (prop config "routes"))); auto.
  - apply (checkFees_same_shape (prop config "routes")
             (updateIn [s; d] f (prop config "routes"))); auto.
  - apply (checkCommitTransfers_same_shape E (prop config "routes")
             (updateIn [s; d] f (prop config "routes"))); auto.
Qed.

Lemma route_values_ignored_witness :
  validateConfigFileStructure Example.env
    (setIn ["routes"; "ethereum"; "optimism"] VNull Example.scenario)
  = validateConfigFileStructure Example.env Example.scenario.
Proof.
  apply (route_values_ignored Example.env Example.scenario "ethereum" "optimism" VNull);
    reflexivity.
Defined.

(** ** Errors of the first checks *)

Section FirstChecks.

Variable E : externals.

(** X4: a value that is not an object or an array is rejected by both
    passes before anything else is looked at, with [config is required] when
    it is falsy and [config must be a JSON object] otherwise. *)
Theorem not_an_object_rejected (config : value) :
  instanceof_Object config = false ->
  validateConfigFileStructure E config
  = Throw (Error (if truthy config then "config must be a JSON object"
                  else "config is required"))
  /\ validateConfigValues E config
     = Throw (Error (if truthy config then "config must be a JSON object"
                     else "config is required")).
Proof.
  intros Hobject. unfold validateConfigFileStructure, validateConfigValues.
  rewrite Hobject. destruct (truthy config); split; reflexivity.
Qed.

(** X5: on an object, the first key that is not the name of a section
    decides the outcome of the structural pass: the error is the
    unrecognized-key error of that key, whatever the sections hold. *)
Theorem unrecognized_section_reported (config : value) (pre post : list string)
    (key : string) :
  instanceof_Object config = true ->
  own_keys config = pre ++ key :: post ->
  (forall k, In k pre -> In k validSectionKeys) ->
  ~ In key validSectionKeys ->
  validateConfigFileStructure E config
  = Throw (Error ("unrecognized key " ++ quoted key ++ ". Valid keys are: "
                  ++ join "," validSectionKeys)).
Proof.
  intros Hobject Hkeys Hpre Hkey.
  assert (Htruthy : truthy config = true) by (destruct config; simpl in *; congruence).
  unfold validateConfigFileStructure. rewrite Htruthy, Hobject. cbn [negb throw_if bind].
  unfold Object_keys. rewrite (truthy_not_nullish _ Htruthy). cbn [bind].
  rewrite Hkeys. unfold validateKeys.
  rewrite (for_of_first_throw pre post key _ (unrecognized_key key validSectionKeys));
    [reflexivity | |].
  - intros k Hk. apply throw_if_Ok, negb_false_iff, includes_In, Hpre, Hk.
  - apply includes_false in Hkey. rewrite Hkey. reflexivity.
Qed.

(** X6: when the [chains], [tokens] and [watchers] sections pass their
    checks, a configuration with both a [keystore] and a [signer] is
    rejected with the error that says so, before the keys of either section
    are looked at. *)
Theorem keystore_and_signer_reported (config : value) (eC eT : list string) :
  instanceof_Object config = true ->
  validateKeys validSectionKeys (own_keys config) = Ok tt ->
  checkChains E config = Ok eC ->
  checkTokens config = Ok eT ->
  checkWatchers E config = Ok tt ->
  truthy (prop config "keystore") = true ->
  truthy (prop config "signer") = true ->
  validateConfigFileStructure E config
  = Throw (Error "You cannot have both a keystore and a signer").
Proof.
  intros Hobject Hsections Hchains Htokens Hwatchers Hkeystore Hsigner.
  assert (Htruthy : truthy config = true) by (destruct config; simpl in *; congruence).
  unfold validateConfigFileStructure. rewrite Htruthy, Hobject. cbn [negb throw_if bind].
  unfold Object_keys. rewrite (truthy_not_nullish _ Htruthy). cbn [bind].
  rewrite Hsections, Hchains, Htokens, Hwatchers. cbn [bind].
  unfold checkCredentials.
  rewrite !get_opt_not_nullish by (apply truthy_not_nullish, Htruthy).
  rewrite Hkeystore, Hsigner. reflexivity.
Qed.

End FirstChecks.

Lemma not_an_object_rejected_witness :
  validateConfigFileStructure Example.env (VStr "{}")
  = Throw (Error "config must be a JSON object")
  /\ validateConfigValues Example.env (VStr "{}")
     = Throw (Error "config must be a JSON object").
Proof. apply (not_an_object_rejected Example.env (VStr "{}")). reflexivity. Defined.

Lemma unrecognized_section_reported_witness :
  validateConfigFileStructure Example.env
    (VObj [ ("chains", VNull); ("stateUpdateAddress", VStr "0x"); ("tokens", VNull) ])
  = Throw (Error ("unrecognized key " ++ quoted "stateUpdateAddress"
                  ++ ". Valid keys are: " ++ join "," validSectionKeys)).
Proof.
  apply (unrecognized_section_reported Example.env _ ["chains"] ["tokens"]).
  - reflexivity.
  - reflexivity.
  - intros k [<-|[]]. unfold validSectionKeys. simpl. auto.
  - unfold validSectionKeys. simpl.
    intros H. repeat (destruct H as [H|H]; [discriminate H |]). exact H.
Defined.

Lemma keystore_and_signer_reported_witness :
  validateConfigFileStructure Example.env
    (Example.config_with [ ("keystore", VObj [ ("unknown", VNull) ]);
                           ("signer", VObj [ ("type", VStr "kms") ]) ])
  = Throw (Error "You cannot have both a keystore and a signer").
Proof.
  apply (keystore_and_signer_reported Example.env _ ["ethereum"; "optimism"] ["USDC"]);
    reflexivity.
Defined.

(** ** Sections of the structural pass *)

Section Sections.

Variable E : externals.

Lemma validateKey_of_value_Ok (validKeys : list string) (key : value) :
  validateKey_of_value E validKeys key = Ok tt ->
  exists s, key = VStr s /\ In s validKeys.
Proof.
  destruct key as [| | b | n | s | xs | ps]; simpl; try discriminate.
  intros H. exists s. split; [reflexivity |].
  apply (proj1 (validateKeys_Ok validKeys [s]) H). simpl. auto.
Qed.

(** X7: in an accepted configuration a truthy [logging.level] is one of
    the strings [debug], [info], [warn] and [error]; a level of any other
    type, or any other string, makes the structural pass throw. *)
Theorem logging_level_checked (config : value) :
  truthy (prop config "logging") = true ->
  truthy (prop (prop config "logging") "level") = true ->
  (validateConfigFileStructure E config = Ok tt ->
   exists level,
     prop (prop config "logging") "level" = VStr level
     /\ In level ["debug"; "info"; "warn"; "error"])
  /\ ((forall level, prop (prop config "logging") "level" = VStr level ->
                     ~ In level ["debug"; "info"; "warn"; "error"]) ->
      exists e, validateConfigFileStructure E config = Throw e).
Proof.
  intros Hlogging Hlevel.
  assert (Hok : validateConfigFileStructure E config = Ok tt ->
                exists level,
                  prop (prop config "logging") "level" = VStr level
                  /\ In level ["debug"; "info"; "warn"; "error"]).
  { intros H. apply validateConfigFileStructure_blocks in H
      as (Htruthy & _ & _ & _ & _ & _ & _ & Hplain & _).
    unfold checkPlainSections in Hplain.
    apply bind_unit_Ok in Hplain as (_ & Hplain).
    apply bind_unit_Ok in Hplain as (H & _).
    unfold checkLogging in H. rewrite Hlogging in H. cbn [when] in H. cbv zeta in H.
    apply bind_Ok in H as (keys & _ & H).
    apply bind_unit_Ok in H as (_ & H).
    rewrite (get_opt_not_nullish config) in H by (apply truthy_not_nullish, Htruthy).
    rewrite get_opt_not_nullish in H by (apply truthy_not_nullish, Hlogging).
    rewrite Hlevel in H. cbn [when] in H.
    apply validateKey_of_value_Ok in H. exact H. }
  split; [exact Hok |].
  intros Hbad. apply not_Ok_Throw. intros H.
  destruct (Hok H) as (level & Hl & Hin). exact (Hbad level Hl Hin).
Qed.

(** X8: enabling a token that is not in the list of tokens, declaring a
    chain that is not in the list of chains, giving a chain a key other than
    [rpcUrl] and [maxGasPrice], or giving a chain [null] for a
    configuration, each makes the structural pass throw. *)
Theorem unknown_token_or_chain_rejected (config : value) :
  (exists t, In t (own_keys (prop config "tokens"))
             /\ truthy (prop (prop config "tokens") t) = true
             /\ ~ In t validTokenKeys)
  \/ (exists c, In c (own_keys (prop config "chains")) /\ ~ In c (validChainKeys E))
  \/ (exists c key, In c (own_keys (prop config "chains"))
                    /\ In key (own_keys (prop (prop config "chains") c))
                    /\ key <> "rpcUrl" /\ key <> "maxGasPrice")
  \/ (exists c, In c (own_keys (prop config "chains"))
                /\ nullish (prop (prop config "chains") c) = true) ->
  exists e, validateConfigFileStructure E config = Throw e.
Proof.
  intros Hbad. apply not_Ok_Throw. intros H.
  apply validateConfigFileStructure_blocks in H as (_ & _ & _ & Hchains & Htokens & _).
  apply checkTokens_Ok in Htokens as (_ & _ & HeT).
  unfold checkChains in Hchains.
  apply bind_Ok in Hchains as (keys & Hkeys & Hchains).
  apply Object_keys_Ok in Hkeys as (_ & ->).
  apply bind_unit_Ok in Hchains as (_ & Hchains).
  apply bind_unit_Ok in Hchains as (HeC & Hchains).
  apply bind_unit_Ok in Hchains as (Hloop & _).
  rewrite for_of_Ok in Hloop.
  destruct Hbad as [(t & Ht & Htoggle & Hnot)|[(c & Hc & Hnot)|[(c & key & Hc & Hkey & H1 & H2)
                   |(c & Hc & Hnull)]]].
  - apply Hnot. apply (proj1 (subset_In _ _) HeT). unfold enabledTokensOf.
    apply filter_In. auto.
  - apply Hnot. apply (proj1 (validateKeys_Ok _ _) HeC), Hc.
  - specialize (Hloop c Hc). cbv zeta in Hloop.
    apply keys_checked in Hloop as (_ & Hsub).
    pose proof (proj1 (subset_In _ _) Hsub key Hkey) as Hin. simpl in Hin.
    destruct Hin as [Hin|[Hin|[]]]; congruence.
  - specialize (Hloop c Hc). cbv zeta in Hloop.
    apply keys_checked in Hloop as (Hn & _). congruence.
Qed.

(** X9: in an accepted configuration both ends of every route are keys of
    [chains], hence chains of the list of chains: the check of the routes
    against the enabled chains composes with the check of the enabled
    chains against the list. *)
Theorem route_ends_are_enabled_chains (config : value) (s d : string) :
  validateConfigFileStructure E config = Ok tt ->
  In s (own_keys (prop config "routes")) ->
  In d (own_keys (prop (prop config "routes") s)) ->
  (In s (enabledChainsOf config) /\ In s (validChainKeys E))
  /\ (In d (enabledChainsOf config) /\ In d (validChainKeys E)).
Proof.
  intros H Hs Hd.
  apply validateConfigFileStructure_blocks in H
    as (_ & _ & _ & Hchains & _ & _ & _ & _ & Hroutes & _).
  apply checkChains_Ok in Hchains as (_ & _ & _ & HeC & _).
  apply checkRoutes_Ok in Hroutes as (Hsources & Hdestinations & _).
  pose proof (proj1 (subset_In _ _) HeC) as Hvalid.
  assert (Hs' : In s (enabledChainsOf config)).
  { unfold section_keys_allowed in Hsources.
    destruct (truthy (prop config "routes")) eqn:Htruthy.
    - apply (proj1 (subset_In _ _) Hsources), Hs.
    - rewrite (falsy_own_keys _ Htruthy) in Hs. destruct Hs. }
  assert (Hd' : In d (enabledChainsOf config)).
  { apply (proj1 (subset_In _ _) (proj1 (nested_In _ _ _) Hdestinations s Hs)), Hd. }
  auto.
Qed.

End Sections.

Lemma logging_level_checked_witness :
  exists e,
    validateConfigFileStructure Example.env
      (Example.config_with [ ("logging", VObj [ ("level", VStr "verbose") ]) ]) = Throw e.
Proof.
  apply (logging_level_checked Example.env
           (Example.config_with [ ("logging", VObj [ ("level", VStr "verbose") ]) ])
           ltac:(reflexivity) ltac:(reflexivity)).
  intros level H. injection H as <-. simpl.
  intros Hin. repeat (destruct Hin as [Hin|Hin]; [discriminate Hin |]). exact Hin.
Defined.

Lemma unknown_token_or_chain_rejected_witness :
  exists e,
    validateConfigFileStructure Example.env
      (VObj [ ("chains", VObj [ ("ethereum", VObj []) ]);
              ("tokens", VObj [ ("DOGE", VBool true) ]);
              ("watchers", VObj []) ]) = Throw e.
Proof.
  apply (unknown_token_or_chain_rejected Example.env).
  left. exists "DOGE". split; [simpl; auto |]. split; [reflexivity |].
  unfold validTokenKeys. simpl.
  intros Hin. repeat (destruct Hin as [Hin|Hin]; [discriminate Hin |]). exact Hin.
Defined.

Lemma route_ends_are_enabled_chains_witness :
  (In "ethereum" (enabledChainsOf Example.scenario)
   /\ In "ethereum" (validChainKeys Example.env))
  /\ (In "optimism" (enabledChainsOf Example.scenario)
      /\ In "optimism" (validChainKeys Example.env)).
Proof.
  apply (route_ends_are_enabled_chains Example.env Example.scenario "ethereum" "optimism").
  - vm_compute. reflexivity.
  - simpl. auto.
  - simpl. auto.
Defined.

(** ** Matrices of the structural pass *)

Section MatrixKeys.

Variable E : externals.

(** X10: in an accepted configuration with a [fees] section, the tokens of
    [fees] are exactly the enabled tokens: every key of [fees] is an enabled
    token (line 185) and every enabled token is a key of [fees] (lines
    202-207). *)
Theorem fee_tokens_are_the_enabled_tokens (config : value) (t : string) :
  validateConfigFileStructure E config = Ok tt ->
  truthy (prop config "fees") = true ->
  In t (own_keys (prop config "fees")) <-> In t (enabledTokensOf config).
Proof.
  intros H Hfees.
  apply validateConfigFileStructure_blocks in H
    as (_ & _ & _ & _ & _ & _ & _ & _ & _ & Hblock & _).
  destruct (checkFees_Ok _ _ _ Hblock Hfees) as (Hsub & _ & _ & _ & _ & Htokens).
  cbv zeta in Hsub. split.
  - apply (proj1 (subset_In _ _) Hsub).
  - intros Ht. apply has_key_In, truthy_has_key, Htokens, Ht.
Qed.

(** X11: a truthy [commitTransfers] section needs a [minThresholdAmount]
    (without one the pass throws); when the pass accepts and
    [minThresholdAmount] has keys, these keys are exactly the enabled
    tokens, and the chains under each of them are keys of [chains]. *)
Theorem threshold_tokens_are_the_enabled_tokens (config : value) :
  truthy (prop config "commitTransfers") = true ->
  (nullish (prop (prop config "commitTransfers") "minThresholdAmount") = true ->
   exists e, validateConfigFileStructure E config = Throw e)
  /\ (validateConfigFileStructure E config = Ok tt ->
      own_keys (prop (prop config "commitTransfers") "minThresholdAmount") <> [] ->
      forall t,
        (In t (own_keys (prop (prop config "commitTransfers") "minThresholdAmount"))
         <-> In t (enabledTokensOf config))
        /\ forall c,
             In c (own_keys (prop (prop (prop config "commitTransfers")
                                     "minThresholdAmount") t)) ->
             In c (enabledChainsOf config)).
Proof.
  intros Hcommit.
  assert (Hblock : validateConfigFileStructure E config = Ok tt ->
            checkCommitTransfers E config (enabledChainsOf config) (enabledTokensOf config)
            = Ok tt).
  { intros H. apply validateConfigFileStructure_blocks in H
      as (_ & _ & _ & _ & _ & _ & _ & _ & _ & _ & H & _). exact H. }
  split.
  - intros Hnull. apply not_Ok_Throw. intros H.
    destruct (checkCommitTransfers_Ok E _ _ _ (Hblock H) Hcommit) as (_ & Hmin & _).
    congruence.
  - intros H Hkeys t.
    destruct (checkCommitTransfers_Ok E _ _ _ (Hblock H) Hcommit) as (_ & _ & Hloop).
    destruct (Hloop Hkeys) as (Hsub & Hthresholds).
    rewrite checkThresholds_Ok in Hthresholds. split; [split |].
    + apply (proj1 (subset_In _ _) Hsub).
    + intros Ht. apply has_key_In, truthy_has_key. apply (Hthresholds t Ht).
    + intros c Hc.
      destruct (in_dec string_dec t (enabledTokensOf config)) as [Ht|Ht].
      * destruct (Hthresholds t Ht) as (_ & Hchains & _).
        apply (proj1 (subset_In _ _) Hchains), Hc.
      * assert (Habsent : has_key
                  (prop (prop config "commitTransfers") "minThresholdAmount") t = false).
        { destruct (has_key _ t) eqn:Hk; [| reflexivity].
          apply has_key_In in Hk. apply (proj1 (subset_In _ _) Hsub) in Hk.
          contradiction. }
        rewrite (absent_key_undefined _ _ Habsent) in Hc. destruct Hc.
Qed.

(** X12: in an accepted configuration with a [bonders] section, [bonders]
    is an object whose keys are exactly the enabled tokens; under every
    enabled token there is an object keyed by enabled chains, and under each
    of these an object keyed by enabled chains. *)
Theorem bonders_shape (config : value) :
  validateConfigFileStructure E config = Ok tt ->
  truthy (prop config "bonders") = true ->
  instanceof_Object (prop config "bonders") = true
  /\ (forall t, In t (own_keys (prop config "bonders")) <-> In t (enabledTokensOf config))
  /\ forall t, In t (enabledTokensOf config) ->
       instanceof_Object (prop (prop config "bonders") t) = true
       /\ forall s, In s (own_keys (prop (prop config "bonders") t)) ->
            In s (enabledChainsOf config)
            /\ instanceof_Object (prop (prop (prop config "bonders") t) s) = true
            /\ forall d, In d (own_keys (prop (prop (prop config "bonders") t) s)) ->
                 In d (enabledChainsOf config).
Proof.
  intros H Hbonders.
  apply validateConfigFileStructure_blocks in H
    as (_ & _ & _ & _ & _ & _ & _ & _ & _ & _ & _ & H & _).
  unfold checkBonders in H. rewrite Hbonders in H. cbn [when] in H. cbv zeta in H.
  apply bind_unit_Ok in H as (Hobject & H).
  apply throw_if_Ok, negb_false_iff in Hobject.
  apply bind_Ok in H as (tokens & Htokens & H).
  apply Object_keys_Ok in Htokens as (_ & ->).
  apply bind_unit_Ok in H as (Hvalid & Hloop).
  rewrite for_of_Ok in Hloop.
  assert (Htoken : forall t, In t (enabledTokensOf config) ->
       instanceof_Object (prop (prop config "bonders") t) = true
       /\ forall s, In s (own_keys (prop (prop config "bonders") t)) ->
            In s (enabledChainsOf config)
            /\ instanceof_Object (prop (prop (prop config "bonders") t) s) = true
            /\ forall d, In d (own_keys (prop (prop (prop config "bonders") t) s)) ->
                 In d (enabledChainsOf config)).
  { intros t Ht. specialize (Hloop t Ht).
    apply bind_unit_Ok in Hloop as (Hobject_t & Hloop).
    apply throw_if_Ok, negb_false_iff in Hobject_t.
    apply bind_Ok in Hloop as (sources & Hsources & Hloop).
    apply Object_keys_Ok in Hsources as (_ & ->).
    apply bind_unit_Ok in Hloop as (Hsub & Hinner).
    rewrite for_of_Ok in Hinner.
    split; [exact Hobject_t |]. intros s Hs.
    specialize (Hinner s Hs).
    apply bind_unit_Ok in Hinner as (Hobject_s & Hinner).
    apply throw_if_Ok, negb_false_iff in Hobject_s.
    apply keys_checked in Hinner as (_ & Hdst).
    split; [apply (proj1 (validateKeys_Ok _ _) Hsub), Hs |].
    split; [exact Hobject_s |].
    apply (proj1 (subset_In _ _) Hdst). }
  split; [exact Hobject |]. split; [| exact Htoken].
  intros t. split.
  - apply (proj1 (validateKeys_Ok _ _) Hvalid).
  - intros Ht. destruct (Htoken t Ht) as (Hobj & _).
    apply has_key_In. destruct (has_key (prop config "bonders") t) eqn:Hk; [reflexivity |].
    rewrite (absent_key_undefined _ _ Hk) in Hobj. discriminate.
Qed.

End MatrixKeys.

Lemma fee_tokens_are_the_enabled_tokens_witness :
  In "USDC" (own_keys (prop Example.scenario "fees"))
  <-> In "USDC" (enabledTokensOf Example.scenario).
Proof.
  apply (fee_tokens_are_the_enabled_tokens Example.env Example.scenario "USDC").
  - vm_compute. reflexivity.
  - reflexivity.
Defined.

Lemma threshold_tokens_are_the_enabled_tokens_witness :
  exists e,
    validateConfigFileStructure Example.env
      (Example.config_with [ ("commitTransfers", VObj []) ]) = Throw e.
Proof.
  apply (threshold_tokens_are_the_enabled_tokens Example.env
           (Example.config_with [ ("commitTransfers", VObj []) ]) ltac:(reflexivity)).
  reflexivity.
Defined.

Lemma bonders_shape_witness :
  instanceof_Object
    (prop (Example.config_with
             [ ("bonders",
                VObj [ ("USDC", VObj [ ("optimism", VObj [ ("ethereum", VStr "0x") ]) ]) ]) ])
       "bonders") = true.
Proof.
  apply (bonders_shape Example.env
           (Example.config_with
              [ ("bonders",
                 VObj [ ("USDC", VObj [ ("optimism", VObj [ ("ethereum", VStr "0x") ]) ]) ]) ])).
  - vm_compute. reflexivity.
  - reflexivity.
Defined.

(** ** The blocklist and the composition of key checks *)

(** X13: the structural pass accepts a [blocklist] only if it is an object
    with no other keys than [path] and [addresses], and its blocklist check
    asks for nothing more; the value pass accepts it only if [path] is a
    string, so that a blocklist without a [path], which the structural check
    lets through, makes the value pass throw. *)
Theorem blocklist_checked (E : externals) (config : value) :
  truthy (prop config "blocklist") = true ->
  (validateConfigFileStructure E config = Ok tt ->
   instanceof_Object (prop config "blocklist") = true
   /\ forall k, In k (own_keys (prop config "blocklist")) -> k = "path" \/ k = "addresses")
  /\ (validateConfigValues E config = Ok tt ->
      exists path, prop (prop config "blocklist") "path" = VStr path)
  /\ (has_key (prop config "blocklist") "path" = false ->
      exists e, validateConfigValues E config = Throw e)
  /\ (instanceof_Object (prop config "blocklist") = true ->
      (forall k, In k (own_keys (prop config "blocklist")) -> k = "path" \/ k = "addresses") ->
      checkBlocklist config = Ok tt).
Proof.
  intros Hblocklist.
  assert (Hvalues : validateConfigValues E config = Ok tt ->
                    exists path, prop (prop config "blocklist") "path" = VStr path).
  { intros H. apply validateConfigValues_blocks in H as (_ & _ & _ & _ & _ & _ & H).
    unfold checkBlocklistValues in H. rewrite Hblocklist in H. cbn [when] in H.
    apply throw_if_Ok, negb_false_iff in H.
    destruct (prop (prop config "blocklist") "path"); try discriminate. eauto. }
  split; [| split; [exact Hvalues | split]].
  - intros H. apply validateConfigFileStructure_blocks in H
      as (_ & _ & _ & _ & _ & _ & _ & _ & _ & _ & _ & _ & _ & H).
    unfold checkBlocklist in H. rewrite Hblocklist in H. cbn [when] in H. cbv zeta in H.
    apply bind_unit_Ok in H as (Hobject & H).
    apply throw_if_Ok, negb_false_iff in Hobject.
    apply keys_checked in H as (_ & Hsub).
    split; [exact Hobject |]. intros k Hk.
    pose proof (proj1 (subset_In _ _) Hsub k Hk) as Hin. simpl in Hin.
    destruct Hin as [<-|[<-|[]]]; auto.
  - intros Habsent. apply not_Ok_Throw. intros H.
    destruct (Hvalues H) as (path & Hpath).
    rewrite (absent_key_undefined _ _ Habsent) in Hpath. discriminate.
  - intros Hobject Hkeys. unfold checkBlocklist. rewrite Hblocklist, Hobject.
    cbn [when negb throw_if bind]. apply keys_checked.
    split; [apply truthy_not_nullish, Hblocklist |].
    apply subset_In. intros k Hk. destruct (Hkeys k Hk) as [-> | ->]; simpl; auto.
Qed.

Lemma blocklist_checked_witness :
  exists e,
    validateConfigValues Example.env
      (VObj [ ("blocklist", VObj [ ("addresses", VObj []) ]) ]) = Throw e.
Proof.
  apply (blocklist_checked Example.env
           (VObj [ ("blocklist", VObj [ ("addresses", VObj []) ]) ]) ltac:(reflexivity)).
  reflexivity.
Defined.

(** X14: [validateKeys] composes: keys that pass against a list whose
    members pass against a second list pass against the second list; and
    once a first batch of keys has passed, checking it followed by a second
    batch has the outcome, error included, of checking the second batch. *)
Theorem validateKeys_composes :
  (forall validKeys enabled keys,
     validateKeys enabled keys = Ok tt ->
     validateKeys validKeys enabled = Ok tt ->
     validateKeys validKeys keys = Ok tt)
  /\ (forall validKeys first second,
        validateKeys validKeys first = Ok tt ->
        validateKeys validKeys (first ++ second) = validateKeys validKeys second).
Proof.
  split.
  - intros validKeys enabled keys Hkeys Henabled.
    rewrite validateKeys_Ok in *. auto.
  - intros validKeys first second Hfirst. unfold validateKeys in *.
    induction first as [|k first IH]; [reflexivity |].
    simpl in *. apply bind_unit_Ok in Hfirst as (Hk & Hfirst).
    rewrite Hk. cbn [bind]. apply IH, Hfirst.
Qed.

Lemma validateKeys_composes_witness :
  validateKeys ["ethereum"; "optimism"; "arbitrum"] ["optimism"] = Ok tt
  /\ validateKeys ["ethereum"] (["ethereum"; "ethereum"] ++ ["base"])
     = validateKeys ["ethereum"] ["base"].
Proof.
  split.
  - apply (proj1 validateKeys_composes _ ["ethereum"; "optimism"] _); reflexivity.
  - apply (proj2 validateKeys_composes). reflexivity.
Defined.

(** ** Numbers, addresses and errors of the value pass *)

Section ValueBlocks.

Variable E : externals.

Lemma checkPositive_Ok (name chainSlug : string) (v : value) :
  checkPositive name chainSlug v = Ok tt <->
  nullish v = true \/ exists n, v = VNum n /\ PrimFloat.leb n zero = false.
Proof.
  unfold checkPositive. rewrite when_Ok. split.
  - intros H. destruct (nullish v) eqn:Hnull; [auto | right].
    specialize (H eq_refl).
    apply bind_unit_Ok in H as (Hnumber & Hrange).
    apply throw_if_Ok, negb_false_iff, is_number in Hnumber as (n & ->).
    apply throw_if_Ok in Hrange. exists n. auto.
  - intros [Hnull|(n & -> & Hrange)] Hguard.
    + rewrite Hnull in Hguard. discriminate.
    + simpl. rewrite Hrange. reflexivity.
Qed.

Lemma checkNetwork_numbers (networks : value) (chainSlug : string) :
  checkNetwork E networks chainSlug = Ok tt ->
  checkPositive "waitConfirmations" chainSlug
    (prop (prop networks chainSlug) "waitConfirmations") = Ok tt
  /\ checkPositive "maxGasPrice" chainSlug
       (prop (prop networks chainSlug) "maxGasPrice") = Ok tt.
Proof.
  unfold checkNetwork. cbv zeta. intros H.
  apply bind_unit_Ok in H as (_ & H).
  apply bind_unit_Ok in H as (_ & H).
  destruct (prop (prop networks chainSlug) "rpcUrl"); try discriminate.
  apply bind_unit_Ok in H as (_ & H).
  apply bind_unit_Ok in H as (Hwait & Hgas). auto.
Qed.

(** X15: the value pass accepts only if, for every chain of [networks],
    [waitConfirmations] and [maxGasPrice] are each absent ([undefined] or
    [null]) or a number that is not less than or equal to zero; a number
    less than or equal to zero under either name makes the pass throw; the
    comparison being the one of doubles, [NaN] is let through. *)
Theorem network_numbers_positive :
  (forall config chainSlug name,
     validateConfigValues E config = Ok tt ->
     In chainSlug (own_keys (prop config "networks")) ->
     name = "waitConfirmations" \/ name = "maxGasPrice" ->
     nullish (prop (prop (prop config "networks") chainSlug) name) = true
     \/ exists n, prop (prop (prop config "networks") chainSlug) name = VNum n
                  /\ PrimFloat.leb n zero = false)
  /\ (forall config chainSlug name n,
        In chainSlug (own_keys (prop config "networks")) ->
        name = "waitConfirmations" \/ name = "maxGasPrice" ->
        prop (prop (prop config "networks") chainSlug) name = VNum n ->
        PrimFloat.leb n zero = true ->
        exists e, validateConfigValues E config = Throw e)
  /\ (forall name chainSlug, checkPositive name chainSlug (VNum nan) = Ok tt).
Proof.
  assert (Hnecessary : forall config chainSlug name,
     validateConfigValues E config = Ok tt ->
     In chainSlug (own_keys (prop config "networks")) ->
     name = "waitConfirmations" \/ name = "maxGasPrice" ->
     nullish (prop (prop (prop config "networks") chainSlug) name) = true
     \/ exists n, prop (prop (prop config "networks") chainSlug) name = VNum n
                  /\ PrimFloat.leb n zero = false).
  { intros config chainSlug name H Hslug Hname.
    apply validateConfigValues_blocks in H as (_ & _ & Hnetworks & _).
    rewrite for_of_Ok in Hnetworks.
    destruct (checkNetwork_numbers _ _ (Hnetworks chainSlug Hslug)) as (Hwait & Hgas).
    destruct Hname as [-> | ->]; eapply checkPositive_Ok; eassumption. }
  split; [exact Hnecessary |]. split.
  - intros config chainSlug name n Hslug Hname Hvalue Hrange.
    apply not_Ok_Throw. intros H.
    destruct (Hnecessary config chainSlug name H Hslug Hname) as [Hnull|(n' & Hn' & Hpos)].
    + rewrite Hvalue in Hnull. discriminate.
    + rewrite Hvalue in Hn'. injection Hn' as <-. congruence.
  - intros name chainSlug. reflexivity.
Qed.

End ValueBlocks.

Lemma network_numbers_positive_witness :
  exists e,
    validateConfigValues Example.env
      (VObj [ ("networks",
               VObj [ ("ethereum", VObj [ ("rpcUrl", VStr "https://host");
                                          ("maxGasPrice", VNum 0%float) ]) ]) ])
    = Throw e.
Proof.
  apply (proj1 (proj2 (network_numbers_positive Example.env))
           _ "ethereum" "maxGasPrice" 0%float).
  - simpl. auto.
  - auto.
  - reflexivity.
  - reflexivity.
Defined.

Section ValueMatrices.

Variable E : externals.

Lemma has_key_not_nullish (v : value) (k : string) :
  has_key v k = true -> nullish v = false.
Proof. destruct v; simpl; try reflexivity; discriminate. Qed.

(** A read of an own enumerable property goes on in the value found. *)
Lemma typeof_number_at_own (v : value) (k : string) (rest : list string) :
  has_key v k = true ->
  typeof_number_at E v (k :: rest) = typeof_number_at E (prop v k) rest.
Proof.
  intros Hk. cbn [typeof_number_at]. rewrite (has_key_not_nullish _ _ Hk).
  apply has_key_lookup in Hk as (x & Hx). unfold prop. rewrite Hx.
  destruct rest; reflexivity.
Qed.

(** What the threshold block of the value pass has checked when it
    returns. *)
Lemma checkThresholdValues_Ok (config : value) (enabledTokens : list string)
    (t s d : string) :
  checkThresholdValues E config enabledTokens = Ok tt ->
  truthy (prop config "commitTransfers") = true ->
  own_keys (prop (prop config "commitTransfers") "minThresholdAmount") <> [] ->
  In t enabledTokens ->
  In s (own_keys (prop config "routes")) ->
  s <> Chain_Ethereum E ->
  In d (own_keys (prop (prop config "routes") s)) ->
  typeof_number_at E (prop (prop config "commitTransfers") "minThresholdAmount") [t; s; d]
  = Ok true.
Proof.
  unfold checkThresholdValues. intros H Hcommit Hkeys Ht Hs Hne Hd.
  rewrite Hcommit in H. cbn [when] in H. cbv zeta in H.
  apply bind_Ok in H as (keys & Hk & H). apply Object_keys_Ok in Hk as (_ & ->).
  destruct (List.length _ =? 0)%nat eqn:Hlen.
  { apply length_zero_nil in Hlen. contradiction. }
  cbn [negb when] in H. rewrite for_of_Ok in H. specialize (H t Ht).
  rewrite for_of_Ok in H. specialize (H s Hs).
  apply String.eqb_neq in Hne. rewrite Hne in H.
  rewrite for_of_Ok in H. specialize (H d Hd).
  apply bind_Ok in H as (isNumber & Hread & H).
  apply throw_if_Ok, negb_false_iff in H. rewrite H in Hread. exact Hread.
Qed.

(** X16: when [minThresholdAmount] has keys, the value pass accepts only if,
    for every token of [getEnabledTokens()] and every route that does not
    leave Ethereum, the read [minThresholdAmount[token][source][destination]]
    gives a number; a threshold that is there, as own properties at the
    three levels, is then a number, and the pass throws when it is there and
    is not one. *)
Theorem threshold_values_are_numbers (config : value) (t s d : string) :
  truthy (prop config "commitTransfers") = true ->
  own_keys (prop (prop config "commitTransfers") "minThresholdAmount") <> [] ->
  In t (getEnabledTokens E) ->
  In s (own_keys (prop config "routes")) ->
  s <> Chain_Ethereum E ->
  In d (own_keys (prop (prop config "routes") s)) ->
  let minThresholdAmount := prop (prop config "commitTransfers") "minThresholdAmount" in
  (validateConfigValues E config = Ok tt ->
   typeof_number_at E minThresholdAmount [t; s; d] = Ok true)
  /\ (has_key minThresholdAmount t = true ->
      has_key (prop minThresholdAmount t) s = true ->
      has_key (prop (prop minThresholdAmount t) s) d = true ->
      (validateConfigValues E config = Ok tt ->
       exists n, prop (prop (prop minThresholdAmount t) s) d = VNum n)
      /\ (is_type t_number (prop (prop (prop minThresholdAmount t) s) d) = false ->
          exists e, validateConfigValues E config = Throw e)).
Proof.
  intros Hcommit Hkeys Ht Hs Hne Hd minThresholdAmount.
  assert (Hread : validateConfigValues E config = Ok tt ->
                  typeof_number_at E minThresholdAmount [t; s; d] = Ok true).
  { intros H. apply validateConfigValues_blocks in H as (_ & _ & _ & H & _).
    apply (checkThresholdValues_Ok config (getEnabledTokens E)); assumption. }
  split; [exact Hread |]. intros Hkt Hks Hkd.
  assert (Hown : typeof_number_at E minThresholdAmount [t; s; d]
                 = Ok (is_type t_number (prop (prop (prop minThresholdAmount t) s) d))).
  { rewrite !typeof_number_at_own by assumption. reflexivity. }
  split.
  - intros H. apply Hread in H. rewrite Hown in H. injection H as H.
    apply is_number, H.
  - intros Hnot. apply not_Ok_Throw. intros H.
    apply Hread in H. rewrite Hown, Hnot in H. discriminate.
Qed.

(** X17: the value pass accepts only if every address found in [bonders]
    under an enabled token is a string that [checksumAddress] accepts; an
    address of another type, or one that [checksumAddress] refuses, makes
    the pass throw. *)
Theorem bonder_addresses_checksummed (config : value) (t s d : string) :
  truthy (prop config "bonders") = true ->
  In t (getEnabledTokens E) ->
  In s (own_keys (prop (prop config "bonders") t)) ->
  In d (own_keys (prop (prop (prop config "bonders") t) s)) ->
  (validateConfigValues E config = Ok tt ->
   exists address,
     prop (prop (prop (prop config "bonders") t) s) d = VStr address
     /\ checksumAddress E address <> None)
  /\ ((forall address, prop (prop (prop (prop config "bonders") t) s) d = VStr address ->
                       checksumAddress E address = None) ->
      exists e, validateConfigValues E config = Throw e).
Proof.
  intros Hbonders Ht Hs Hd.
  assert (Hok : validateConfigValues E config = Ok tt ->
                exists address,
                  prop (prop (prop (prop config "bonders") t) s) d = VStr address
                  /\ checksumAddress E address <> None).
  { intros H. apply validateConfigValues_blocks in H as (_ & _ & _ & _ & H & _).
    unfold checkBonderAddresses in H. rewrite Hbonders in H. cbn [when] in H.
    cbv zeta in H. rewrite for_of_Ok in H. specialize (H t Ht).
    rewrite for_of_Ok in H. specialize (H s Hs).
    rewrite for_of_Ok in H. specialize (H d Hd).
    destruct (prop (prop (prop (prop config "bonders") t) s) d); try discriminate.
    eexists. split; [reflexivity |].
    destruct (checksumAddress E _); [discriminate | discriminate H]. }
  split; [exact Hok |].
  intros Hbad. apply not_Ok_Throw. intros H.
  destruct (Hok H) as (address & Haddress & Hsum). exact (Hsum (Hbad address Haddress)).
Qed.

End ValueMatrices.

Lemma threshold_values_are_numbers_witness :
  exists e,
    validateConfigValues Example.env
      (VObj [ ("routes", Example.both_routes);
              ("commitTransfers", Example.thresholds (VStr "5")) ]) = Throw e.
Proof.
  apply (threshold_values_are_numbers Example.env
           (VObj [ ("routes", Example.both_routes);
                   ("commitTransfers", Example.thresholds (VStr "5")) ])
           "USDC" "optimism" "ethereum").
  - reflexivity.
  - discriminate.
  - simpl. auto.
  - simpl. auto.
  - discriminate.
  - simpl. auto.
  - reflexivity.
  - reflexivity.
  - reflexivity.
  - reflexivity.
Defined.

(** A route whose keys name a method of [Object.prototype] and its
    [length]: the read leaves the configuration, finds a number, and the
    value pass returns, though the threshold is not there. *)
Example threshold_read_in_a_prototype :
  validateConfigValues Example.env
    (VObj [ ("routes", VObj [ ("toString", VObj [ ("length", VBool true) ]) ]);
            ("commitTransfers",
             VObj [ ("minThresholdAmount", VObj [ ("USDC", VObj []) ]) ]) ])
  = Ok tt.
Proof. vm_compute. reflexivity. Qed.

Lemma bonder_addresses_checksummed_witness :
  exists e,
    validateConfigValues Example.env
      (VObj [ ("bonders",
               VObj [ ("USDC", VObj [ ("optimism", VObj [ ("ethereum", VStr "0x12") ]) ]) ]) ])
    = Throw e.
Proof.
  apply (bonder_addresses_checksummed Example.env
           (VObj [ ("bonders",
                    VObj [ ("USDC",
                            VObj [ ("optimism", VObj [ ("ethereum", VStr "0x12") ]) ]) ]) ])
           "USDC" "optimism" "ethereum").
  - reflexivity.
  - simpl. auto.
  - simpl. auto.
  - simpl. auto.
  - intros address H. injection H as <-. reflexivity.
Defined.

(** ** The value pass after the structural pass *)

(** A loop either completes or has the outcome of its body at one of the
    elements, where the body threw. *)
Lemma for_of_cases {A : Type} (xs : list A) (body : A -> result unit) :
  for_of xs body = Ok tt
  \/ exists x e, In x xs /\ body x = Throw e /\ for_of xs body = Throw e.
Proof.
  induction xs as [|x xs IH]; simpl; [auto |].
  destruct (body x) as [[]|e] eqn:Hx; cbn [bind].
  - destruct IH as [IH|(y & e & Hy & Hbody & Hloop)]; [auto | right].
    exists y, e. auto.
  - right. exists x, e. auto.
Qed.

Section AfterStructure.

Variable E : externals.

(** X18: on a configuration that the structural pass accepts, and whose
    enabled tokens include those [getEnabledTokens()] returns, the threshold
    block of the value pass reads every threshold without a [TypeError]: it
    returns, or throws the error saying that the threshold of one token and
    route must be a number. *)
Theorem thresholds_read_after_structure (config : value) :
  validateConfigFileStructure E config = Ok tt ->
  (forall t, In t (getEnabledTokens E) -> In t (enabledTokensOf config)) ->
  checkThresholdValues E config (getEnabledTokens E) = Ok tt
  \/ exists t s d,
       In t (getEnabledTokens E)
       /\ In s (own_keys (prop config "routes"))
       /\ In d (own_keys (prop (prop config "routes") s))
       /\ checkThresholdValues E config (getEnabledTokens E)
          = Throw (Error ("minThresholdAmount config for token " ++ quoted t
                          ++ " source chain " ++ quoted s
                          ++ " destination chain " ++ quoted d
                          ++ " must be a number")).
Proof.
  intros H Henabled.
  apply validateConfigFileStructure_blocks in H
    as (_ & _ & _ & _ & _ & _ & _ & _ & _ & _ & Hblock & _).
  unfold checkThresholdValues.
  destruct (truthy (prop config "commitTransfers")) eqn:Hcommit; [| left; reflexivity].
  destruct (checkCommitTransfers_Ok E _ _ _ Hblock Hcommit) as (_ & Hmin & Hloop).
  cbn [when]. cbv zeta. unfold Object_keys. rewrite Hmin. cbn [bind].
  destruct (own_keys (prop (prop config "commitTransfers") "minThresholdAmount"))
    as [|token tokens] eqn:Hkeys; [left; reflexivity |].
  cbn [List.length Nat.eqb negb when].
  destruct Hloop as (_ & Hthresholds); [discriminate |].
  rewrite checkThresholds_Ok in Hthresholds.
  match goal with |- for_of ?xs ?body = _ \/ _ =>
    destruct (for_of_cases xs body) as [Hok|(t & e & Ht & Hbody & Hthrow)]
  end; [left; exact Hok | right].
  rewrite Hthrow. exists t.
  match type of Hbody with for_of ?xs ?body = _ =>
    destruct (for_of_cases xs body) as [Hok|(s & e' & Hs & Hbody' & Hthrow')]
  end; [congruence |].
  rewrite Hbody in Hthrow'. injection Hthrow' as <-. exists s.
  destruct (String.eqb_spec s (Chain_Ethereum E)) as [_|Hne]; [discriminate |].
  match type of Hbody' with for_of ?xs ?body = _ =>
    destruct (for_of_cases xs body) as [Hok|(d & e' & Hd & Hentry & Hthrow')]
  end; [congruence |].
  rewrite Hbody' in Hthrow'. injection Hthrow' as <-. exists d.
  repeat (split; [assumption |]).
  destruct (Hthresholds t (Henabled t Ht)) as (Htoken & _ & Hsources).
  destruct (Hsources s Hs Hne) as (Hsource & _).
  rewrite (typeof_number_at_own E _ t) in Hentry by (apply truthy_has_key, Htoken).
  rewrite (typeof_number_at_own E _ s) in Hentry by (apply truthy_has_key, Hsource).
  cbn [typeof_number_at] in Hentry.
  rewrite (truthy_not_nullish _ Hsource) in Hentry.
  assert (Hcases : forall isNumber : bool,
            throw_if (negb isNumber)
              (Error ("minThresholdAmount config for token " ++ quoted t
                      ++ " source chain " ++ quoted s
                      ++ " destination chain " ++ quoted d
                      ++ " must be a number")) = Throw e ->
            Throw e
            = Throw (A := unit)
                (Error ("minThresholdAmount config for token " ++ quoted t
                        ++ " source chain " ++ quoted s
                        ++ " destination chain " ++ quoted d
                        ++ " must be a number"))).
  { intros [|] Hb; [discriminate Hb | symmetry; exact Hb]. }
  destruct (lookup d _) in Hentry; cbn [bind] in Hentry; apply Hcases in Hentry;
    exact Hentry.
Qed.

(** X19: the first chain of [networks] that fails decides the error of the
    value pass: a falsy configuration of the chain is reported with the
    value found, not with the name of the chain; a falsy [rpcUrl] is
    reported as required and a truthy [rpcUrl] that is not a string as not
    being a string, both with the name of the chain. *)
Theorem network_errors (config : value) (before after : list string) (chainSlug : string) :
  instanceof_Object config = true ->
  own_keys (prop config "networks") = before ++ chainSlug :: after ->
  (forall slug, In slug before -> checkNetwork E (prop config "networks") slug = Ok tt) ->
  let chain := prop (prop config "networks") chainSlug in
  (truthy chain = false ->
   validateConfigValues E config
   = Throw (Error ("RPC config for chain " ++ quoted (ToString E chain) ++ " is required")))
  /\ (truthy chain = true ->
      truthy (prop chain "rpcUrl") = false ->
      validateConfigValues E config
      = Throw (Error ("RPC url for chain " ++ quoted chainSlug ++ " is required")))
  /\ (truthy (prop chain "rpcUrl") = true ->
      is_type t_string (prop chain "rpcUrl") = false ->
      validateConfigValues E config
      = Throw (Error ("RPC url for chain " ++ quoted chainSlug ++ " must be a string"))).
Proof.
  intros Hobject Hkeys Hbefore chain.
  assert (Htruthy : truthy config = true) by (destruct config; simpl in *; congruence).
  assert (Hfirst : forall e,
            checkNetwork E (prop config "networks") chainSlug = Throw e ->
            validateConfigValues E config = Throw e).
  { intros e He. unfold validateConfigValues.
    rewrite Htruthy, Hobject, Hkeys. cbn [negb throw_if bind].
    rewrite (for_of_first_throw before after chainSlug _ e Hbefore He). reflexivity. }
  split; [| split].
  - intros Hchain. apply Hfirst. unfold checkNetwork. cbv zeta.
    fold chain. rewrite Hchain. reflexivity.
  - intros Hchain Hrpc. apply Hfirst. unfold checkNetwork. cbv zeta.
    fold chain. rewrite Hchain, Hrpc. reflexivity.
  - intros Hrpc Hstring. apply Hfirst. unfold checkNetwork. cbv zeta. fold chain.
    assert (Hchain : truthy chain = true).
    { destruct (truthy chain) eqn:Hc; [reflexivity |].
      rewrite (falsy_prop _ "rpcUrl" Hc) in Hrpc. discriminate. }
    rewrite Hchain, Hrpc. cbn [negb throw_if bind].
    destruct (prop chain "rpcUrl"); try reflexivity. discriminate.
Qed.

End AfterStructure.

Lemma thresholds_read_after_structure_witness :
  checkThresholdValues Example.env (Example.scenario_with_thresholds (VStr "5"))
    (getEnabledTokens Example.env) = Ok tt
  \/ exists t s d,
       In t (getEnabledTokens Example.env)
       /\ In s (own_keys (prop (Example.scenario_with_thresholds (VStr "5")) "routes"))
       /\ In d (own_keys (prop (prop (Example.scenario_with_thresholds (VStr "5")) "routes") s))
       /\ checkThresholdValues Example.env (Example.scenario_with_thresholds (VStr "5"))
            (getEnabledTokens Example.env)
          = Throw (Error ("minThresholdAmount config for token " ++ quoted t
                          ++ " source chain " ++ quoted s
                          ++ " destination chain " ++ quoted d
                          ++ " must be a number")).
Proof.
  apply (thresholds_read_after_structure Example.env
           (Example.scenario_with_thresholds (VStr "5"))).
  - vm_compute. reflexivity.
  - intros t [<-|[]]. simpl. auto.
Defined.

Lemma network_errors_witness :
  validateConfigValues Example.env
    (VObj [ ("networks", VObj [ ("ethereum", VObj [ ("rpcUrl", VStr "https://host") ]);
                                ("optimism", VNull) ]) ])
  = Throw (Error ("RPC config for chain " ++ quoted "null" ++ " is required")).
Proof.
  apply (network_errors Example.env
           (VObj [ ("networks", VObj [ ("ethereum", VObj [ ("rpcUrl", VStr "https://host") ]);
                                       ("optimism", VNull) ]) ])
           ["ethereum"] [] "optimism").
  - reflexivity.
  - reflexivity.
  - intros slug [<-|[]]. reflexivity.
  - reflexivity.
Defined.
